(** * formbuilder3: submissions, workflow status updates, permissions and
      client-side form validation

    A shallow embedding of
    - the Submission model ([src/server/models/Submission.js]: schema,
      [pre('save')] hook, [updateStatus]),
    - the Workflow and Form models ([src/server/models/Workflow.js]: stage
      and action schema, [canView], [canSubmit]),
    - the submission controller
      ([src/server/controllers/submissionController.js], second version:
      [createSubmission], [updateSubmissionStatus], [deleteSubmission]),
    - the form page ([src/unnamed/part_011], [FormView]: [validateForm],
      [evaluateCondition]),
    followed by the properties checked against them. *)

From stdpp Require Import gmap strings list pretty.
From Stdlib Require Import Ascii String ZArith Lia.

Open Scope string_scope.

(** ** JavaScript string primitives used by the sources *)
Module Str.

Fixpoint repeat_str (n : nat) (c : string) : string :=
  match n with
  | O => ""
  | S k => c ++ repeat_str k c
  end.

(** [s.padStart(n, c)] for a one-character filler [c]. *)
Definition padStart (n : nat) (c : string) (s : string) : string :=
  repeat_str (n - String.length s) c ++ s.

(** [s.split(sep)] for a one-character separator. *)
Fixpoint split_go (sep : ascii) (s : string) (cur : string) : list string :=
  match s with
  | EmptyString => [cur]
  | String c rest =>
      if Ascii.eqb c sep then cur :: split_go sep rest ""
      else split_go sep rest (cur ++ String c "")
  end.

Definition split (sep : ascii) (s : string) : list string := split_go sep s "".

(** [s.includes(t)]: [t] occurs in [s] as a substring. *)
Fixpoint includes (s t : string) : bool :=
  String.prefix t s ||
  match s with
  | EmptyString => false
  | String _ rest => includes rest t
  end.

Definition is_white (c : ascii) : bool :=
  let n := nat_of_ascii c in
  (n =? 32)%nat || ((9 <=? n)%nat && (n <=? 13)%nat).

Fixpoint trimStart (s : string) : string :=
  match s with
  | String c rest => if is_white c then trimStart rest else s
  | EmptyString => s
  end.

Definition digit_val (c : ascii) : option Z :=
  let n := nat_of_ascii c in
  if (48 <=? n)%nat && (n <=? 57)%nat then Some (Z.of_nat (n - 48))
  else if (97 <=? n)%nat && (n <=? 102)%nat then Some (Z.of_nat (n - 87))
  else if (65 <=? n)%nat && (n <=? 70)%nat then Some (Z.of_nat (n - 55))
  else None.

(** The longest prefix of digits in the given radix, read as a number;
    [None] when there is no digit at all. *)
Fixpoint digits (radix : Z) (s : string) (acc : option Z) : option Z :=
  match s with
  | EmptyString => acc
  | String c rest =>
      match digit_val c with
      | Some d =>
          if (d <? radix)%Z
          then digits radix rest (Some (default 0%Z acc * radix + d)%Z)
          else acc
      | None => acc
      end
  end.

Definition unsigned_int (s : string) : option Z :=
  match s with
  | String "0" (String "x" rest) | String "0" (String "X" rest) =>
      digits 16 rest None
  | _ => digits 10 s None
  end.

(** [parseInt(s)] without a radix; [None] stands for [NaN]. *)
Definition parseInt (s : string) : option Z :=
  match trimStart s with
  | String "-" rest => Z.opp <$> unsigned_int rest
  | String "+" rest => unsigned_int rest
  | t => unsigned_int t
  end.

(** [String(n)] for an integral number or [NaN]. *)
Definition of_number (n : option Z) : string :=
  match n with
  | Some z => pretty z
  | None => "NaN"
  end.

End Str.

(** ** Data model of the server ([server/models]) *)
Module Model.

(** A MongoDB ObjectId. *)
Definition oid := nat.

(** What [new Date()] returns: the local calendar year, [getMonth()]
    (0 to 11) and the epoch time.  A request is served at one instant. *)
Record Date := {
  getFullYear : nat;
  getMonth : nat;
  getTime : nat;
}.

(** The authenticated [req.user]. *)
Record User := {
  u_id : oid;
  u_role : string;
  u_organization : option string;
}.

(** *** Workflow.js *)
Record Action := {
  act_id : string;
  act_name : string;
  nextStage : string;
  requireComment : bool;
}.

Record Stage := {
  st_id : string;
  st_name : string;
  allowedRoles : list string;
  allowedUsers : list oid;
  actions : list Action;
}.

Record Workflow := {
  w_id : oid;
  stages : list Stage;
  initialStage : string;
  finalStages : list string;
}.

(** *** Form.js *)
Record FormPolicy := {
  public : bool;
  fp_roles : list string;
  fp_users : list oid;
}.

Record SubmissionPolicy := {
  sp_roles : list string;
  sp_users : list oid;
  ownSubmissionsOnly : bool;
}.

Record Permissions := {
  viewForm : FormPolicy;
  submitForm : FormPolicy;
  editSubmissions : SubmissionPolicy;
  viewSubmissions : SubmissionPolicy;
  deleteSubmissions : SubmissionPolicy;
}.

Record Scheduling := {
  sch_enabled : bool;
  startDate : option nat;
  endDate : option nat;
  closedMessage : option string;
}.

Record Quotas := {
  q_enabled : bool;
  maxSubmissions : option nat;
  quotaReachedMessage : option string;
}.

Record Settings := {
  allowMultipleSubmissions : bool;
  requireLogin : bool;
  scheduling : option Scheduling;
  quotas : option Quotas;
}.

Record MasterForm := {
  mf_formId : option oid;
  cascadeDelete : bool;
}.

(** The part of a field definition the controller reads. *)
Record FieldDef := {
  fd_id : string;
  fd_nestedForm : option oid;   (* field.nestedForm?.formId *)
}.

Record Form := {
  f_id : oid;
  f_type : string;
  f_isActive : bool;
  f_fields : list FieldDef;
  f_settings : Settings;
  f_permissions : Permissions;
  f_masterForm : option MasterForm;
  f_workflow : option oid;
  f_version : nat;
  f_analytics_submissions : nat;
  f_updatedAt : nat;
}.

(** *** Submission.js *)

(** Field values travel through the server untouched; they are kept as
    an opaque map from field id to the value's JSON text. *)
Definition Data := gmap string string.

Record HistoryEntry := {
  h_stage : string;
  h_user : oid;
  h_action : string;
  h_comment : option string;
  h_timestamp : nat;
}.

Record AuditEntry := {
  au_user : oid;
  au_action : string;
  au_field : string;
  au_oldValue : string;
  au_newValue : string;
  au_timestamp : nat;
}.

Record FileRef := {
  fr_fieldId : string;
  fr_fileId : string;
}.

Record NestedLink := {
  nl_fieldId : string;
  nl_submissions : list oid;
}.

Record Metadata := {
  ipAddress : option string;
  userAgent : option string;
  browser : string;
  os : string;
  device : string;
}.

Record Submission := {
  s_id : oid;
  form : oid;
  parentSubmission : option oid;
  masterSubmission : option oid;
  submissionNumber : option string;
  data : Data;
  nestedSubmissions : list NestedLink;
  files : list FileRef;
  submittedBy : oid;
  currentStage : string;
  workflowHistory : list HistoryEntry;
  status : string;
  priority : string;
  completedAt : option nat;
  completedBy : option oid;
  organization : string;
  formVersion : option nat;
  metadata : option Metadata;
  auditLog : list AuditEntry;
  isDeleted : bool;
  deletedAt : option nat;
  deletedBy : option oid;
  createdAt : nat;
  updatedAt : nat;
  lastModifiedBy : option oid;
}.

(** Enumerations declared by the schema. *)
Definition status_enum : list string :=
  ["draft"; "submitted"; "in_review"; "approved"; "rejected"; "returned";
   "completed"; "archived"].

Definition priority_enum : list string :=
  ["low"; "medium"; "high"; "urgent"; "critical"].

(** The database: the two collections the controller touches, the
    workflows the forms refer to, the ObjectId generator and the GridFS
    bucket ([None] until the connection is open). *)
Record Store := {
  submissions : list Submission;
  forms : list Form;
  workflows : list Workflow;
  next_oid : oid;
  bucket : option (list string);
}.

(** An HTTP response [res.status(code).json({success, message, data})]. *)
Record Response := {
  code : nat;
  success : bool;
  message : option string;
  payload : option Submission;
}.

(** Assignments [doc.field = v] on a submission document. *)
Definition set_submissionNumber (v : option string) (s : Submission) : Submission :=
  {| s_id := s_id s; form := form s; parentSubmission :=
     parentSubmission s; masterSubmission := masterSubmission s;
     submissionNumber := v; data := data s; nestedSubmissions :=
     nestedSubmissions s; files := files s; submittedBy := submittedBy
     s; currentStage := currentStage s; workflowHistory :=
     workflowHistory s; status := status s; priority := priority s;
     completedAt := completedAt s; completedBy := completedBy s;
     organization := organization s; formVersion := formVersion s;
     metadata := metadata s; auditLog := auditLog s; isDeleted :=
     isDeleted s; deletedAt := deletedAt s; deletedBy := deletedBy s;
     createdAt := createdAt s; updatedAt := updatedAt s; lastModifiedBy
     := lastModifiedBy s |}.

Definition set_updatedAt (v : nat) (s : Submission) : Submission :=
  {| s_id := s_id s; form := form s; parentSubmission :=
     parentSubmission s; masterSubmission := masterSubmission s;
     submissionNumber := submissionNumber s; data := data s;
     nestedSubmissions := nestedSubmissions s; files := files s;
     submittedBy := submittedBy s; currentStage := currentStage s;
     workflowHistory := workflowHistory s; status := status s; priority
     := priority s; completedAt := completedAt s; completedBy :=
     completedBy s; organization := organization s; formVersion :=
     formVersion s; metadata := metadata s; auditLog := auditLog s;
     isDeleted := isDeleted s; deletedAt := deletedAt s; deletedBy :=
     deletedBy s; createdAt := createdAt s; updatedAt := v;
     lastModifiedBy := lastModifiedBy s |}.

Definition set_status (v : string) (s : Submission) : Submission :=
  {| s_id := s_id s; form := form s; parentSubmission :=
     parentSubmission s; masterSubmission := masterSubmission s;
     submissionNumber := submissionNumber s; data := data s;
     nestedSubmissions := nestedSubmissions s; files := files s;
     submittedBy := submittedBy s; currentStage := currentStage s;
     workflowHistory := workflowHistory s; status := v; priority :=
     priority s; completedAt := completedAt s; completedBy :=
     completedBy s; organization := organization s; formVersion :=
     formVersion s; metadata := metadata s; auditLog := auditLog s;
     isDeleted := isDeleted s; deletedAt := deletedAt s; deletedBy :=
     deletedBy s; createdAt := createdAt s; updatedAt := updatedAt s;
     lastModifiedBy := lastModifiedBy s |}.

Definition set_workflowHistory (v : list HistoryEntry) (s : Submission) : Submission :=
  {| s_id := s_id s; form := form s; parentSubmission :=
     parentSubmission s; masterSubmission := masterSubmission s;
     submissionNumber := submissionNumber s; data := data s;
     nestedSubmissions := nestedSubmissions s; files := files s;
     submittedBy := submittedBy s; currentStage := currentStage s;
     workflowHistory := v; status := status s; priority := priority s;
     completedAt := completedAt s; completedBy := completedBy s;
     organization := organization s; formVersion := formVersion s;
     metadata := metadata s; auditLog := auditLog s; isDeleted :=
     isDeleted s; deletedAt := deletedAt s; deletedBy := deletedBy s;
     createdAt := createdAt s; updatedAt := updatedAt s; lastModifiedBy
     := lastModifiedBy s |}.

Definition set_auditLog (v : list AuditEntry) (s : Submission) : Submission :=
  {| s_id := s_id s; form := form s; parentSubmission :=
     parentSubmission s; masterSubmission := masterSubmission s;
     submissionNumber := submissionNumber s; data := data s;
     nestedSubmissions := nestedSubmissions s; files := files s;
     submittedBy := submittedBy s; currentStage := currentStage s;
     workflowHistory := workflowHistory s; status := status s; priority
     := priority s; completedAt := completedAt s; completedBy :=
     completedBy s; organization := organization s; formVersion :=
     formVersion s; metadata := metadata s; auditLog := v; isDeleted :=
     isDeleted s; deletedAt := deletedAt s; deletedBy := deletedBy s;
     createdAt := createdAt s; updatedAt := updatedAt s; lastModifiedBy
     := lastModifiedBy s |}.

Definition set_lastModifiedBy (v : option oid) (s : Submission) : Submission :=
  {| s_id := s_id s; form := form s; parentSubmission :=
     parentSubmission s; masterSubmission := masterSubmission s;
     submissionNumber := submissionNumber s; data := data s;
     nestedSubmissions := nestedSubmissions s; files := files s;
     submittedBy := submittedBy s; currentStage := currentStage s;
     workflowHistory := workflowHistory s; status := status s; priority
     := priority s; completedAt := completedAt s; completedBy :=
     completedBy s; organization := organization s; formVersion :=
     formVersion s; metadata := metadata s; auditLog := auditLog s;
     isDeleted := isDeleted s; deletedAt := deletedAt s; deletedBy :=
     deletedBy s; createdAt := createdAt s; updatedAt := updatedAt s;
     lastModifiedBy := v |}.

Definition set_currentStage (v : string) (s : Submission) : Submission :=
  {| s_id := s_id s; form := form s; parentSubmission :=
     parentSubmission s; masterSubmission := masterSubmission s;
     submissionNumber := submissionNumber s; data := data s;
     nestedSubmissions := nestedSubmissions s; files := files s;
     submittedBy := submittedBy s; currentStage := v; workflowHistory :=
     workflowHistory s; status := status s; priority := priority s;
     completedAt := completedAt s; completedBy := completedBy s;
     organization := organization s; formVersion := formVersion s;
     metadata := metadata s; auditLog := auditLog s; isDeleted :=
     isDeleted s; deletedAt := deletedAt s; deletedBy := deletedBy s;
     createdAt := createdAt s; updatedAt := updatedAt s; lastModifiedBy
     := lastModifiedBy s |}.

Definition set_priority (v : string) (s : Submission) : Submission :=
  {| s_id := s_id s; form := form s; parentSubmission :=
     parentSubmission s; masterSubmission := masterSubmission s;
     submissionNumber := submissionNumber s; data := data s;
     nestedSubmissions := nestedSubmissions s; files := files s;
     submittedBy := submittedBy s; currentStage := currentStage s;
     workflowHistory := workflowHistory s; status := status s; priority
     := v; completedAt := completedAt s; completedBy := completedBy s;
     organization := organization s; formVersion := formVersion s;
     metadata := metadata s; auditLog := auditLog s; isDeleted :=
     isDeleted s; deletedAt := deletedAt s; deletedBy := deletedBy s;
     createdAt := createdAt s; updatedAt := updatedAt s; lastModifiedBy
     := lastModifiedBy s |}.

Definition set_completedAt (v : option nat) (s : Submission) : Submission :=
  {| s_id := s_id s; form := form s; parentSubmission :=
     parentSubmission s; masterSubmission := masterSubmission s;
     submissionNumber := submissionNumber s; data := data s;
     nestedSubmissions := nestedSubmissions s; files := files s;
     submittedBy := submittedBy s; currentStage := currentStage s;
     workflowHistory := workflowHistory s; status := status s; priority
     := priority s; completedAt := v; completedBy := completedBy s;
     organization := organization s; formVersion := formVersion s;
     metadata := metadata s; auditLog := auditLog s; isDeleted :=
     isDeleted s; deletedAt := deletedAt s; deletedBy := deletedBy s;
     createdAt := createdAt s; updatedAt := updatedAt s; lastModifiedBy
     := lastModifiedBy s |}.

Definition set_completedBy (v : option oid) (s : Submission) : Submission :=
  {| s_id := s_id s; form := form s; parentSubmission :=
     parentSubmission s; masterSubmission := masterSubmission s;
     submissionNumber := submissionNumber s; data := data s;
     nestedSubmissions := nestedSubmissions s; files := files s;
     submittedBy := submittedBy s; currentStage := currentStage s;
     workflowHistory := workflowHistory s; status := status s; priority
     := priority s; completedAt := completedAt s; completedBy := v;
     organization := organization s; formVersion := formVersion s;
     metadata := metadata s; auditLog := auditLog s; isDeleted :=
     isDeleted s; deletedAt := deletedAt s; deletedBy := deletedBy s;
     createdAt := createdAt s; updatedAt := updatedAt s; lastModifiedBy
     := lastModifiedBy s |}.

Definition set_isDeleted (v : bool) (s : Submission) : Submission :=
  {| s_id := s_id s; form := form s; parentSubmission :=
     parentSubmission s; masterSubmission := masterSubmission s;
     submissionNumber := submissionNumber s; data := data s;
     nestedSubmissions := nestedSubmissions s; files := files s;
     submittedBy := submittedBy s; currentStage := currentStage s;
     workflowHistory := workflowHistory s; status := status s; priority
     := priority s; completedAt := completedAt s; completedBy :=
     completedBy s; organization := organization s; formVersion :=
     formVersion s; metadata := metadata s; auditLog := auditLog s;
     isDeleted := v; deletedAt := deletedAt s; deletedBy := deletedBy s;
     createdAt := createdAt s; updatedAt := updatedAt s; lastModifiedBy
     := lastModifiedBy s |}.

Definition set_deletedAt (v : option nat) (s : Submission) : Submission :=
  {| s_id := s_id s; form := form s; parentSubmission :=
     parentSubmission s; masterSubmission := masterSubmission s;
     submissionNumber := submissionNumber s; data := data s;
     nestedSubmissions := nestedSubmissions s; files := files s;
     submittedBy := submittedBy s; currentStage := currentStage s;
     workflowHistory := workflowHistory s; status := status s; priority
     := priority s; completedAt := completedAt s; completedBy :=
     completedBy s; organization := organization s; formVersion :=
     formVersion s; metadata := metadata s; auditLog := auditLog s;
     isDeleted := isDeleted s; deletedAt := v; deletedBy := deletedBy s;
     createdAt := createdAt s; updatedAt := updatedAt s; lastModifiedBy
     := lastModifiedBy s |}.

Definition set_deletedBy (v : option oid) (s : Submission) : Submission :=
  {| s_id := s_id s; form := form s; parentSubmission :=
     parentSubmission s; masterSubmission := masterSubmission s;
     submissionNumber := submissionNumber s; data := data s;
     nestedSubmissions := nestedSubmissions s; files := files s;
     submittedBy := submittedBy s; currentStage := currentStage s;
     workflowHistory := workflowHistory s; status := status s; priority
     := priority s; completedAt := completedAt s; completedBy :=
     completedBy s; organization := organization s; formVersion :=
     formVersion s; metadata := metadata s; auditLog := auditLog s;
     isDeleted := isDeleted s; deletedAt := deletedAt s; deletedBy := v;
     createdAt := createdAt s; updatedAt := updatedAt s; lastModifiedBy
     := lastModifiedBy s |}.

Definition set_analytics_submissions (n : nat) (now : nat) (f : Form) : Form :=
  {| f_id := f_id f; f_type := f_type f; f_isActive := f_isActive f;
     f_fields := f_fields f; f_settings := f_settings f;
     f_permissions := f_permissions f; f_masterForm := f_masterForm f;
     f_workflow := f_workflow f; f_version := f_version f;
     f_analytics_submissions := n; f_updatedAt := now |}.

Definition set_submissions (l : list Submission) (st : Store) : Store :=
  {| submissions := l; forms := forms st; workflows := workflows st;
     next_oid := next_oid st; bucket := bucket st |}.

Definition set_forms (l : list Form) (st : Store) : Store :=
  {| submissions := submissions st; forms := l; workflows := workflows st;
     next_oid := next_oid st; bucket := bucket st |}.

Definition set_next_oid (n : oid) (st : Store) : Store :=
  {| submissions := submissions st; forms := forms st;
     workflows := workflows st; next_oid := n; bucket := bucket st |}.

Definition set_bucket (b : option (list string)) (st : Store) : Store :=
  {| submissions := submissions st; forms := forms st;
     workflows := workflows st; next_oid := next_oid st; bucket := b |}.

(** JavaScript truthiness of an optional string ([undefined] and the
    empty string are falsy). *)
Definition truthy (o : option string) : bool :=
  match o with
  | Some s => negb (String.eqb s "")
  | None => false
  end.

End Model.

(** ** Mongoose operations on the store, with exceptions and early replies *)
Module Mongoose.
Import Model.

(** A controller body either goes on with a value, throws (to be caught
    by the handler's [catch]), or has already sent its response
    ([return res.status(..).json(..)]).  The store is threaded through
    and keeps whatever was written before a throw. *)
Inductive outcome (A : Type) : Type :=
| Val (a : A)
| Throw (msg : string)
| Reply (r : Response).
Arguments Val {A} a.
Arguments Throw {A} msg.
Arguments Reply {A} r.

Definition M (A : Type) : Type := Store -> outcome A * Store.

#[global] Instance M_ret : MRet M := fun A a st => (Val a, st).

#[global] Instance M_bind : MBind M := fun A B f m st =>
  match m st with
  | (Val a, st') => f a st'
  | (Throw msg, st') => (Throw msg, st')
  | (Reply r, st') => (Reply r, st')
  end.

Definition get : M Store := fun st => (Val st, st).
Definition put (st : Store) : M unit := fun _ => (Val tt, st).
Definition throw {A} (msg : string) : M A := fun st => (Throw msg, st).
Definition reply {A} (r : Response) : M A := fun st => (Reply r, st).

Definition json (c : nat) (ok : bool) (msg : option string)
    (d : option Submission) : Response :=
  {| code := c; success := ok; message := msg; payload := d |}.

(** [try { body } catch (error) { res.status(500).json({success: false,
    message: error.message}) }] *)
Definition handler (body : M Response) (st : Store) : Response * Store :=
  match body st with
  | (Val r, st') => (r, st')
  | (Reply r, st') => (r, st')
  | (Throw msg, st') => (json 500 false (Some msg) None, st')
  end.

(** *** Queries *)
Definition Submission_findById (id : oid) : M (option Submission) :=
  st ← get;
  mret (List.find (fun s => Nat.eqb (s_id s) id) (submissions st)).

Definition Form_findById (id : oid) : M (option Form) :=
  st ← get;
  mret (List.find (fun f => Nat.eqb (f_id f) id) (forms st)).

Definition Submission_findOne (p : Submission -> bool) : M (option Submission) :=
  st ← get;
  mret (List.find p (submissions st)).

Definition Submission_countDocuments (p : Submission -> bool) : M nat :=
  st ← get;
  mret (List.length (List.filter p (submissions st))).

(** [Submission.updateMany(filter, update)]: no hooks, no validators. *)
Definition Submission_updateMany (p : Submission -> bool)
    (upd : Submission -> Submission) : M unit :=
  st ← get;
  put (set_submissions
         (List.map (fun s => if p s then upd s else s) (submissions st)) st).

(** *** Schema validation run by [save] *)
Definition in_enum (v : string) (enum : list string) : bool :=
  existsb (String.eqb v) enum.

Definition validate (doc : Submission) : option string :=
  if negb (in_enum (status doc) status_enum) then
    Some ("Submission validation failed: status: `" ++ status doc ++
          "` is not a valid enum value for path `status`.")
  else if negb (in_enum (priority doc) priority_enum) then
    Some ("Submission validation failed: priority: `" ++ priority doc ++
          "` is not a valid enum value for path `priority`.")
  else None.

(** *** [submissionSchema.pre('save')] *)

(** [`SUB-${year}${month}-`] *)
Definition month_prefix (now : Date) : string :=
  "SUB-" ++ pretty (getFullYear now) ++
  Str.padStart 2 "0" (pretty (getMonth now + 1)) ++ "-".

Definition number_or_empty (s : Submission) : string :=
  default "" (submissionNumber s).

(** [findOne({submissionNumber: /^prefix/}).sort({submissionNumber: -1})]:
    among the documents whose number starts with the prefix, one with the
    greatest number in string order. *)
Definition findLast (prefix : string) (subs : list Submission)
    : option Submission :=
  foldr (fun s best =>
           match submissionNumber s with
           | Some n =>
               if String.prefix prefix n then
                 match best with
                 | Some b =>
                     if String.ltb (number_or_empty b) n then Some s else Some b
                 | None => Some s
                 end
               else best
           | None => best
           end) None subs.

(** [let sequence = 1; if (lastSubmission) { ... sequence = lastSequence + 1 }]
    The numbers are integers; JavaScript's are doubles, which are the
    integers up to 2^53, so the two agree while the sequence stays below
    that. *)
Definition next_sequence (last : option Submission) : option Z :=
  match last with
  | Some l =>
      let parts := Str.split "-" (number_or_empty l) in
      Z.succ <$> Str.parseInt (default "undefined" (parts !! 2%nat))
  | None => Some 1%Z
  end.

Definition format_number (now : Date) (sequence : option Z) : string :=
  month_prefix now ++ Str.padStart 5 "0" (Str.of_number sequence).

(** [!this.submissionNumber && this.isNew] *)
Definition needs_number (isNew : bool) (doc : Submission) : bool :=
  negb (truthy (submissionNumber doc)) && isNew.

(** The hook after its [await]: the number is computed from the query's
    answer. *)
Definition assign_number (now : Date) (lastSubmission : option Submission)
    (doc : Submission) : Submission :=
  set_submissionNumber
    (Some (format_number now (next_sequence lastSubmission))) doc.

Definition pre_save (now : Date) (subs : list Submission) (isNew : bool)
    (doc : Submission) : Submission :=
  let doc := set_updatedAt (getTime now) doc in
  if needs_number isNew doc then
    assign_number now (findLast (month_prefix now) subs) doc
  else doc.

(** *** Writing a document *)

(** The unique index on [submissionNumber]: no other document may hold
    the same key (a missing number is the key [null]). *)
Definition unique_ok (doc : Submission) (subs : list Submission) : bool :=
  forallb (fun t => Nat.eqb (s_id t) (s_id doc) ||
                    negb (bool_decide (submissionNumber t = submissionNumber doc)))
          subs.

Definition duplicate_key : string :=
  "E11000 duplicate key error: index submissionNumber_1".

Definition replace_doc (doc : Submission) (subs : list Submission)
    : list Submission :=
  List.map (fun t => if Nat.eqb (s_id t) (s_id doc) then doc else t) subs.

Definition write (isNew : bool) (doc : Submission) : M Submission :=
  st ← get;
  if negb (unique_ok doc (submissions st)) then throw duplicate_key
  else if isNew then
    _ ← put (set_submissions (submissions st ++ [doc]) st); mret doc
  else if existsb (fun t => Nat.eqb (s_id t) (s_id doc)) (submissions st) then
    _ ← put (set_submissions (replace_doc doc (submissions st)) st); mret doc
  else throw "No document found for query".

(** [doc.save()]: validation, then the pre-save hook, then the write.
    The returned document is the saved one (the caller's [this]). *)
Definition save (now : Date) (isNew : bool) (doc : Submission) : M Submission :=
  match validate doc with
  | Some msg => throw msg
  | None =>
      st ← get;
      write isNew (pre_save now (submissions st) isNew doc)
  end.

(** *** [submissionSchema.methods.updateStatus] *)
Definition status_change_entry (now : Date) (this : Submission) (userId : oid)
    (oldStatus newStatus : string) (comment : option string) : HistoryEntry :=
  {| h_stage := currentStage this; h_user := userId;
     h_action := "Status changed from " ++ oldStatus ++ " to " ++ newStatus;
     h_comment := comment; h_timestamp := getTime now |}.

Definition updateStatus (now : Date) (this : Submission) (userId : oid)
    (newStatus : string) (comment : option string) : M Submission :=
  let oldStatus := status this in
  let this := set_status newStatus this in
  let this := set_workflowHistory
    (workflowHistory this ++
     [status_change_entry now this userId oldStatus newStatus comment]) this in
  let this := set_auditLog
    (auditLog this ++
     [{| au_user := userId; au_action := "status_change"; au_field := "status";
         au_oldValue := oldStatus; au_newValue := newStatus;
         au_timestamp := getTime now |}]) this in
  let this := set_lastModifiedBy (Some userId) this in
  save now false this.

(** *** [formSchema.methods.canView] and [canSubmit] *)
Definition canView (f : Form) (user : User) : bool :=
  let perms := viewForm (f_permissions f) in
  if public perms then true
  else if existsb (Nat.eqb (u_id user)) (fp_users perms) then true
  else if existsb (fun role => String.eqb (u_role user) role) (fp_roles perms) then true
  else false.

Definition canSubmit (f : Form) (user : option User) : bool :=
  let perms := submitForm (f_permissions f) in
  if public perms then true
  else if negb (bool_decide (is_Some user)) && negb (requireLogin (f_settings f)) then true
  else if match user with
          | Some u => existsb (Nat.eqb (u_id u)) (fp_users perms)
          | None => false
          end then true
  else if existsb (fun role => match user with
                               | Some u => String.eqb (u_role u) role
                               | None => false
                               end) (fp_roles perms) then true
  else false.

End Mongoose.

(** ** [server/controllers/submissionController.js] *)
Module Controller.
Import Model Mongoose.

(** *** [createSubmission] *)

(** [req.body] of [POST /submissions] (the route validator guarantees
    [data] is an object).  Requests carrying [nestedSubmissions] are not
    covered: the body below has none, so the child-creation loop of the
    controller is skipped. *)
Record CreateBody := {
  b_form : oid;
  b_data : Data;
  b_files : option (list FileRef);
  b_status : option string;
  b_parentSubmission : option oid;
  b_masterSubmission : option oid;
}.

Record CreateRequest := {
  cr_user : User;
  cr_ip : option string;
  cr_userAgent : option string;      (* req.get('User-Agent') *)
  cr_body : CreateBody;
}.

Definition parseBrowser (userAgent : string) : string :=
  if Str.includes userAgent "Chrome" then "Chrome"
  else if Str.includes userAgent "Firefox" then "Firefox"
  else if Str.includes userAgent "Safari" then "Safari"
  else if Str.includes userAgent "Edge" then "Edge"
  else "Unknown".

Definition parseOS (userAgent : string) : string :=
  if Str.includes userAgent "Windows" then "Windows"
  else if Str.includes userAgent "Mac" then "macOS"
  else if Str.includes userAgent "Linux" then "Linux"
  else if Str.includes userAgent "Android" then "Android"
  else if Str.includes userAgent "iOS" then "iOS"
  else "Unknown".

Definition parseDevice (userAgent : string) : string :=
  if Str.includes userAgent "Mobile" then "Mobile"
  else if Str.includes userAgent "Tablet" then "Tablet"
  else "Desktop".

Definition is_draft (status : string) : bool := String.eqb status "draft".

(** The document [Submission.create({...})] builds, schema defaults
    filled in, before it is saved. *)
Definition new_submission (now : Date) (id : oid) (f : Form)
    (req : CreateRequest) (status ua : string) : Submission :=
  let b := cr_body req in
  {| s_id := id;
     form := b_form b;
     parentSubmission := b_parentSubmission b;
     masterSubmission := b_masterSubmission b;
     submissionNumber := None;
     data := b_data b;
     nestedSubmissions := [];
     files := default [] (b_files b);
     submittedBy := u_id (cr_user req);
     currentStage := if is_draft status then "draft" else "submitted";
     workflowHistory :=
       if negb (is_draft status) then
         [{| h_stage := "submitted"; h_user := u_id (cr_user req);
             h_action := "submitted"; h_comment := None;
             h_timestamp := getTime now |}]
       else [];
     status := status;
     priority := "medium";
     completedAt := None;
     completedBy := None;
     organization :=
       if truthy (u_organization (cr_user req))
       then default "default" (u_organization (cr_user req))
       else "default";
     formVersion := Some (f_version f);
     metadata := Some {| ipAddress := cr_ip req; userAgent := Some ua;
                         browser := parseBrowser ua; os := parseOS ua;
                         device := parseDevice ua |};
     auditLog := [];
     isDeleted := false;
     deletedAt := None;
     deletedBy := None;
     createdAt := getTime now;
     updatedAt := getTime now;
     lastModifiedBy := None |}.

(** [Submission.create(doc)]: a fresh [_id], then [save] of a new
    document. *)
Definition Submission_create (now : Date) (mk : oid -> Submission) : M Submission :=
  st ← get;
  _ ← put (set_next_oid (S (next_oid st)) st);
  save now true (mk (next_oid st)).

(** [form.analytics.submissions += 1; await form.save()] *)
Definition Form_count_submission (now : Date) (f : Form) : M unit :=
  st ← get;
  put (set_forms
         (List.map (fun g => if Nat.eqb (f_id g) (f_id f)
                             then set_analytics_submissions
                                    (S (f_analytics_submissions f)) (getTime now) f
                             else g) (forms st)) st).

Definition bad_request {A} (msg : string) : M A :=
  reply (json 400 false (Some msg) None).

Definition check_existing (f : Form) (req : CreateRequest) (status : string) : M unit :=
  if negb (allowMultipleSubmissions (f_settings f)) && negb (is_draft status) then
    existingSubmission ← Submission_findOne (fun s =>
      Nat.eqb (form s) (b_form (cr_body req)) &&
      Nat.eqb (submittedBy s) (u_id (cr_user req)) &&
      negb (is_draft (Model.status s)));
    match existingSubmission with
    | Some _ => bad_request "You have already submitted this form"
    | None => mret tt
    end
  else mret tt.

Definition check_scheduling (now : Date) (f : Form) : M unit :=
  match scheduling (f_settings f) with
  | Some sch =>
      if sch_enabled sch then
        let before := match startDate sch with
                      | Some d => (getTime now <? d)%nat
                      | None => false
                      end in
        let after := match endDate sch with
                     | Some d => (d <? getTime now)%nat
                     | None => false
                     end in
        if before || after then
          bad_request (if truthy (closedMessage sch)
                       then default "" (closedMessage sch)
                       else "This form is not accepting submissions at this time")
        else mret tt
      else mret tt
  | None => mret tt
  end.

Definition check_quotas (f : Form) (req : CreateRequest) : M unit :=
  match quotas (f_settings f) with
  | Some q =>
      if q_enabled q then
        submissionCount ← Submission_countDocuments (fun s =>
          Nat.eqb (form s) (b_form (cr_body req)) && negb (is_draft (Model.status s)));
        if match maxSubmissions q with
           | Some m => (m <=? submissionCount)%nat
           | None => false
           end then
          bad_request (if truthy (quotaReachedMessage q)
                       then default "" (quotaReachedMessage q)
                       else "This form has reached its submission limit")
        else mret tt
      else mret tt
  | None => mret tt
  end.

Definition createSubmission (now : Date) (req : CreateRequest)
    : Store -> Response * Store :=
  handler (
    let status := default "submitted" (b_status (cr_body req)) in
    form ← Form_findById (b_form (cr_body req));
    match form with
    | None => reply (json 404 false (Some "Form not found") None)
    | Some form =>
        if negb (f_isActive form) && negb (is_draft status) then
          bad_request "Form is not active"
        else if negb (canSubmit form (Some (cr_user req))) then
          reply (json 403 false (Some "Not authorized to submit this form") None)
        else
          _ ← check_existing form req status;
          _ ← check_scheduling now form;
          _ ← check_quotas form req;
          ua ← match cr_userAgent req with
               | Some ua => mret ua
               | None => throw "Cannot read properties of undefined (reading 'includes')"
               end;
          submission ← Submission_create now
                         (fun id => new_submission now id form req status ua);
          _ ← (if negb (is_draft status) then Form_count_submission now form
               else mret tt);
          mret (json 201 true None (Some submission))
    end).

(** *** [updateSubmissionStatus] *)
Record StatusBody := {
  sb_status : option string;
  sb_currentStage : option string;
  sb_comment : option string;
  sb_priority : option string;
}.

Record StatusRequest := {
  sr_user : User;
  sr_id : oid;                       (* req.params.id *)
  sr_body : StatusBody;
}.

(** [a || b] on strings. *)
Definition or_else (a : option string) (b : string) : string :=
  if truthy a then default "" a else b.

Definition not_found : Response :=
  json 404 false (Some "Submission not found") None.

(** [const historyEntry = {...}] *)
Definition historyEntry (now : Date) (req : StatusRequest)
    (submission : Submission) : HistoryEntry :=
  {| h_stage := or_else (sb_currentStage (sr_body req)) (currentStage submission);
     h_user := u_id (sr_user req);
     h_action := or_else (sb_status (sr_body req)) "updated";
     h_comment := sb_comment (sr_body req);
     h_timestamp := getTime now |}.

Definition updateSubmissionStatus (now : Date) (req : StatusRequest)
    : Store -> Response * Store :=
  handler (
    let b := sr_body req in
    let uid := u_id (sr_user req) in
    found ← Submission_findById (sr_id req);
    match found with
    | None => reply not_found
    | Some submission =>
        if isDeleted submission then reply not_found
        else
          let submission :=
            set_workflowHistory
              (workflowHistory submission ++ [historyEntry now req submission])
              submission in
          submission ←
            (if truthy (sb_status b)
             then updateStatus now submission uid (default "" (sb_status b))
                               (sb_comment b)
             else mret submission);
          let submission :=
            if truthy (sb_currentStage b)
            then set_currentStage (default "" (sb_currentStage b)) submission
            else submission in
          let submission :=
            if truthy (sb_priority b)
            then set_priority (default "" (sb_priority b)) submission
            else submission in
          let submission :=
            if bool_decide (sb_status b = Some "completed") ||
               bool_decide (sb_status b = Some "approved")
            then set_completedBy (Some uid)
                   (set_completedAt (Some (getTime now)) submission)
            else submission in
          submission ← save now false submission;
          mret (json 200 true None (Some submission))
    end).

(** *** [deleteSubmission] *)
Record DeleteRequest := {
  dr_user : User;
  dr_id : oid;                       (* req.params.id *)
}.

Definition is_admin (u : User) : bool := String.eqb (u_role u) "admin".

(** The disjuncts of [canDelete] that read the form's policy. *)
Definition owner_or_listed (u : User) (submission : Submission) (f : Form) : bool :=
  let p := deleteSubmissions (f_permissions f) in
  (Nat.eqb (submittedBy submission) (u_id u) && ownSubmissionsOnly p)
  || existsb (String.eqb (u_role u)) (sp_roles p)
  || existsb (Nat.eqb (u_id u)) (sp_users p).

(** The [canDelete] expression; the form is only dereferenced when the
    actor is not an admin. *)
Definition canDelete (u : User) (submission : Submission) (f : option Form)
    : M bool :=
  if is_admin u then mret true
  else match f with
       | None => throw "Cannot read properties of null (reading 'permissions')"
       | Some f => mret (owner_or_listed u submission f)
       end.

(** The loop over [submission.files]: every [bucket.delete] either
    removes the blob or fails and is logged. *)
Definition delete_files (submission : Submission) : M unit :=
  st ← get;
  match bucket st with
  | Some blobs =>
      if negb (bool_decide (files submission = [])) then
        put (set_bucket
               (Some (List.filter
                        (fun id => negb (existsb (fun f => String.eqb (fr_fileId f) id)
                                                 (files submission)))
                        blobs)) st)
      else mret tt
  | None => mret tt
  end.

Definition cascades (f : Form) : bool :=
  String.eqb (f_type f) "master" &&
  match f_masterForm f with
  | Some mf => cascadeDelete mf
  | None => false
  end.

Definition soft_delete (now : Date) (by_user : oid) (s : Submission) : Submission :=
  set_deletedBy (Some by_user)
    (set_deletedAt (Some (getTime now)) (set_isDeleted true s)).

Definition deleteSubmission (now : Date) (req : DeleteRequest)
    : Store -> Response * Store :=
  handler (
    found ← Submission_findById (dr_id req);
    match found with
    | None => reply not_found
    | Some submission =>
        if isDeleted submission then reply not_found
        else
          form ← Form_findById (Model.form submission);
          allowed ← canDelete (dr_user req) submission form;
          if negb allowed then
            reply (json 403 false
                        (Some "Not authorized to delete this submission") None)
          else
            submission ← save now false
                           (soft_delete now (u_id (dr_user req)) submission);
            _ ← delete_files submission;
            _ ← match form with
                | None => throw "Cannot read properties of null (reading 'type')"
                | Some f =>
                    if cascades f then
                      Submission_updateMany
                        (fun t => bool_decide (masterSubmission t = Some (s_id submission)))
                        (soft_delete now (u_id (dr_user req)))
                    else mret tt
                end;
            mret (json 200 true (Some "Submission deleted successfully") None)
    end).

End Controller.

(** ** Concurrent creations

    [Submission.create] suspends once inside the pre-save hook, at
    [await this.constructor.findOne(...)]; other requests run in between.
    A creation is therefore two atomic steps: up to the query, and from
    the query's answer to the insert. *)
Module Race.
Import Model Mongoose.

Inductive thread : Type :=
| Created (doc : Submission)
| Awaiting (doc : Submission) (lastSubmission : option Submission)
| Saved (doc : Submission)
| Failed (msg : string).

Definition finish (r : outcome Submission * Store) : thread * Store :=
  match r with
  | (Val d, st) => (Saved d, st)
  | (Throw msg, st) => (Failed msg, st)
  | (Reply _, st) => (Failed "reply", st)
  end.

Definition step (now : Date) (t : thread) (st : Store) : thread * Store :=
  match t with
  | Created doc =>
      match validate doc with
      | Some msg => (Failed msg, st)
      | None =>
          let doc := set_updatedAt (getTime now) doc in
          if needs_number true doc
          then (Awaiting doc (findLast (month_prefix now) (submissions st)), st)
          else finish (write true doc st)
      end
  | Awaiting doc lastSubmission =>
      finish (write true (assign_number now lastSubmission doc) st)
  | Saved _ | Failed _ => (t, st)
  end.

(** The requests in flight and the store they share. *)
Definition system : Type := list thread * Store.

(** The event loop resumes request [i]. *)
Definition resume (now : Date) (i : nat) (sys : system) : system :=
  match sys.1 !! i with
  | Some t => let '(t', st') := step now t sys.2 in (<[i := t']> sys.1, st')
  | None => sys
  end.

Definition run (now : Date) (schedule : list nat) (sys : system) : system :=
  foldl (fun sys i => resume now i sys) sys schedule.

Definition saved_number (t : thread) : option string :=
  match t with
  | Saved d => submissionNumber d
  | _ => None
  end.

End Race.

(** ** JavaScript values on the client side *)
Module Js.

(** What the JavaScript engine supplies and this development does not
    define: IEEE-754 numbers with the builtins that produce or compare
    them, regular expressions and the URL parser.  The embedding of the
    page is parametric in them. *)
Record Host := {
  number : Type;
  of_nat : nat -> number;
  is_nan : number -> bool;
  num_eqb : number -> number -> bool;            (* a === b *)
  num_ltb : number -> number -> bool;            (* a < b *)
  num_toString : number -> string;               (* String(a) *)
  string_toNumber : string -> number;            (* Number(s) *)
  string_parseFloat : string -> number;          (* parseFloat(s) *)
  regexp_test : string -> string -> option bool; (* new RegExp(p).test(s);
                                                    None: p does not compile *)
  url_parses : string -> bool;                   (* new URL(s) does not throw *)
}.

(** A value as found in [formData] or in a field definition.  Arrays and
    objects carry the identity [===] compares. *)
#[local] Set Warnings "-register-all".
Inductive value (H : Host) : Type :=
| VUndefined
| VNull
| VBool (b : bool)
| VNum (n : number H)
| VStr (s : string)
| VArr (ref : nat) (items : list (value H))
| VObj (ref : nat).
Arguments VUndefined {H}.
Arguments VNull {H}.
Arguments VBool {H} b.
Arguments VNum {H} n.
Arguments VStr {H} s.
Arguments VArr {H} ref items.
Arguments VObj {H} ref.

(** Normal or abrupt (thrown) completion. *)
Inductive completion (A : Type) : Type :=
| Normal (a : A)
| Abrupt (error : string).
Arguments Normal {A} a.
Arguments Abrupt {A} error.

(** The properties every plain object inherits from [Object.prototype]
    (the accessor [__proto__] and the [__define...__] family are those of
    Annex B, present in every browser). *)
Definition prototype_members : list string :=
  ["__proto__"; "constructor"; "hasOwnProperty"; "isPrototypeOf";
   "propertyIsEnumerable"; "toLocaleString"; "toString"; "valueOf";
   "__defineGetter__"; "__defineSetter__"; "__lookupGetter__";
   "__lookupSetter__"].

(** Whether [obj[key]] finds an inherited member when the plain object
    [obj] has no own property [key].  Every such member is truthy: the
    functions are objects and [__proto__] reads as [Object.prototype]. *)
Definition inherited (key : string) : bool :=
  existsb (String.eqb key) prototype_members.

Section WithHost.
Context {H : Host}.

Definition join (parts : list string) : string :=
  match parts with
  | [] => ""
  | p :: ps => foldl (fun acc q => acc ++ "," ++ q) p ps
  end.

(** [String(v)], which is also [v.toString()] where that exists. *)
Fixpoint toString (v : value H) : string :=
  match v with
  | VUndefined => "undefined"
  | VNull => "null"
  | VBool b => if b then "true" else "false"
  | VNum n => num_toString H n
  | VStr s => s
  | VArr _ items =>
      join (List.map (fun x => match x with
                               | VUndefined | VNull => ""
                               | _ => toString x
                               end) items)
  | VObj _ => "[object Object]"
  end.

(** [Number(v)], as applied by [<] to a non-numeric operand. *)
Definition toNumber (v : value H) : number H :=
  match v with
  | VUndefined => string_toNumber H "undefined"   (* NaN *)
  | VNull => of_nat H 0
  | VBool b => of_nat H (if b then 1 else 0)
  | VNum n => n
  | VStr s => string_toNumber H s
  | VArr _ _ | VObj _ => string_toNumber H (toString v)
  end.

Definition parseFloat (v : value H) : number H :=
  string_parseFloat H (toString v).

Definition truthy (v : value H) : bool :=
  match v with
  | VUndefined | VNull => false
  | VBool b => b
  | VNum n => negb (is_nan H n || num_eqb H n (of_nat H 0))
  | VStr s => negb (String.eqb s "")
  | VArr _ _ | VObj _ => true
  end.

(** [a === b] *)
Definition strict_eq (a b : value H) : bool :=
  match a, b with
  | VUndefined, VUndefined | VNull, VNull => true
  | VBool x, VBool y => Bool.eqb x y
  | VNum x, VNum y => num_eqb H x y
  | VStr x, VStr y => String.eqb x y
  | VArr r _, VArr r' _ | VObj r, VObj r' => Nat.eqb r r'
  | _, _ => false
  end.

(** SameValueZero, the comparison of [Array.prototype.includes]. *)
Definition same_value_zero (a b : value H) : bool :=
  match a, b with
  | VNum x, VNum y => num_eqb H x y || (is_nan H x && is_nan H y)
  | _, _ => strict_eq a b
  end.

Definition isArray (v : value H) : bool :=
  match v with
  | VArr _ _ => true
  | _ => false
  end.

(** [v.length]; [None] is [undefined]. *)
Definition length_of (v : value H) : option nat :=
  match v with
  | VStr s => Some (String.length s)
  | VArr _ items => Some (List.length items)
  | _ => None
  end.

Definition is_nullish (v : value H) : bool :=
  match v with
  | VUndefined | VNull => true
  | _ => false
  end.

(** [haystack.includes(needle)]: arrays and strings have the method,
    other values throw a [TypeError]. *)
Definition includes (haystack needle : value H) : completion bool :=
  match haystack with
  | VArr _ items => Normal (existsb (same_value_zero needle) items)
  | VStr s => Normal (Str.includes s (toString needle))
  | VUndefined | VNull =>
      Abrupt "TypeError: Cannot read properties of undefined (reading 'includes')"
  | _ => Abrupt "TypeError: targetValue.includes is not a function"
  end.

End WithHost.

End Js.

(** ** [src/pages/FormView.tsx]: [evaluateCondition] and [validateForm] *)
Module FormView.
Import Js.

Section WithHost.
Context {H : Host}.

(** *** Field definitions as the page reads them *)
Record Rule := {
  r_field : string;
  r_operator : option string;
  r_value : value H;
}.

Record Conditional := {
  enabled : bool;
  rules : option (list Rule);
  logicalOperator : option string;
}.

Record Validation := {
  min : value H;
  max : value H;
  minLength : option (number H);
  maxLength : option (number H);
  pattern : option string;
  message : option string;
}.

Record NestedForm := {
  minItems : option (number H);
  maxItems : option (number H);
}.

Record Field := {
  id : string;
  type : string;
  label : string;
  required : bool;
  hidden : bool;
  validation : option Validation;
  conditional : option Conditional;
  nestedForm : option NestedForm;
}.

Record Page := {
  pg_fields : list string;
}.

Record Form := {
  fm_type : string;
  fields : list Field;
  pages : option (list Page);
}.

Record FileData := {
  fileId : string;
  filename : string;
}.

(** The component state [validateForm] and [evaluateCondition] close
    over. *)
Record State := {
  form : option Form;
  formData : gmap string (value H);
  uploadedFiles : gmap string FileData;
  nestedSubmissions : gmap string (list (gmap string (value H)));
  currentPage : nat;
}.

(** [formData[key]] for a key that names no member of [Object.prototype]
    (see [own_keys] below): the own property, or [undefined]. *)
Definition read (data : gmap string (value H)) (key : string) : value H :=
  default VUndefined (data !! key).

(** *** [evaluateCondition] *)

(** The ten operators [switch (rule.operator)] has a case for. *)
Definition operators : list string :=
  ["equals"; "not_equals"; "contains"; "not_contains"; "greater_than";
   "less_than"; "is_empty"; "is_not_empty"; "in"; "not_in"].

(** Whether the [switch] has a case for the rule's operator. *)
Definition recognized (rule : Rule) : bool :=
  existsb (fun name => bool_decide (r_operator rule = Some name)) operators.

(** The body of [rules.map(rule => { switch (rule.operator) ... })]; the
    [switch] compares [rule.operator] with each case label in turn. *)
Definition eval_rule (data : gmap string (value H)) (rule : Rule)
    : completion (value H) :=
  let sourceValue := read data (r_field rule) in
  let targetValue := r_value rule in
  let contains :=
    if is_nullish sourceValue then VUndefined
    else VBool (Str.includes (toString sourceValue) (toString targetValue)) in
  let case (name : string) : bool :=
    bool_decide (r_operator rule = Some name) in
  if case "equals" then
    Normal (VBool (strict_eq sourceValue targetValue))
  else if case "not_equals" then
    Normal (VBool (negb (strict_eq sourceValue targetValue)))
  else if case "contains" then
    Normal contains
  else if case "not_contains" then
    Normal (VBool (negb (truthy contains)))
  else if case "greater_than" then
    Normal (VBool (num_ltb H (parseFloat targetValue) (parseFloat sourceValue)))
  else if case "less_than" then
    Normal (VBool (num_ltb H (parseFloat sourceValue) (parseFloat targetValue)))
  else if case "is_empty" then
    Normal (VBool (negb (truthy sourceValue) ||
                   (isArray sourceValue &&
                    bool_decide (length_of sourceValue = Some 0))))
  else if case "is_not_empty" then
    Normal (VBool (truthy sourceValue &&
                   (negb (isArray sourceValue) ||
                    negb (bool_decide (length_of sourceValue = Some 0)))))
  else if case "in" then
    match includes targetValue sourceValue with
    | Normal b => Normal (VBool b)
    | Abrupt e => Abrupt e
    end
  else if case "not_in" then
    match includes targetValue sourceValue with
    | Normal b => Normal (VBool (negb b))
    | Abrupt e => Abrupt e
    end
  else Normal (VBool true).

(** [rules.map(...)]: the rules are evaluated in order; the first throw
    ends the map. *)
Fixpoint eval_rules (data : gmap string (value H)) (rs : list Rule)
    : completion (list (value H)) :=
  match rs with
  | [] => Normal []
  | r :: rest =>
      match eval_rule data r with
      | Abrupt e => Abrupt e
      | Normal v =>
          match eval_rules data rest with
          | Abrupt e => Abrupt e
          | Normal vs => Normal (v :: vs)
          end
      end
  end.

(** [field.conditional.logicalOperator || 'AND'] *)
Definition operator (c : Conditional) : string :=
  if Model.truthy (logicalOperator c) then default "" (logicalOperator c)
  else "AND".

Definition evaluateCondition (data : gmap string (value H)) (field : Field)
    : completion bool :=
  match conditional field with
  | Some c =>
      match rules c with
      | Some ((_ :: _) as rs) =>
          if negb (enabled c) then Normal true
          else
            match eval_rules data rs with
            | Abrupt e => Abrupt e
            | Normal results =>
                Normal (if String.eqb (operator c) "AND"
                        then forallb truthy results
                        else existsb truthy results)
            end
      | _ => Normal true
      end
  | None => Normal true
  end.

(** *** [validateForm] *)

Definition emailRegex : string := "^[^\s@]+@[^\s@]+\.[^\s@]+$".
Definition phoneRegex : string := "^[\d\s\-\+\(\)]+$".

(** [new RegExp(p).test(String(v))] *)
Definition test (p : string) (v : value H) : completion bool :=
  match regexp_test H p (toString v) with
  | Some b => Normal b
  | None => Abrupt ("SyntaxError: Invalid regular expression: /" ++ p ++ "/")
  end.

Definition truthy_num (n : option (number H)) : bool :=
  match n with
  | Some n => truthy (VNum n)
  | None => false
  end.

Definition show_num (n : option (number H)) : string :=
  match n with
  | Some n => num_toString H n
  | None => "undefined"
  end.

(** [len < n] and [len > n], false when [len] is [undefined]. *)
Definition len_lt (len : option nat) (n : option (number H)) : bool :=
  match len, n with
  | Some l, Some n => num_ltb H (of_nat H l) n
  | _, _ => false
  end.

Definition len_gt (len : option nat) (n : option (number H)) : bool :=
  match len, n with
  | Some l, Some n => num_ltb H n (of_nat H l)
  | _, _ => false
  end.

(** [if (cond) newErrors[field.id] = msg]: the message written, if any. *)
Definition write_if (cond : bool) (msg : string) : list string :=
  if cond then [msg] else [].

Definition is_type (field : Field) (t : string) : bool :=
  String.eqb (type field) t.

(** The [if (field.required)] block.  [!uploadedFiles[field.id]] holds
    when the object has no own entry for the id and inherits none: an
    own entry is a file record, and an inherited member is truthy too. *)
Definition required_writes (st : State) (field : Field) : list string :=
  if required field then
    let value := read (formData st) (id field) in
    if is_type field "file" || is_type field "image" then
      write_if (bool_decide (uploadedFiles st !! id field = None) &&
                negb (inherited (id field)))
               (label field ++ " is required")
    else
      write_if (negb (truthy value) ||
                (isArray value && bool_decide (length_of value = Some 0)))
               (label field ++ " is required")
  else [].

(** The [if (field.validation)] block, for a truthy [value]. *)
Definition validation_writes (value : value H) (v : Validation)
    : completion (list string) :=
  let w_min :=
    write_if (negb (strict_eq (min v) VUndefined) &&
              num_ltb H (parseFloat value) (toNumber (min v)))
             ("Minimum value is " ++ toString (min v)) in
  let w_max :=
    write_if (negb (strict_eq (max v) VUndefined) &&
              num_ltb H (toNumber (max v)) (parseFloat value))
             ("Maximum value is " ++ toString (max v)) in
  let w_minLength :=
    write_if (truthy_num (minLength v) && len_lt (length_of value) (minLength v))
             ("Minimum " ++ show_num (minLength v) ++ " characters required") in
  let w_maxLength :=
    write_if (truthy_num (maxLength v) && len_gt (length_of value) (maxLength v))
             ("Maximum " ++ show_num (maxLength v) ++ " characters allowed") in
  if Model.truthy (pattern v) then
    match test (default "" (pattern v)) value with
    | Abrupt e => Abrupt e
    | Normal ok =>
        Normal (List.concat
                  [w_min; w_max; w_minLength; w_maxLength;
                   write_if (negb ok)
                            (if Model.truthy (message v)
                             then default "" (message v)
                             else "Invalid format")])
    end
  else Normal (List.concat [w_min; w_max; w_minLength; w_maxLength]).

(** The [if (value)] block: type checks, then the custom rules. *)
Definition value_writes (st : State) (field : Field) : completion (list string) :=
  let value := read (formData st) (id field) in
  if truthy value then
    match (if is_type field "email" then test emailRegex value else Normal true),
          (if is_type field "tel" then test phoneRegex value else Normal true) with
    | Normal email_ok, Normal tel_ok =>
        let w_type :=
          List.concat
            [write_if (negb email_ok) "Please enter a valid email address";
             write_if (is_type field "url" && negb (url_parses H (toString value)))
                      "Please enter a valid URL";
             write_if (negb tel_ok) "Please enter a valid phone number"] in
        match validation field with
        | Some v =>
            match validation_writes value v with
            | Abrupt e => Abrupt e
            | Normal ws => Normal (List.concat [w_type; ws])
            end
        | None => Normal w_type
        end
    | Abrupt e, _ | _, Abrupt e => Abrupt e
    end
  else Normal [].

(** The nested-form block. *)
Definition nested_writes (st : State) (field : Field) : list string :=
  if is_type field "nested_form" || is_type field "repeater" then
    match nestedForm field with
    | Some nf =>
        let nested := default [] (nestedSubmissions st !! id field) in
        List.concat
          [write_if (truthy_num (minItems nf) &&
                     len_lt (Some (List.length nested)) (minItems nf))
                    ("Minimum " ++ show_num (minItems nf) ++ " items required");
           write_if (truthy_num (maxItems nf) &&
                     len_gt (Some (List.length nested)) (maxItems nf))
                    ("Maximum " ++ show_num (maxItems nf) ++ " items allowed")]
    | None => []
    end
  else [].

(** Everything the callback assigns to [newErrors[field.id]] for a
    visible field, in program order. *)
Definition field_writes (st : State) (field : Field) : completion (list string) :=
  match value_writes st field with
  | Abrupt e => Abrupt e
  | Normal ws =>
      Normal (List.concat [required_writes st field; ws; nested_writes st field])
  end.

(** [newErrors[key] = msg] for each message in turn.  [newErrors] is a
    plain object and the messages are strings: under the key [__proto__]
    the assignment runs the setter of [Object.prototype], which ignores a
    string, and no entry is made.  Under any other key, inherited ones
    included, it creates or overwrites the own property. *)
Definition assign (key : string) (newErrors : gmap string string)
    (msgs : list string) : gmap string string :=
  if String.eqb key "__proto__" then newErrors
  else foldl (fun errs msg => <[key := msg]> errs) newErrors msgs.

(** The callback of [currentFields.forEach]. *)
Definition validate_field (st : State) (newErrors : gmap string string)
    (field : Field) : completion (gmap string string) :=
  if hidden field then Normal newErrors
  else
    match evaluateCondition (formData st) field with
    | Abrupt e => Abrupt e
    | Normal false => Normal newErrors
    | Normal true =>
        match field_writes st field with
        | Abrupt e => Abrupt e
        | Normal msgs => Normal (assign (id field) newErrors msgs)
        end
    end.

Fixpoint validate_fields (st : State) (newErrors : gmap string string)
    (fs : list Field) : completion (gmap string string) :=
  match fs with
  | [] => Normal newErrors
  | f :: rest =>
      match validate_field st newErrors f with
      | Abrupt e => Abrupt e
      | Normal errs => validate_fields st errs rest
      end
  end.

(** The fields of the current wizard page, or all of them. *)
Definition currentFields (st : State) : completion (list Field) :=
  match form st with
  | Some f =>
      if String.eqb (fm_type f) "wizard" then
        match pages f with
        | Some ps =>
            match fields f, ps !! currentPage st with
            | [], _ => Normal []
            | _, Some pg =>
                Normal (List.filter
                          (fun fd => existsb (String.eqb (id fd)) (pg_fields pg))
                          (fields f))
            | _, None =>
                Abrupt "TypeError: Cannot read properties of undefined (reading 'fields')"
            end
        | None => Normal (fields f)
        end
      else Normal (fields f)
  | None => Normal []
  end.

(** [validateForm]: the error map handed to [setErrors] and the
    boolean returned. *)
Definition validateForm (st : State) : completion (gmap string string * bool) :=
  match currentFields st with
  | Abrupt e => Abrupt e
  | Normal fs =>
      match validate_fields st ∅ fs with
      | Abrupt e => Abrupt e
      | Normal newErrors => Normal (newErrors, bool_decide (newErrors = ∅))
      end
  end.

(** The keys the page indexes its objects with on behalf of a field: the
    field's id ([formData], [uploadedFiles], [nestedSubmissions] and
    [newErrors]) and the fields its rules name ([formData]). *)
Definition keys (field : Field) : list string :=
  id field ::
  match conditional field with
  | Some c => List.map r_field (default [] (rules c))
  | None => []
  end.

(** None of the fields' keys names a member of [Object.prototype].  For
    such fields the finite maps above are the page's plain objects: a
    read finds the own property or [undefined], an assignment makes or
    overwrites the own property. *)
Definition own_keys (fs : list Field) : bool :=
  forallb (fun field => forallb (fun key => negb (inherited key)) (keys field)) fs.

End WithHost.

End FormView.

(** ** A host for running the page on concrete inputs

    Numbers are the integers and [NaN].  It agrees with a JavaScript
    engine on the inputs used below: integral numerals and the patterns
    listed in [regexp_test]. *)
Module IntHost.

Definition number : Type := option Z.

Definition num_eqb (a b : number) : bool :=
  match a, b with
  | Some x, Some y => Z.eqb x y
  | _, _ => false
  end.

Definition num_ltb (a b : number) : bool :=
  match a, b with
  | Some x, Some y => Z.ltb x y
  | _, _ => false
  end.

Definition is_nan (a : number) : bool :=
  match a with
  | Some _ => false
  | None => true
  end.

Fixpoint all_chars (p : ascii -> bool) (s : string) : bool :=
  match s with
  | EmptyString => true
  | String c rest => p c && all_chars p rest
  end.

Definition is_digit (c : ascii) : bool :=
  let n := nat_of_ascii c in (48 <=? n)%nat && (n <=? 57)%nat.

(** The numeral at the start of the string, after leading white space. *)
Definition string_parseFloat (s : string) : number :=
  match Str.trimStart s with
  | String "-" rest => Z.opp <$> Str.digits 10 rest None
  | String "+" rest => Str.digits 10 rest None
  | t => Str.digits 10 t None
  end.

(** [Number(s)]: the whole string must be a numeral; the empty string
    is 0. *)
Definition string_toNumber (s : string) : number :=
  let t := Str.trimStart s in
  let body := match t with
              | String "-" rest | String "+" rest => rest
              | _ => t
              end in
  if String.eqb t "" then Some 0%Z
  else if all_chars is_digit body && negb (String.eqb body "")
  then string_parseFloat t
  else None.

Definition not_space_at (c : ascii) : bool :=
  negb (Str.is_white c) && negb (Ascii.eqb c "@").

Fixpoint has_inner_dot (s : string) : bool :=
  match s with
  | String _ (String "." (String _ _)) => true
  | String _ rest => has_inner_dot rest
  | EmptyString => false
  end.

(** [/^[^\s@]+@[^\s@]+\.[^\s@]+$/] *)
Definition email_matches (s : string) : bool :=
  match Str.split "@" s with
  | [local; domain] =>
      negb (String.eqb local "") && all_chars not_space_at local &&
      all_chars not_space_at domain && has_inner_dot domain
  | _ => false
  end.

(** [/^[\d\s\-\+\(\)]+$/] *)
Definition phone_matches (s : string) : bool :=
  negb (String.eqb s "") &&
  all_chars (fun c => is_digit c || Str.is_white c ||
                      existsb (Ascii.eqb c) ["-"; "+"; "("; ")"]%char) s.

Definition regexp_test (p s : string) : option bool :=
  if String.eqb p "^[^\s@]+@[^\s@]+\.[^\s@]+$" then Some (email_matches s)
  else if String.eqb p "^[\d\s\-\+\(\)]+$" then Some (phone_matches s)
  else if String.eqb p "^[0-9]+$"
  then Some (negb (String.eqb s "") && all_chars is_digit s)
  else None.

Definition url_parses (s : string) : bool :=
  (String.prefix "http://" s && (7 <? String.length s)%nat) ||
  (String.prefix "https://" s && (8 <? String.length s)%nat).

Definition host : Js.Host :=
  {| Js.number := number;
     Js.of_nat := fun n => Some (Z.of_nat n);
     Js.is_nan := is_nan;
     Js.num_eqb := num_eqb;
     Js.num_ltb := num_ltb;
     Js.num_toString := Str.of_number;
     Js.string_toNumber := string_toNumber;
     Js.string_parseFloat := string_parseFloat;
     Js.regexp_test := regexp_test;
     Js.url_parses := url_parses |}.

End IntHost.

(** ** Concrete scenarios used by the examples below *)
Module Scenario.
Import Model Mongoose Controller.

Definition may2024 : Date :=
  {| getFullYear := 2024; getMonth := 4; getTime := 1000 |}.

Definition alice : User := {| u_id := 7; u_role := "user"; u_organization := None |}.
Definition root : User := {| u_id := 8; u_role := "admin"; u_organization := None |}.

(** A review stage whose [reject] action requires a comment. *)
Definition approval : Workflow :=
  {| w_id := 100;
     stages :=
       [{| st_id := "review"; st_name := "Review";
           allowedRoles := ["manager"]; allowedUsers := [];
           actions :=
             [{| act_id := "approve"; act_name := "Approve";
                 nextStage := "approved"; requireComment := false |};
              {| act_id := "reject"; act_name := "Reject";
                 nextStage := "rejected"; requireComment := true |}] |};
        {| st_id := "approved"; st_name := "Approved";
           allowedRoles := []; allowedUsers := []; actions := [] |};
        {| st_id := "rejected"; st_name := "Rejected";
           allowedRoles := []; allowedUsers := []; actions := [] |}];
     initialStage := "review";
     finalStages := ["approved"; "rejected"] |}.

Definition members_only : FormPolicy :=
  {| public := false; fp_roles := ["user"]; fp_users := [] |}.

Definition owners_only : SubmissionPolicy :=
  {| sp_roles := []; sp_users := []; ownSubmissionsOnly := true |}.

(** A master form with cascade delete, routed through [approval]. *)
Definition orders : Form :=
  {| f_id := 1; f_type := "master"; f_isActive := true; f_fields := [];
     f_settings := {| allowMultipleSubmissions := true; requireLogin := true;
                      scheduling := None; quotas := None |};
     f_permissions := {| viewForm := members_only; submitForm := members_only;
                         editSubmissions := owners_only;
                         viewSubmissions := owners_only;
                         deleteSubmissions := owners_only |};
     f_masterForm := Some {| mf_formId := None; cascadeDelete := true |};
     f_workflow := Some 100; f_version := 1;
     f_analytics_submissions := 0; f_updatedAt := 0 |}.

Definition stored (id : oid) (number : string) (stage status : string)
    (parent master : option oid) : Submission :=
  {| s_id := id; form := 1; parentSubmission := parent;
     masterSubmission := master; submissionNumber := Some number;
     data := ∅; nestedSubmissions := []; files := []; submittedBy := 7;
     currentStage := stage;
     workflowHistory := [{| h_stage := "submitted"; h_user := 7;
                            h_action := "submitted"; h_comment := None;
                            h_timestamp := 900 |}];
     status := status; priority := "medium"; completedAt := None;
     completedBy := None; organization := "default"; formVersion := Some 1;
     metadata := None; auditLog := []; isDeleted := false; deletedAt := None;
     deletedBy := None; createdAt := 900; updatedAt := 900;
     lastModifiedBy := None |}.

Definition empty_store : Store :=
  {| submissions := []; forms := [orders]; workflows := [approval];
     next_oid := 20; bucket := None |}.

(** One submission waiting at the review stage. *)
Definition review_store : Store :=
  set_submissions [stored 20 "SUB-202404-00001" "review" "in_review" None None]
                  empty_store.

(** A master submission, two details, a repeater child and a stranger. *)
Definition family_store : Store :=
  set_submissions
    [stored 20 "SUB-202404-00001" "submitted" "submitted" None None;
     stored 21 "SUB-202404-00002" "submitted" "submitted" None (Some 20);
     stored 22 "SUB-202404-00003" "submitted" "submitted" None (Some 20);
     stored 23 "SUB-202404-00004" "submitted" "submitted" (Some 20) None;
     stored 24 "SUB-202404-00005" "submitted" "submitted" None None]
    empty_store.

Definition create_request (u : User) (status : option string) : CreateRequest :=
  {| cr_user := u; cr_ip := Some "10.0.0.1";
     cr_userAgent := Some "Mozilla/5.0 (X11; Linux x86_64) Firefox/125.0";
     cr_body := {| b_form := 1; b_data := ∅; b_files := None;
                   b_status := status; b_parentSubmission := None;
                   b_masterSubmission := None |} |}.

Definition status_request (status stage comment : option string) : StatusRequest :=
  {| sr_user := root; sr_id := 20;
     sr_body := {| sb_status := status; sb_currentStage := stage;
                   sb_comment := comment; sb_priority := None |} |}.

(** The document a second user's creation request builds. *)
Definition fresh (id : oid) : Submission :=
  new_submission may2024 id orders (create_request alice None) "submitted"
                 "Mozilla/5.0 (X11; Linux x86_64) Firefox/125.0".

End Scenario.

(** ** Concrete pages used by the examples below *)
Module PageScenario.
Import Js FormView.

Definition text_field (name : string) (req : bool)
    (v : option (@Validation IntHost.host))
    (c : option (@Conditional IntHost.host)) : @Field IntHost.host :=
  {| id := name; type := "text"; label := name; required := req;
     hidden := false; validation := v; conditional := c; nestedForm := None |}.

Definition page (fs : list (@Field IntHost.host))
    (data : gmap string (value IntHost.host)) : @State IntHost.host :=
  {| form := Some {| fm_type := "standard"; fields := fs; pages := None |};
     formData := data; uploadedFiles := ∅; nestedSubmissions := ∅;
     currentPage := 0 |}.

(** Scenario A: [details] is required and shown only when [other] is
    filled in. *)
Definition when_other_filled : @Conditional IntHost.host :=
  {| enabled := true;
     rules := Some [{| r_field := "other"; r_operator := Some "is_not_empty";
                       r_value := VUndefined |}];
     logicalOperator := None |}.

Definition other : @Field IntHost.host := text_field "other" false None None.

Definition details : @Field IntHost.host :=
  text_field "details" true None (Some when_other_filled).

Definition scenario_A : @State IntHost.host :=
  page [other; details] {[ "other" := VStr ""; "details" := VStr "" ]}.

(** A code of at least five characters, all digits. *)
Definition five_digits : @Validation IntHost.host :=
  {| min := VUndefined; max := VUndefined;
     minLength := Some (Some 5%Z : number IntHost.host); maxLength := None;
     pattern := Some "^[0-9]+$"; message := Some "Digits only" |}.

Definition code : @Field IntHost.host :=
  text_field "code" true (Some five_digits) None.

Definition short_code : @State IntHost.host :=
  page [code] {[ "code" := VStr "abc" ]}.

(** A rule with an operator the page does not know. *)
Definition odd_rule : @Rule IntHost.host :=
  {| r_field := "other"; r_operator := Some "matches"; r_value := VStr "^a" |}.

Definition odd_conditional : @Conditional IntHost.host :=
  {| enabled := true; rules := Some [odd_rule]; logicalOperator := Some "AND" |}.

Definition guarded : @Field IntHost.host :=
  text_field "guarded" true None (Some odd_conditional).

End PageScenario.

(** ** Notions of the specification the properties are stated with

    These follow the specification's wording, not the code: the
    controller never computes them. *)
Module Spec.
Import Model.

(** The workflow a submission is routed through: its form's. *)
Definition workflow_of (st : Store) (s : Submission) : option Workflow :=
  f ← List.find (fun f => Nat.eqb (f_id f) (form s)) (forms st);
  wid ← f_workflow f;
  List.find (fun w => Nat.eqb (w_id w) wid) (workflows st).

Definition stage_ids (w : Workflow) : list string := List.map st_id (stages w).

(** Some action of stage [from] leads to [target] and requires a
    comment. *)
Definition action_requires_comment (w : Workflow) (from target : string) : bool :=
  existsb (fun stg =>
             String.eqb (st_id stg) from &&
             existsb (fun a => String.eqb (nextStage a) target && requireComment a)
                     (actions stg))
          (stages w).

(** A missing or empty comment. *)
Definition blank (comment : option string) : bool := negb (truthy comment).

(** Permission precedence of the specification: admin, then public,
    then listed user, then listed role, otherwise deny. *)
Definition resolve (actor : User) (policy : FormPolicy) : bool :=
  if String.eqb (u_role actor) "admin" then true
  else if public policy then true
  else if existsb (Nat.eqb (u_id actor)) (fp_users policy) then true
  else if existsb (String.eqb (u_role actor)) (fp_roles policy) then true
  else false.

End Spec.

(** ** Relations between a store and a later one *)
Module Inv.
Import Model Mongoose Controller.

(** [t'] is a later state of the document [t]: the same identity, owner,
    form, links, payload and number; history and audit log extended at
    the end; a soft-deleted document stays soft-deleted. *)
Definition later (t t' : Submission) : Prop :=
  s_id t' = s_id t /\
  submissionNumber t' = submissionNumber t /\
  form t' = form t /\
  submittedBy t' = submittedBy t /\
  parentSubmission t' = parentSubmission t /\
  masterSubmission t' = masterSubmission t /\
  data t' = data t /\
  createdAt t' = createdAt t /\
  workflowHistory t `prefix_of` workflowHistory t' /\
  auditLog t `prefix_of` auditLog t' /\
  (isDeleted t = true -> isDeleted t' = true).

(** The collection [l'] holds, position by position, later states of the
    documents of [l]. *)
Definition evolves (l l' : list Submission) : Prop := Forall2 later l l'.

(** Documents outside [touched] are exactly what they were. *)
Definition frame (touched : Submission -> bool) (l l' : list Submission) : Prop :=
  Forall2 (fun t t' => touched t = false -> t' = t) l l'.

Definition has_id (id : oid) (t : Submission) : bool := Nat.eqb (s_id t) id.

(** A document with its deletion mark and modification time blanked. *)
Definition unmarked (t : Submission) : Submission :=
  set_updatedAt 0 (set_deletedBy None (set_deletedAt None (set_isDeleted false t))).

(** [t'] is [t] up to the deletion mark and the modification time, and
    is deleted if [t] was. *)
Definition marked (t t' : Submission) : Prop :=
  unmarked t' = unmarked t /\ (isDeleted t = true -> isDeleted t' = true).

(** Ids are unique and were all issued by the generator; numbers are
    unique. *)
Definition well_formed (st : Store) : Prop :=
  NoDup (List.map s_id (submissions st)) /\
  NoDup (List.map submissionNumber (submissions st)) /\
  Forall (fun t => s_id t < next_oid st) (submissions st).

(** The store a successful delete leaves. *)
Definition deleted_store (now : Date) (u : User) (s : Submission) (f : Form)
    (st st2 : Store) : Store :=
  if cascades f then
    set_submissions
      (List.map (fun t => if bool_decide (masterSubmission t = Some (s_id s))
                          then soft_delete now (u_id u) t else t)
                (submissions st2)) st2
  else st2.

(** Each gate of [createSubmission] either lets the request through or
    answers 400; none writes. *)
Definition is_gate (m : M unit) : Prop :=
  forall st, m st = (Val tt, st) \/
             exists msg, m st = (Reply (json 400 false (Some msg) None), st).

End Inv.

(** ** Decimal numerals *)
Module Decimal.
(** A decimal digit, and strings made of them. *)
Definition is_digit (c : ascii) : bool :=
  (48 <=? nat_of_ascii c)%nat && (nat_of_ascii c <=? 57)%nat.

Fixpoint all_digits (s : string) : bool :=
  match s with
  | EmptyString => true
  | String c rest => is_digit c && all_digits rest
  end.
End Decimal.

(** ** [src/pages/FormView.tsx]: the state updaters of the page *)
Module FormEdit.
Import Js FormView.

Section WithHost.
Context {H : Host}.

Definition set_nestedSubmissions
    (n : gmap string (list (gmap string (value H)))) (st : @State H) : @State H :=
  {| form := form st; formData := formData st; uploadedFiles := uploadedFiles st;
     nestedSubmissions := n; currentPage := currentPage st |}.

Definition set_uploadedFiles (u : gmap string FileData) (st : @State H) : @State H :=
  {| form := form st; formData := formData st; uploadedFiles := u;
     nestedSubmissions := nestedSubmissions st; currentPage := currentPage st |}.




(** [updateNestedItem]: [prev[fieldId].map((item, i) => i === index ? data : item)] *)
Definition updateNestedItem (fieldId : string) (index : number H)
    (data : gmap string (value H)) (st : @State H) : completion (@State H) :=
  match nestedSubmissions st !! fieldId with
  | Some items =>
      Normal (set_nestedSubmissions
                (<[fieldId := imap (fun i item =>
                                      if num_eqb H (of_nat H i) index then data else item)
                                   items]>
                   (nestedSubmissions st)) st)
  | None =>
      Abrupt "TypeError: Cannot read properties of undefined (reading 'map')"
  end.

(** [handleFileRemove], its state update: the request to the file API
    comes first and its failure is caught and logged, so the entry is
    dropped either way. *)
Definition handleFileRemove (fieldId : string) (st : @State H) : @State H :=
  set_uploadedFiles (delete fieldId (uploadedFiles st)) st.

(** The operator [switch] pairs with its negation. *)
Definition negated (op : string) : option string :=
  if String.eqb op "equals" then Some "not_equals"
  else if String.eqb op "contains" then Some "not_contains"
  else if String.eqb op "is_empty" then Some "is_not_empty"
  else if String.eqb op "in" then Some "not_in"
  else None.

Definition with_operator (op : string) (r : @Rule H) : @Rule H :=
  {| r_field := r_field r; r_operator := Some op; r_value := r_value r |}.

End WithHost.
End FormEdit.

(** ** Further stores and requests used by the examples *)
Module Cases.
Import Model Mongoose Controller Scenario.

Definition april2024 : Date :=
  {| getFullYear := 2024; getMonth := 3; getTime := 1000 |}.

Definition carol : User := {| u_id := 9; u_role := "user"; u_organization := None |}.

(** The [orders] form with another type and other settings. *)
Definition variant (type : string) (s : Settings) : Form :=
  {| f_id := 1; f_type := type; f_isActive := true; f_fields := [];
     f_settings := s; f_permissions := f_permissions orders;
     f_masterForm := f_masterForm orders; f_workflow := Some 100; f_version := 1;
     f_analytics_submissions := 0; f_updatedAt := 0 |}.

Definition plain : Form := variant "standard" (f_settings orders).

Definition once : Form :=
  variant "master" {| allowMultipleSubmissions := false; requireLogin := true;
                      scheduling := None; quotas := None |}.

Definition scheduled : Form :=
  variant "master"
    {| allowMultipleSubmissions := true; requireLogin := true;
       scheduling := Some {| sch_enabled := true; startDate := Some 2000;
                             endDate := None; closedMessage := None |};
       quotas := None |}.

Definition limited : Form :=
  variant "master"
    {| allowMultipleSubmissions := true; requireLogin := true;
       scheduling := None;
       quotas := Some {| q_enabled := true; maxSubmissions := Some 1;
                         quotaReachedMessage := None |} |}.

Definition store_of (fs : list Form) (subs : list Submission) : Store :=
  {| submissions := subs; forms := fs; workflows := [approval];
     next_oid := 30; bucket := None |}.

Definition first : Submission :=
  stored 20 "SUB-202404-00001" "review" "in_review" None None.

Definition family : list Submission := submissions family_store.

(** A month whose counter has run past five digits. *)
Definition full_month : list Submission :=
  [stored 20 "SUB-202404-99999" "submitted" "submitted" None None;
   stored 21 "SUB-202404-100000" "submitted" "submitted" None None].

Definition status_body (status priority : option string) : StatusBody :=
  {| sb_status := status; sb_currentStage := None; sb_comment := None;
     sb_priority := priority |}.

Definition update (body : StatusBody) : StatusRequest :=
  {| sr_user := root; sr_id := 20; sr_body := body |}.

Definition delete_by (u : User) : DeleteRequest := {| dr_user := u; dr_id := 20 |}.

Definition headless : CreateRequest :=
  {| cr_user := alice; cr_ip := None; cr_userAgent := None;
     cr_body := cr_body (create_request alice None) |}.

End Cases.

(** ** Further pages used by the examples *)
Module PageCases.
Import Js FormView FormEdit PageScenario.

(** A membership rule whose value is no list. *)
Definition member_rule : @Rule IntHost.host :=
  {| r_field := "other"; r_operator := Some "in"; r_value := VBool true |}.

Definition gated : @Field IntHost.host :=
  text_field "gated" false None
    (Some {| enabled := true; rules := Some [member_rule];
             logicalOperator := None |}).

(** A repeater that wants at least one item, holding one. *)
Definition items : @Field IntHost.host :=
  {| id := "items"; type := "repeater"; label := "Items"; required := false;
     hidden := false; validation := None; conditional := None;
     nestedForm := Some {| minItems := Some (Some 1%Z : number IntHost.host);
                           maxItems := None |} |}.

Definition with_items : @State IntHost.host :=
  {| form := Some {| fm_type := "standard"; fields := [items]; pages := None |};
     formData := ∅; uploadedFiles := ∅;
     nestedSubmissions := {[ "items" := [∅] ]}; currentPage := 0 |}.

(** A required file field with its file uploaded. *)
Definition photo : @Field IntHost.host :=
  {| id := "photo"; type := "file"; label := "Photo"; required := true;
     hidden := false; validation := None; conditional := None;
     nestedForm := None |}.

Definition with_photo : @State IntHost.host :=
  {| form := Some {| fm_type := "standard"; fields := [photo]; pages := None |};
     formData := ∅;
     uploadedFiles := {[ "photo" := {| fileId := "f1"; filename := "a.png" |} ]};
     nestedSubmissions := ∅; currentPage := 0 |}.

End PageCases.

(** * Properties *)

(** Unfolds the monadic plumbing of a controller body. *)
Ltac run_M :=
  repeat (unfold mbind, Mongoose.M_bind, mret, Mongoose.M_ret, Mongoose.get,
                 Mongoose.put, Mongoose.throw, Mongoose.reply; cbn).

Section Store_lemmas.
Import Model Mongoose.

Lemma unique_ok_same (a b : Submission) (subs : list Submission) :
  s_id a = s_id b -> submissionNumber a = submissionNumber b ->
  unique_ok a subs = unique_ok b subs.
Proof. intros Hid Hn. unfold unique_ok. by rewrite Hid, Hn. Qed.

Lemma unique_ok_replace (d doc : Submission) (subs : list Submission) :
  s_id d = s_id doc ->
  unique_ok doc subs = true -> unique_ok doc (replace_doc d subs) = true.
Proof.
  intros Hid. unfold unique_ok, replace_doc.
  rewrite !forallb_forall. intros Hall t Ht.
  apply in_map_iff in Ht as (u & <- & Hu).
  destruct (Nat.eqb (s_id u) (s_id d)) eqn:E.
  - rewrite Hid, Nat.eqb_refl. done.
  - by apply Hall.
Qed.

Lemma existsb_replace (id : oid) (d : Submission) (subs : list Submission) :
  s_id d = id ->
  existsb (fun t => Nat.eqb (s_id t) id) (replace_doc d subs)
  = existsb (fun t => Nat.eqb (s_id t) id) subs.
Proof.
  intros <-. unfold replace_doc. induction subs as [|t subs IH]; [done|].
  cbn. rewrite IH. destruct (Nat.eqb (s_id t) (s_id d)) eqn:E; [|by rewrite E].
  by rewrite Nat.eqb_refl.
Qed.

Lemma find_existsb (id : oid) (subs : list Submission) (s : Submission) :
  List.find (fun t => Nat.eqb (s_id t) id) subs = Some s ->
  s_id s = id /\ existsb (fun t => Nat.eqb (s_id t) id) subs = true.
Proof.
  intros Hf. pose proof (find_some _ _ Hf) as [Hin He].
  apply Nat.eqb_eq in He. split; [done|].
  apply existsb_exists. exists s. split; [done|]. by apply Nat.eqb_eq.
Qed.

Lemma find_replace (id : oid) (d : Submission) (subs : list Submission)
    (s : Submission) :
  s_id d = id ->
  List.find (fun t => Nat.eqb (s_id t) id) subs = Some s ->
  List.find (fun t => Nat.eqb (s_id t) id) (replace_doc d subs) = Some d.
Proof.
  intros <-. unfold replace_doc. induction subs as [|t subs IH]; [done|].
  cbn. destruct (Nat.eqb (s_id t) (s_id d)) eqn:E.
  - intros _. by rewrite Nat.eqb_refl.
  - rewrite E. apply IH.
Qed.

(** Saving a stored document that passes validation succeeds and
    replaces it. *)
Lemma save_stored (now : Date) (doc : Submission) (st : Store) :
  validate doc = None ->
  unique_ok doc (submissions st) = true ->
  existsb (fun t => Nat.eqb (s_id t) (s_id doc)) (submissions st) = true ->
  save now false doc st
  = (Val (set_updatedAt (getTime now) doc),
     set_submissions (replace_doc (set_updatedAt (getTime now) doc) (submissions st)) st).
Proof.
  intros Hv Hu He. unfold save. rewrite Hv.
  unfold write, pre_save, needs_number. rewrite andb_false_r. run_M.
  rewrite (unique_ok_same _ doc) by done. rewrite Hu. run_M. rewrite He. done.
Qed.

End Store_lemmas.

Section Status_update.
Import Model Mongoose Controller.

Lemma validate_None (doc : Submission) :
  in_enum (status doc) status_enum = true ->
  in_enum (priority doc) priority_enum = true ->
  validate doc = None.
Proof. intros Hs Hp. unfold validate. by rewrite Hs, Hp. Qed.

(** What [updateSubmissionStatus] does to a stored, live submission when
    the requested status and priority pass the schema's enumerations:
    it answers 200 and the stored document carries the requested status
    and stage; its history has grown by the controller's entry and, when
    a status was given, by the one [updateStatus] adds. *)
Lemma updateSubmissionStatus_ok (now : Date) (req : StatusRequest)
    (st : Store) (s : Submission) :
  List.find (fun t => Nat.eqb (s_id t) (sr_id req)) (submissions st) = Some s ->
  isDeleted s = false ->
  in_enum (or_else (sb_status (sr_body req)) (status s)) status_enum = true ->
  in_enum (priority s) priority_enum = true ->
  in_enum (or_else (sb_priority (sr_body req)) (priority s)) priority_enum = true ->
  unique_ok s (submissions st) = true ->
  exists (s' : Submission) (st' : Store),
    updateSubmissionStatus now req st = (json 200 true None (Some s'), st') /\
    List.find (fun t => Nat.eqb (s_id t) (sr_id req)) (submissions st') = Some s' /\
    status s' = or_else (sb_status (sr_body req)) (status s) /\
    currentStage s' = or_else (sb_currentStage (sr_body req)) (currentStage s) /\
    workflowHistory s' =
      (workflowHistory s ++
       historyEntry now req s ::
       (if truthy (sb_status (sr_body req))
        then [status_change_entry now s (u_id (sr_user req)) (status s)
                (default "" (sb_status (sr_body req))) (sb_comment (sr_body req))]
        else []))%list /\
    forms st' = forms st /\ workflows st' = workflows st.
Proof.
  intros Hfind Hlive Hst Hp0 Hp Huniq.
  destruct (find_existsb _ _ _ Hfind) as [Hid Hex].
  unfold updateSubmissionStatus, handler, Submission_findById.
  run_M. rewrite Hfind, Hlive. run_M.
  unfold or_else in *.
  destruct (truthy (sb_status (sr_body req))) eqn:Hts.
  all: try unfold updateStatus;
    try (rewrite save_stored;
         [ run_M
         | by apply validate_None
         | by cbn; rewrite <- Huniq; apply unique_ok_same
         | by cbn; rewrite Hid ]).
  all: match goal with
       | |- context [save _ false ?d ?st1] =>
           set (d2 := d); set (subs1 := submissions st1)
       end.
  all: assert (s_id d2 = s_id s /\ submissionNumber d2 = submissionNumber s /\
               priority d2 = (if truthy (sb_priority (sr_body req))
                              then default "" (sb_priority (sr_body req))
                              else priority s) /\
               currentStage d2 = (if truthy (sb_currentStage (sr_body req))
                                  then default "" (sb_currentStage (sr_body req))
                                  else currentStage s) /\
               status d2 = (if truthy (sb_status (sr_body req))
                            then default "" (sb_status (sr_body req))
                            else status s) /\
               workflowHistory d2 =
                 (workflowHistory s ++
                  historyEntry now req s ::
                  (if truthy (sb_status (sr_body req))
                   then [status_change_entry now s (u_id (sr_user req)) (status s)
                           (default "" (sb_status (sr_body req)))
                           (sb_comment (sr_body req))]
                   else []))%list)
      as (Hid2 & Hn2 & Hp2 & Hc2 & Hs2 & Hh2)
      by (subst d2; rewrite Hts;
          destruct (truthy (sb_currentStage (sr_body req))),
                   (truthy (sb_priority (sr_body req))),
                   (bool_decide (sb_status (sr_body req) = Some "completed") ||
                    bool_decide (sb_status (sr_body req) = Some "approved"));
          cbn; rewrite <- ?app_assoc; done).
  all: clearbody d2; rewrite Hts in Hs2, Hh2.
  all: assert (Hu0 : unique_ok d2 (submissions st) = true)
      by (by rewrite (unique_ok_same d2 s)).
  all: assert (unique_ok d2 subs1 = true /\
               existsb (fun t => Nat.eqb (s_id t) (s_id d2)) subs1 = true /\
               exists s1, List.find (fun t => Nat.eqb (s_id t) (sr_id req)) subs1 = Some s1)
      as (Hu1 & He1 & s1 & Hf1)
      by (subst subs1; cbn [submissions set_submissions]; rewrite Hid2, Hid;
          split_and!;
          [ first [ by apply unique_ok_replace; [cbn; congruence|] | done ]
          | by rewrite ?existsb_replace
          | first [ by eexists; eapply find_replace | by eexists ] ]).
  all: rewrite save_stored;
         [ run_M | apply validate_None; by rewrite ?Hs2, ?Hp2 | done | done ].
  all: eexists _, _; split; [reflexivity|].
  all: cbn [submissions set_submissions status currentStage workflowHistory
            set_updatedAt].
  all: split; [ apply (find_replace _ (set_updatedAt (getTime now) d2) _ s1);
                [cbn; congruence | exact Hf1]
              | by rewrite Hs2, Hc2, Hh2 ].
Qed.
End Status_update.

Section Status_properties.
Import Model Mongoose Controller Scenario.

(** C2, as stated, fails: the review stage's [reject] action requires a
    comment, the request carries none, and the controller answers 200
    with the submission moved to [rejected]. *)
Lemma C2_blank_comment_is_accepted :
  Spec.workflow_of review_store
    (stored 20 "SUB-202404-00001" "review" "in_review" None None) = Some approval /\
  Spec.action_requires_comment approval "review" "rejected" = true /\
  Spec.blank None = true /\
  let r := updateSubmissionStatus may2024
             (status_request (Some "rejected") (Some "rejected") None)
             review_store in
  code r.1 = 200 /\ success r.1 = true /\
  List.map (fun s => (status s, currentStage s)) (submissions r.2)
    = [("rejected", "rejected")].
Proof. vm_compute. by repeat split. Qed.

(** C2, amended: the controller never looks at [requireComment].  For a
    stored, live submission and a request whose status and priority pass
    the schema, the update succeeds whatever the comment, blank or not,
    and the stored status and stage are the requested ones. *)
Theorem C2_status_update_needs_no_comment (now : Date) (req : StatusRequest)
    (st : Store) (s : Submission) :
  List.find (fun t => Nat.eqb (s_id t) (sr_id req)) (submissions st) = Some s ->
  isDeleted s = false ->
  in_enum (or_else (sb_status (sr_body req)) (status s)) status_enum = true ->
  in_enum (priority s) priority_enum = true ->
  in_enum (or_else (sb_priority (sr_body req)) (priority s)) priority_enum = true ->
  unique_ok s (submissions st) = true ->
  exists (s' : Submission) (st' : Store),
    updateSubmissionStatus now req st = (json 200 true None (Some s'), st') /\
    List.find (fun t => Nat.eqb (s_id t) (sr_id req)) (submissions st') = Some s' /\
    status s' = or_else (sb_status (sr_body req)) (status s) /\
    currentStage s' = or_else (sb_currentStage (sr_body req)) (currentStage s).
Proof.
  intros Hf Hl Hs Hp0 Hp Hu.
  destruct (updateSubmissionStatus_ok now req st s Hf Hl Hs Hp0 Hp Hu)
    as (s' & st' & Hrun & Hfind & Hst & Hcs & _).
  exists s', st'. by split_and!.
Qed.

Lemma C2_status_update_needs_no_comment_witness :
  exists (s' : Submission) (st' : Store),
    updateSubmissionStatus may2024
      (status_request (Some "rejected") (Some "rejected") None) review_store
    = (json 200 true None (Some s'), st') /\
    status s' = "rejected" /\ currentStage s' = "rejected".
Proof.
  destruct (C2_status_update_needs_no_comment may2024
              (status_request (Some "rejected") (Some "rejected") None)
              review_store
              (stored 20 "SUB-202404-00001" "review" "in_review" None None))
    as (s' & st' & Hrun & _ & Hs & Hc); try reflexivity.
  exists s', st'. by split_and!.
Defined.

End Status_properties.

Section Stage_and_history_properties.
Import Model Mongoose Controller Scenario.

(** C4, as stated, fails: [escalated] is not a stage of the workflow,
    yet the request moving the submission there is answered 200 and the
    stage is stored. *)
Lemma C4_unknown_stage_is_stored :
  Spec.workflow_of review_store
    (stored 20 "SUB-202404-00001" "review" "in_review" None None) = Some approval /\
  existsb (String.eqb "escalated") (Spec.stage_ids approval) = false /\
  let r := updateSubmissionStatus may2024
             (status_request None (Some "escalated") None) review_store in
  code r.1 = 200 /\ success r.1 = true /\
  List.map currentStage (submissions r.2) = ["escalated"].
Proof. vm_compute. by repeat split. Qed.

(** C4, amended: the controller does not load the workflow and raises no
    configuration error.  Whatever non-empty stage the request names,
    declared by the workflow or not, the update of a stored, live
    submission succeeds and that stage becomes its [currentStage]. *)
Theorem C4_any_stage_is_applied (now : Date) (req : StatusRequest)
    (st : Store) (s : Submission) (stage : string) :
  List.find (fun t => Nat.eqb (s_id t) (sr_id req)) (submissions st) = Some s ->
  isDeleted s = false ->
  sb_currentStage (sr_body req) = Some stage ->
  stage <> "" ->
  in_enum (or_else (sb_status (sr_body req)) (status s)) status_enum = true ->
  in_enum (priority s) priority_enum = true ->
  in_enum (or_else (sb_priority (sr_body req)) (priority s)) priority_enum = true ->
  unique_ok s (submissions st) = true ->
  exists (s' : Submission) (st' : Store),
    updateSubmissionStatus now req st = (json 200 true None (Some s'), st') /\
    List.find (fun t => Nat.eqb (s_id t) (sr_id req)) (submissions st') = Some s' /\
    currentStage s' = stage /\
    h_stage (historyEntry now req s) = stage /\
    forms st' = forms st /\ workflows st' = workflows st.
Proof.
  intros Hf Hl Hc Hne Hs Hp0 Hp Hu.
  destruct (updateSubmissionStatus_ok now req st s Hf Hl Hs Hp0 Hp Hu)
    as (s' & st' & Hrun & Hfind & _ & Hcs & _ & Hfs & Hws).
  assert (Hstage : or_else (sb_currentStage (sr_body req)) (currentStage s) = stage).
  { unfold or_else. rewrite Hc. cbn.
    destruct (String.eqb_spec stage ""); [done|]. done. }
  exists s', st'. split_and!; try done. by rewrite Hcs.
Qed.

Lemma C4_any_stage_is_applied_witness :
  exists (s' : Submission) (st' : Store),
    updateSubmissionStatus may2024
      (status_request None (Some "escalated") None) review_store
    = (json 200 true None (Some s'), st') /\
    currentStage s' = "escalated" /\ workflows st' = [approval].
Proof.
  destruct (C4_any_stage_is_applied may2024
              (status_request None (Some "escalated") None) review_store
              (stored 20 "SUB-202404-00001" "review" "in_review" None None)
              "escalated")
    as (s' & st' & Hrun & _ & Hc & _ & _ & Hw); try reflexivity; [done|].
  exists s', st'. by split_and!.
Defined.

(** C3: one status change, two history entries.  The controller pushes
    its entry and then calls [updateStatus], which pushes another one
    for the same transition. *)
Theorem C3_status_change_is_logged_twice :
  let r := updateSubmissionStatus may2024
             (status_request (Some "approved") None (Some "ok")) review_store in
  code r.1 = 200 /\
  List.map (fun s => List.map h_action (workflowHistory s)) (submissions r.2)
  = [["submitted"; "approved"; "Status changed from in_review to approved"]] /\
  List.map (fun s => List.length (workflowHistory s)) (submissions review_store)
  = [1].
Proof. vm_compute. by repeat split. Qed.

(** Without a status in the request the same controller appends one
    entry only. *)
Lemma stage_change_is_logged_once :
  let r := updateSubmissionStatus may2024
             (status_request None (Some "approved") (Some "ok")) review_store in
  code r.1 = 200 /\
  List.map (fun s => List.map h_action (workflowHistory s)) (submissions r.2)
  = [["submitted"; "updated"]].
Proof. vm_compute. by repeat split. Qed.


End Stage_and_history_properties.

Section Creation_properties.
Import Model Mongoose Controller Scenario.

Lemma prefix_app (p s : string) : String.prefix p (p ++ s) = true.
Proof.
  induction p as [|c p IH]; [by destruct s|].
  change (String c p ++ s) with (String c (p ++ s)).
  cbn [String.prefix]. destruct (Ascii.ascii_dec c c); [exact IH|done].
Qed.

Lemma In_replace (d : Submission) (subs : list Submission) :
  existsb (fun t => Nat.eqb (s_id t) (s_id d)) subs = true ->
  In d (replace_doc d subs).
Proof.
  intros (t & Hin & He)%existsb_exists. unfold replace_doc.
  apply in_map_iff. exists t. by rewrite He.
Qed.

(** C5: an admin who is not listed by the submit policy is refused.
    The specification's precedence allows the actor; [canSubmit] has no
    admin clause and [createSubmission] answers 403. *)
Theorem C5_admin_is_denied_submit :
  Spec.resolve root (submitForm (f_permissions orders)) = true /\
  canSubmit orders (Some root) = false /\
  (createSubmission may2024 (create_request root None) empty_store).1
  = json 403 false (Some "Not authorized to submit this form") None.
Proof. vm_compute. by repeat split. Qed.

(** Apart from the admin clause, [canSubmit] for a logged-in actor is
    the specification's precedence. *)
Lemma canSubmit_resolve (f : Form) (u : User) :
  u_role u <> "admin" ->
  canSubmit f (Some u) = Spec.resolve u (submitForm (f_permissions f)).
Proof.
  intros Hr. unfold canSubmit, Spec.resolve.
  destruct (String.eqb_spec (u_role u) "admin"); [done|].
  destruct (public _); [done|]. cbn.
  destruct (existsb (Nat.eqb (u_id u)) _); [done|]. done.
Qed.

(** C7, as stated, fails: a submission created as a draft is numbered
    when it is first saved. *)
Lemma C7_draft_gets_a_number :
  let r := createSubmission may2024 (create_request alice (Some "draft"))
                            empty_store in
  code r.1 = 201 /\
  List.map (fun s => (status s, submissionNumber s)) (submissions r.2)
  = [("draft", Some "SUB-202405-00001")].
Proof. vm_compute. by repeat split. Qed.

Lemma format_number_truthy (now : Date) (sequence : option Z) :
  truthy (Some (format_number now sequence)) = true.
Proof. done. Qed.

(** C7, amended: the number is assigned at the first save of a new
    document, whatever its status, and no save changes a number that is
    set.  For every save that succeeds: a new document without a number
    is stored with one; a document that has a number, or is not new,
    keeps what it had. *)
Theorem C7_number_assigned_at_first_save (now : Date) (isNew : bool)
    (doc d : Submission) (st st' : Store) :
  save now isNew doc st = (Val d, st') ->
  In d (submissions st') /\
  status d = status doc /\
  (isNew = true -> truthy (submissionNumber doc) = false ->
   truthy (submissionNumber d) = true /\
   String.prefix (month_prefix now) (number_or_empty d) = true) /\
  (truthy (submissionNumber doc) = true ->
   submissionNumber d = submissionNumber doc) /\
  (isNew = false -> submissionNumber d = submissionNumber doc).
Proof.
  unfold save. destruct (validate doc); [done|].
  unfold write, pre_save. run_M.
  remember (if needs_number isNew (set_updatedAt (getTime now) doc)
            then assign_number now (findLast (month_prefix now) (submissions st))
                   (set_updatedAt (getTime now) doc)
            else set_updatedAt (getTime now) doc) as d1 eqn:Hd1.
  assert (Hfacts :
    status d1 = status doc /\
    (isNew = true -> truthy (submissionNumber doc) = false ->
     truthy (submissionNumber d1) = true /\
     String.prefix (month_prefix now) (number_or_empty d1) = true) /\
    (truthy (submissionNumber doc) = true ->
     submissionNumber d1 = submissionNumber doc) /\
    (isNew = false -> submissionNumber d1 = submissionNumber doc)).
  { subst d1. unfold needs_number. cbn [submissionNumber set_updatedAt].
    destruct (truthy (submissionNumber doc)), isNew; cbn; split_and!; try done.
    intros _ _. split; [done|]. apply prefix_app. }
  destruct (unique_ok d1 (submissions st)); [|done]. cbn.
  destruct isNew.
  - intros [= <- <-]. split; [|done]. cbn. apply in_app_iff. right. by left.
  - destruct (existsb _ _) eqn:He; [|done]. intros [= <- <-].
    split; [|done]. cbn. by apply In_replace.
Qed.

Lemma C7_number_assigned_at_first_save_witness :
  exists (d : Submission) (st' : Store),
    save may2024 true
         (new_submission may2024 20 orders (create_request alice (Some "draft"))
                         "draft" "Mozilla/5.0")
         empty_store = (Val d, st') /\
    status d = "draft" /\ truthy (submissionNumber d) = true.
Proof.
  destruct (save may2024 true
              (new_submission may2024 20 orders
                 (create_request alice (Some "draft")) "draft" "Mozilla/5.0")
              empty_store) as [[d| |] st'] eqn:E;
    try (vm_compute in E; discriminate).
  exists d, st'. split; [reflexivity|].
  destruct (C7_number_assigned_at_first_save _ _ _ _ _ _ E) as (_ & Hs & Hn & _).
  split; [exact Hs|]. by apply Hn.
Defined.
End Creation_properties.

Section Race_properties.
Import Model Mongoose Race Scenario.

(** Run without interruption, the two steps of a creation are [save]. *)
Lemma create_alone (now : Date) (doc : Submission) (st : Store) :
  run now [0; 0] ([Created doc], st)
  = let '(t, st') := finish (save now true doc st) in ([t], st').
Proof.
  unfold run, resume, save, pre_save. cbn.
  destruct (validate doc) eqn:Hv; [done|]. run_M.
  destruct (needs_number true (set_updatedAt (getTime now) doc)); cbn.
  - by destruct (write true _ st) as [[?|?|?] ?].
  - by destruct (write true _ st) as [[?|?|?] ?].
Qed.

(** Two requests that both run their query before either inserts read
    the same last submission, hence compute the same number. *)
Lemma race_same_number (now : Date) (d1 d2 : Submission) (st : Store) :
  validate d1 = None -> validate d2 = None ->
  submissionNumber d1 = None -> submissionNumber d2 = None ->
  let last := findLast (month_prefix now) (submissions st) in
  let a1 := set_updatedAt (getTime now) d1 in
  let a2 := set_updatedAt (getTime now) d2 in
  run now [0; 1] ([Created d1; Created d2], st)
  = ([Awaiting a1 last; Awaiting a2 last], st) /\
  submissionNumber (assign_number now last a1)
  = submissionNumber (assign_number now last a2).
Proof.
  intros Hv1 Hv2 Hn1 Hn2.
  assert (Hneeds : forall d, submissionNumber d = None ->
            needs_number true (set_updatedAt (getTime now) d) = true)
    by (intros d Hd; unfold needs_number; cbn; by rewrite Hd).
  unfold run, resume. cbn.
  rewrite Hv1, (Hneeds d1 Hn1). cbn. rewrite Hv2, (Hneeds d2 Hn2). by cbn.
Qed.

Lemma write_new (b : Submission) (st : Store) :
  write true b st
  = if unique_ok b (submissions st)
    then (Val b, set_submissions (submissions st ++ [b]) st)
    else (Throw duplicate_key, st).
Proof.
  unfold write, mbind, M_bind, get. cbn.
  by destruct (unique_ok b (submissions st)).
Qed.

Lemma unique_ok_after (b1 b2 : Submission) (subs : list Submission) :
  s_id b1 <> s_id b2 ->
  submissionNumber b1 = submissionNumber b2 ->
  unique_ok b2 (subs ++ [b1]) = false.
Proof.
  intros Hid Hsame. unfold unique_ok. rewrite forallb_app.
  apply andb_false_intro2. cbn. rewrite andb_true_r, Hsame.
  rewrite bool_decide_eq_true_2 by done. cbn. rewrite orb_false_r.
  by apply Nat.eqb_neq.
Qed.

(** Whatever the store, when the two queries both precede the inserts
    the second insert is refused: its number is the one just stored. *)
Lemma race_loses_one (now : Date) (d1 d2 : Submission) (st : Store) :
  validate d1 = None -> validate d2 = None ->
  submissionNumber d1 = None -> submissionNumber d2 = None ->
  s_id d1 <> s_id d2 ->
  let sys := run now [0; 1; 0; 1] ([Created d1; Created d2], st) in
  (exists a : Submission, sys.1 !! 0 = Some (Saved a)) ->
  sys.1 !! 1 = Some (Failed duplicate_key).
Proof.
  intros Hv1 Hv2 Hn1 Hn2 Hid.
  destruct (race_same_number now d1 d2 st Hv1 Hv2 Hn1 Hn2) as (Hrun & Hsame).
  change [0; 1; 0; 1] with ([0; 1] ++ [0; 1])%list.
  unfold run in *. rewrite foldl_app, Hrun. clear Hrun. cbn [foldl].
  unfold resume. cbn [fst snd lookup list_lookup step].
  rewrite write_new.
  destruct (unique_ok _ (submissions st)); cbn [finish].
  - intros _. cbn [fst snd lookup list_lookup list_insert insert step].
    rewrite write_new. cbn [submissions set_submissions].
    rewrite unique_ok_after; [done| by cbn | exact Hsame].
  - cbn. rewrite write_new.
    destruct (unique_ok _ (submissions st)); cbn; by intros [a [=]].
Qed.
(** C1: two creations in the same month, interleaved at the hook's
    query.  Both compute [SUB-202405-00001]; the first insert stores it,
    the second hits the unique index and the request fails. *)
Theorem C1_concurrent_creations_collide :
  let sys := run may2024 [0; 1; 0; 1]
                 ([Created (fresh 20); Created (fresh 21)], empty_store) in
  List.map saved_number sys.1 = [Some "SUB-202405-00001"; None] /\
  sys.1 !! 1 = Some (Failed duplicate_key) /\
  List.map submissionNumber (submissions sys.2) = [Some "SUB-202405-00001"].
Proof. vm_compute. by repeat split. Qed.

(** One after the other, the same two creations get consecutive
    numbers. *)
Lemma sequential_creations_differ :
  let sys := run may2024 [0; 0; 1; 1]
                 ([Created (fresh 20); Created (fresh 21)], empty_store) in
  List.map saved_number sys.1
  = [Some "SUB-202405-00001"; Some "SUB-202405-00002"].
Proof. vm_compute. done. Qed.
End Race_properties.

Section Delete_properties.
Import Model Mongoose Controller Scenario.

Lemma find_form (id : oid) (st : Store) (f : Form) :
  List.find (fun g => Nat.eqb (f_id g) id) (forms st) = Some f ->
  Form_findById id st = (Val (Some f), st).
Proof. intros Hf. unfold Form_findById. run_M. by rewrite Hf. Qed.

Lemma lookup_map {A B : Type} (g : A -> B) (l : list A) (i : nat) :
  List.map g l !! i = g <$> l !! i.
Proof.
  revert i. induction l as [|a l IH]; intros [|i]; cbn; try done.
Qed.

Lemma delete_files_keeps_submissions (a : Submission) (st : Store) :
  exists st' : Store,
    delete_files a st = (Val tt, st') /\ submissions st' = submissions st.
Proof.
  unfold delete_files. run_M. destruct (bucket st); [|by eexists].
  destruct (bool_decide (files a = [])); by eexists.
Qed.

(** C8: soft-deleting a submission of a master form with cascade delete.
    The request succeeds; the collection keeps its documents in place;
    the deleted submission and every submission whose [masterSubmission]
    is its id end with [isDeleted = true]; every other document, linked
    through [parentSubmission] or not at all, is exactly what it was. *)
Theorem C8_cascade_delete_frame (now : Date) (req : DeleteRequest)
    (st : Store) (s : Submission) (f : Form) :
  List.find (fun t => Nat.eqb (s_id t) (dr_id req)) (submissions st) = Some s ->
  isDeleted s = false ->
  List.find (fun g => Nat.eqb (f_id g) (form s)) (forms st) = Some f ->
  is_admin (dr_user req) || owner_or_listed (dr_user req) s f = true ->
  cascades f = true ->
  validate s = None ->
  unique_ok s (submissions st) = true ->
  exists st' : Store,
    deleteSubmission now req st
    = (json 200 true (Some "Submission deleted successfully") None, st') /\
    List.length (submissions st') = List.length (submissions st) /\
    forall (i : nat) (t : Submission),
      submissions st !! i = Some t ->
      exists t' : Submission,
        submissions st' !! i = Some t' /\
        (masterSubmission t = Some (s_id s) -> isDeleted t' = true) /\
        (s_id t = s_id s -> isDeleted t' = true) /\
        (masterSubmission t <> Some (s_id s) -> s_id t <> s_id s -> t' = t).
Proof.
  intros Hfind Hlive Hform Hallow Hcasc Hvalid Huniq.
  destruct (find_existsb _ _ _ Hfind) as [Hid Hex].
  unfold deleteSubmission, handler, Submission_findById.
  run_M. rewrite Hfind, Hlive. run_M.
  rewrite (find_form _ _ _ Hform).
  assert (Hcan : canDelete (dr_user req) s (Some f) st = (Val true, st)).
  { unfold canDelete. destruct (is_admin (dr_user req)); [done|].
    cbn in Hallow. by rewrite Hallow. }
  rewrite Hcan. cbn [negb].
  rewrite save_stored;
    [ | exact Hvalid | by rewrite (unique_ok_same _ s) | by cbn; rewrite Hid ].
  set (s1 := set_updatedAt (getTime now) (soft_delete now (u_id (dr_user req)) s)).
  destruct (delete_files_keeps_submissions s1
              (set_submissions (replace_doc s1 (submissions st)) st))
    as (st2 & -> & Hsubs2).
  rewrite Hcasc. unfold Submission_updateMany. run_M.
  eexists. split; [reflexivity|]. cbn [submissions set_submissions].
  rewrite Hsubs2. cbn [submissions set_submissions]. unfold replace_doc.
  split; [by rewrite !length_map|].
  intros i t Hi. rewrite !lookup_map, Hi. cbn.
  eexists. split; [reflexivity|].
  destruct (Nat.eqb_spec (s_id t) (s_id s)) as [He|Hne].
  - split_and!; intros; try done; by case_bool_decide.
  - case_bool_decide as Hm; split_and!; intros; done.
Qed.

(** Scenario D. *)
Lemma C8_cascade_delete_frame_witness :
  exists st' : Store,
    deleteSubmission may2024 {| dr_user := root; dr_id := 20 |} family_store
    = (json 200 true (Some "Submission deleted successfully") None, st') /\
    List.map isDeleted (submissions st') = [true; true; true; false; false].
Proof.
  destruct (C8_cascade_delete_frame may2024 {| dr_user := root; dr_id := 20 |}
              family_store
              (stored 20 "SUB-202404-00001" "submitted" "submitted" None None)
              orders)
    as (st' & Hrun & _); try reflexivity.
  exists st'. split; [exact Hrun|].
  vm_compute in Hrun. by injection Hrun as <-.
Defined.
End Delete_properties.

Section Rule_properties.
Import Js FormView.
Context {H : Host}.

Lemma eval_rule_unrecognized (data : gmap string (value H)) (rule : Rule) :
  recognized rule = false ->
  eval_rule data rule = Normal (VBool true).
Proof.
  unfold recognized, operators. cbn [existsb].
  rewrite !orb_false_iff. intros Hop. destruct_and!.
  unfold eval_rule.
  repeat (case_bool_decide; [done|]). done.
Qed.

(** A falsy result in the list comes from a rule that evaluated to it. *)
Lemma eval_rules_falsy (data : gmap string (value H)) (rs : list Rule)
    (vs : list (value H)) :
  eval_rules data rs = Normal vs ->
  forallb truthy vs = false ->
  exists (r : Rule) (v : value H),
    In r rs /\ eval_rule data r = Normal v /\ truthy v = false.
Proof.
  revert vs. induction rs as [|r rs IH]; intros vs; cbn.
  - by intros [= <-].
  - destruct (eval_rule data r) as [v|] eqn:Hr; [|done].
    destruct (eval_rules data rs) as [ws|] eqn:Hrs; [|done].
    intros [= <-]. cbn. destruct (truthy v) eqn:Hv; cbn.
    + intros Hws. destruct (IH ws eq_refl Hws) as (r' & v' & Hin & He & Ht).
      exists r', v'. split_and!; try done. by right.
    + intros _. exists r, v. split_and!; try done. by left.
Qed.

(** With rules present and the condition enabled, the outcome is the
    combination of the rules' results. *)
Lemma evaluateCondition_enabled (data : gmap string (value H)) (field : Field)
    (c : Conditional) (rs : list Rule) :
  conditional field = Some c ->
  enabled c = true ->
  rules c = Some rs ->
  rs <> [] ->
  evaluateCondition data field
  = match eval_rules data rs with
    | Abrupt e => Abrupt e
    | Normal results =>
        Normal (if String.eqb (operator c) "AND"
                then forallb truthy results
                else existsb truthy results)
    end.
Proof.
  intros Hc He Hr Hne. unfold evaluateCondition. rewrite Hc, Hr, He.
  by destruct rs.
Qed.

(** C10: a rule whose operator is none of the ten evaluates to [true];
    when the rules are combined with AND and the field comes out
    hidden, some other rule of the list evaluated to a falsy value. *)
Theorem C10_unrecognized_operator_is_satisfied
    (data : gmap string (value H)) (field : Field) (c : Conditional)
    (before after : list Rule) (rule : Rule) :
  conditional field = Some c ->
  enabled c = true ->
  rules c = Some (before ++ rule :: after)%list ->
  operator c = "AND" ->
  recognized rule = false ->
  eval_rule data rule = Normal (VBool true) /\
  (evaluateCondition data field = Normal false ->
   exists (r : Rule) (v : value H),
     In r (before ++ after)%list /\
     eval_rule data r = Normal v /\ truthy v = false).
Proof.
  intros Hc He Hr Hand Hop.
  pose proof (eval_rule_unrecognized data rule Hop) as Htrue.
  split; [exact Htrue|].
  rewrite (evaluateCondition_enabled data field c _ Hc He Hr)
    by (by destruct before).
  destruct (eval_rules data (before ++ rule :: after)) as [results|] eqn:Hrs;
    [|done].
  rewrite Hand. cbn. intros [= Hall].
  destruct (eval_rules_falsy _ _ _ Hrs Hall) as (r & v & Hin & Hev & Hv).
  exists r, v. split_and!; try done.
  apply in_app_iff in Hin as [Hin|[<-|Hin]]; apply in_app_iff; auto.
  rewrite Htrue in Hev. by injection Hev as <-.
Qed.

End Rule_properties.

Section Rule_witness.
Import Js FormView PageScenario.

Lemma C10_unrecognized_operator_is_satisfied_witness :
  eval_rule ∅ odd_rule = Normal (VBool true) /\
  (evaluateCondition ∅ guarded = Normal false ->
   exists (r : Rule) (v : value IntHost.host),
     In r ([] ++ [])%list /\ eval_rule ∅ r = Normal v /\ truthy v = false).
Proof.
  apply (C10_unrecognized_operator_is_satisfied ∅ guarded odd_conditional
           [] [] odd_rule); reflexivity.
Defined.

(** The field guarded by the unknown operator alone is shown. *)
Lemma guarded_is_shown : evaluateCondition ∅ guarded = Normal true.
Proof. reflexivity. Qed.
End Rule_witness.

Section Validation_properties.
Import Js FormView.
Context {H : Host}.

Lemma assign_lookup (key : string) (errs : gmap string string) (msgs : list string) :
  String.eqb key "__proto__" = false ->
  assign key errs msgs !! key
  = match last msgs with
    | Some m => Some m
    | None => errs !! key
    end.
Proof.
  intros Hkey. unfold assign. rewrite Hkey. revert errs.
  induction msgs as [|m msgs IH]; intros errs; [done|].
  cbn [foldl]. rewrite IH, last_cons.
  destruct (last msgs); [done|]. by rewrite lookup_insert_eq.
Qed.

Lemma assign_lookup_ne (key k : string) (errs : gmap string string)
    (msgs : list string) :
  key <> k -> assign key errs msgs !! k = errs !! k.
Proof.
  intros Hne. unfold assign. destruct (String.eqb key "__proto__"); [done|].
  revert errs.
  induction msgs as [|m msgs IH]; intros errs; [done|].
  cbn [foldl]. rewrite IH. by rewrite lookup_insert_ne.
Qed.

(** A field's callback writes under the field's own id only. *)
Lemma validate_field_lookup_ne (st : @State H) (errs errs' : gmap string string)
    (g : @Field H) (k : string) :
  validate_field st errs g = Normal errs' ->
  id g <> k -> errs' !! k = errs !! k.
Proof.
  unfold validate_field. intros Hv Hne.
  destruct (hidden g); [by injection Hv as <-|].
  destruct (evaluateCondition (formData st) g) as [[|]|]; try done.
  - destruct (field_writes st g); [|done]. injection Hv as <-.
    by apply assign_lookup_ne.
  - by injection Hv as <-.
Qed.

Lemma validate_fields_lookup_notin (st : @State H) (fs : list (@Field H))
    (errs errs' : gmap string string) (k : string) :
  validate_fields st errs fs = Normal errs' ->
  ~ In k (List.map id fs) -> errs' !! k = errs !! k.
Proof.
  revert errs. induction fs as [|g fs IH]; intros errs; cbn.
  - by intros [= <-].
  - destruct (validate_field st errs g) as [eg|] eqn:Hg; [|done].
    intros Hrest Hnotin. rewrite (IH eg Hrest) by tauto.
    apply (validate_field_lookup_ne _ _ _ _ _ Hg). tauto.
Qed.

(** With unique ids, what the final map holds under a field's id is
    what that field's own callback left there. *)
Lemma validate_fields_at (st : @State H) (fs : list (@Field H))
    (errs errs' : gmap string string) (f : @Field H) :
  NoDup (List.map id fs) -> In f fs ->
  validate_fields st errs fs = Normal errs' ->
  exists e0 e1 : gmap string string,
    validate_field st e0 f = Normal e1 /\
    e0 !! id f = errs !! id f /\ errs' !! id f = e1 !! id f.
Proof.
  revert errs. induction fs as [|g fs IH]; intros errs Hnd Hin; [done|].
  cbn. destruct (validate_field st errs g) as [eg|] eqn:Hg; [|done].
  intros Hrest. cbn in Hnd. apply NoDup_cons in Hnd as [Hg_notin Hnd].
  rewrite list_elem_of_In in Hg_notin.
  destruct Hin as [->|Hin].
  - exists errs, eg. split_and!; try done.
    by apply (validate_fields_lookup_notin _ _ _ _ _ Hrest).
  - destruct (IH eg Hnd Hin Hrest) as (e0 & e1 & Hf & He0 & He1).
    exists e0, e1. split_and!; try done. rewrite He0.
    apply (validate_field_lookup_ne _ _ _ _ _ Hg).
    intros Heq. apply Hg_notin. rewrite Heq. by apply in_map.
Qed.

(** C6: a field whose rule set evaluates to false gets no error at all,
    so in particular no "required" error. *)
Theorem C6_hidden_field_has_no_error (st : @State H) (fs : list (@Field H))
    (f : @Field H) (errs : gmap string string) (ok : bool) :
  currentFields st = Normal fs ->
  NoDup (List.map id fs) ->
  In f fs ->
  evaluateCondition (formData st) f = Normal false ->
  validateForm st = Normal (errs, ok) ->
  errs !! id f = None /\ validate_field st errs f = Normal errs.
Proof.
  intros Hfs Hnd Hin Hhid. unfold validateForm. rewrite Hfs.
  destruct (validate_fields st ∅ fs) as [e|] eqn:Hv; [|done].
  intros [= <- <-].
  assert (Hskip : forall e0, validate_field st e0 f = Normal e0).
  { intros e0. unfold validate_field. rewrite Hhid. by destruct (hidden f). }
  split; [|apply Hskip].
  destruct (validate_fields_at _ _ _ _ _ Hnd Hin Hv) as (e0 & e1 & Hf & He0 & He1).
  rewrite Hskip in Hf. injection Hf as <-. by rewrite He1, He0.
Qed.

Lemma own_keys_id (fs : list (@Field H)) (f : @Field H) :
  own_keys fs = true -> In f fs -> inherited (id f) = false.
Proof.
  unfold own_keys. rewrite forallb_forall. intros Hown Hin.
  specialize (Hown f Hin). cbn [keys forallb] in Hown.
  apply andb_true_iff in Hown as [Hid _]. by apply negb_true_iff.
Qed.

Lemma not_inherited_setter (key : string) :
  inherited key = false -> String.eqb key "__proto__" = false.
Proof.
  unfold inherited, prototype_members. cbn [existsb].
  by intros [Hp _]%orb_false_iff.
Qed.

(** C9, amended: every failing check of a visible field overwrites the
    field's entry; the map ends with the message of the last failing
    check, and with no entry when none fails.  The fields of the page
    have unique ids, and neither an id nor a field named by a rule is the
    name of a member of [Object.prototype]. *)
Theorem C9_last_failing_rule_wins (st : @State H) (fs : list (@Field H))
    (f : @Field H) (msgs : list string) (errs : gmap string string) (ok : bool) :
  currentFields st = Normal fs ->
  NoDup (List.map id fs) ->
  own_keys fs = true ->
  In f fs ->
  hidden f = false ->
  evaluateCondition (formData st) f = Normal true ->
  field_writes st f = Normal msgs ->
  validateForm st = Normal (errs, ok) ->
  errs !! id f = last msgs.
Proof.
  intros Hfs Hnd Hown Hin Hvis Hshown Hw. unfold validateForm. rewrite Hfs.
  destruct (validate_fields st ∅ fs) as [e|] eqn:Hv; [|done].
  intros [= <- <-].
  destruct (validate_fields_at _ _ _ _ _ Hnd Hin Hv) as (e0 & e1 & Hf & He0 & He1).
  unfold validate_field in Hf. rewrite Hvis, Hshown, Hw in Hf.
  injection Hf as <-.
  rewrite He1, assign_lookup, He0
    by (by apply not_inherited_setter, (own_keys_id fs)).
  by destruct (last msgs).
Qed.
End Validation_properties.

Section Validation_witnesses.
Import Js FormView PageScenario.

(** The reference host on the page's two literal patterns. *)
Lemma host_knows_the_literals :
  test (H := IntHost.host) emailRegex (VStr "ann@example.org") = Normal true /\
  test (H := IntHost.host) emailRegex (VStr "ann@example") = Normal false /\
  test (H := IntHost.host) phoneRegex (VStr "+1 (555) 010-9999") = Normal true /\
  test (H := IntHost.host) phoneRegex (VStr "555-CALL") = Normal false.
Proof. vm_compute. by repeat split. Qed.

(** Scenario A validates: [details] is required, blank and hidden. *)
Lemma scenario_A_validates : validateForm scenario_A = Normal (∅, true).
Proof. vm_compute. reflexivity. Qed.

Lemma C6_hidden_field_has_no_error_witness :
  (∅ : gmap string string) !! "details" = None /\
  validate_field scenario_A ∅ details = Normal ∅.
Proof.
  apply (C6_hidden_field_has_no_error scenario_A [other; details] details ∅ true).
  - reflexivity.
  - apply (bool_decide_unpack _). by vm_compute.
  - right. by left.
  - reflexivity.
  - vm_compute. reflexivity.
Defined.

(** C9, as stated, fails: the value breaks the length bound first and
    the pattern second; the map holds the pattern's message. *)
Lemma C9_first_failing_rule_is_overwritten :
  field_writes short_code code
  = Normal ["Minimum 5 characters required"; "Digits only"] /\
  exists errs : gmap string string,
    validateForm short_code = Normal (errs, false) /\
    errs !! "code" = Some "Digits only" /\
    errs !! "code" <> Some "Minimum 5 characters required".
Proof.
  split; [vm_compute; reflexivity|].
  eexists. split; [vm_compute; reflexivity|]. split; [reflexivity|done].
Qed.

Lemma C9_last_failing_rule_wins_witness :
  exists (errs : gmap string string) (ok : bool),
    validateForm short_code = Normal (errs, ok) /\
    errs !! "code" = Some "Digits only".
Proof.
  destruct (validateForm short_code) as [[errs ok]|] eqn:Hv;
    [|vm_compute in Hv; discriminate].
  exists errs, ok. split; [reflexivity|].
  apply (C9_last_failing_rule_wins short_code [code] code
           ["Minimum 5 characters required"; "Digits only"] errs ok);
    try reflexivity; try done.
  - apply (bool_decide_unpack _). by vm_compute.
  - by left.
Defined.
End Validation_witnesses.

(** ** Further properties of the handlers, the hook and the page *)
Section Save_outcomes.
Import Model Mongoose Inv.

Lemma later_refl (t : Submission) : later t t.
Proof. unfold later. by split_and!. Qed.

Lemma later_trans (a b c : Submission) : later a b -> later b c -> later a c.
Proof.
  unfold later. intros H1 H2. destruct_and!.
  split_and!; try congruence; try (by etrans); auto.
Qed.

Lemma evolves_refl (l : list Submission) : evolves l l.
Proof. apply Forall2_same_length_lookup_2; [done|]. intros i x y ? ?. simplify_eq. apply later_refl. Qed.

Lemma evolves_trans (l1 l2 l3 : list Submission) :
  evolves l1 l2 -> evolves l2 l3 -> evolves l1 l3.
Proof.
  unfold evolves. intros H1 H2. revert l3 H2.
  induction H1 as [|a b l1 l2 Hab _ IH]; intros l3 H2; inversion H2; subst;
    constructor; eauto using later_trans.
Qed.

Lemma evolves_ids (l l' : list Submission) :
  evolves l l' -> List.map s_id l' = List.map s_id l.
Proof. induction 1 as [|a b l l' Hab _ IH]; [done|]. cbn. rewrite IH. by destruct Hab as [-> _]. Qed.

Lemma evolves_numbers (l l' : list Submission) :
  evolves l l' -> List.map submissionNumber l' = List.map submissionNumber l.
Proof.
  induction 1 as [|a b l l' Hab _ IH]; [done|]. cbn. rewrite IH.
  by destruct Hab as (_ & -> & _).
Qed.

(** Replacing the stored document by a later state of it, ids being
    unique, evolves the collection and leaves every other id alone. *)
Lemma replace_evolves (d s : Submission) (subs : list Submission) :
  NoDup (List.map s_id subs) -> In s subs -> later s d ->
  evolves subs (replace_doc d subs) /\
  frame (has_id (s_id d)) subs (replace_doc d subs).
Proof.
  intros Hnd Hin Hl. assert (Hid : s_id d = s_id s) by apply Hl.
  unfold evolves, frame, has_id, replace_doc.
  induction subs as [|t subs IH]; [by split; constructor|].
  cbn in Hnd. apply NoDup_cons in Hnd as [Hnotin Hnd]. cbn.
  assert (Htail : evolves subs (List.map (fun t0 => if Nat.eqb (s_id t0) (s_id d) then d else t0) subs) /\
                  Forall2 (fun t0 t' => Nat.eqb (s_id t0) (s_id d) = false -> t' = t0) subs
                    (List.map (fun t0 => if Nat.eqb (s_id t0) (s_id d) then d else t0) subs)).
  { destruct Hin as [->|Hin]; [|by apply IH].
    assert (Hsame : List.map (fun t0 => if Nat.eqb (s_id t0) (s_id d) then d else t0) subs = subs).
    { rewrite <- (map_id subs) at 2. apply map_ext_in. intros u Hu.
      destruct (Nat.eqb_spec (s_id u) (s_id d)) as [He|]; [|done].
      exfalso. apply Hnotin. rewrite list_elem_of_In, <- Hid, <- He. by apply in_map. }
    rewrite Hsame. split; [apply evolves_refl|].
    apply Forall2_same_length_lookup_2; [done|]. intros; by simplify_eq. }
  destruct Htail as [Ht1 Ht2].
  destruct (Nat.eqb_spec (s_id t) (s_id d)) as [He|Hne].
  - assert (t = s) as ->.
    { destruct Hin as [|Hin]; [done|]. exfalso. apply Hnotin.
      rewrite list_elem_of_In, He, Hid. by apply in_map. }
    split; constructor; try done.
    intros Hf%Nat.eqb_neq. by rewrite Hid in Hf.
  - split; constructor; try done; try apply later_refl.
Qed.

Lemma frame_refl (touched : Submission -> bool) (l : list Submission) :
  frame touched l l.
Proof. apply Forall2_same_length_lookup_2; [done|]. intros; by simplify_eq. Qed.

Lemma frame_id_trans (id : oid) (l1 l2 l3 : list Submission) :
  frame (has_id id) l1 l2 -> frame (has_id id) l2 l3 -> frame (has_id id) l1 l3.
Proof.
  unfold frame. intros H1 H2. revert l3 H2.
  induction H1 as [|a b l1 l2 Hab _ IH]; intros l3 H2; inversion H2; subst;
    constructor; eauto.
  intros Ha. specialize (Hab Ha). subst b. auto.
Qed.

Lemma save_existing_cases (now : Date) (doc : Submission) (st : Store) :
  (exists msg, save now false doc st = (Throw msg, st)) \/
  save now false doc st
  = (Val (set_updatedAt (getTime now) doc),
     set_submissions (replace_doc (set_updatedAt (getTime now) doc) (submissions st)) st).
Proof.
  unfold save. destruct (validate doc); [left; by eexists|].
  unfold write, pre_save, needs_number. rewrite andb_false_r.
  unfold mbind, M_bind, get, put, mret, M_ret, throw. cbn.
  destruct (unique_ok _ _); cbn; [|left; by eexists].
  destruct (existsb _ _); cbn; [by right|left; by eexists].
Qed.

Lemma In_replace_doc (d s : Submission) (subs : list Submission) :
  In s subs -> s_id d = s_id s -> In d (replace_doc d subs).
Proof.
  intros Hin Hid. unfold replace_doc. apply in_map_iff. exists s.
  by rewrite Hid, Nat.eqb_refl.
Qed.

Lemma later_updatedAt (n : nat) (t : Submission) : later t (set_updatedAt n t).
Proof. unfold later. cbn. by split_and!. Qed.

(** Saving a later state of a stored document: whatever the outcome, the
    collection evolves and only that id is touched; on success the saved
    document is in the collection. *)
Lemma resave (now : Date) (doc s : Submission) (st : Store) :
  NoDup (List.map s_id (submissions st)) -> In s (submissions st) -> later s doc ->
  let r := save now false doc st in
  evolves (submissions st) (submissions r.2) /\
  frame (has_id (s_id s)) (submissions st) (submissions r.2) /\
  forms r.2 = forms st /\ workflows r.2 = workflows st /\
  next_oid r.2 = next_oid st /\ bucket r.2 = bucket st /\
  match r.1 with
  | Val a => a = set_updatedAt (getTime now) doc /\ In a (submissions r.2) /\ later s a
  | Throw _ => r.2 = st
  | Reply _ => False
  end.
Proof.
  intros Hnd Hin Hl. cbn zeta.
  destruct (save_existing_cases now doc st) as [[msg ->]| ->]; cbn.
  - split_and!; try done; [apply evolves_refl|apply frame_refl].
  - assert (Hl' : later s (set_updatedAt (getTime now) doc))
      by (eapply later_trans; [exact Hl|apply later_updatedAt]).
    destruct (replace_evolves _ _ _ Hnd Hin Hl') as [He Hf].
    assert (Hid : s_id (set_updatedAt (getTime now) doc) = s_id s) by apply Hl'.
    rewrite Hid in Hf. split_and!; try done.
    by apply (In_replace_doc _ s).
Qed.

Lemma find_In (id : oid) (subs : list Submission) (s : Submission) :
  List.find (fun t => Nat.eqb (s_id t) id) subs = Some s -> In s subs /\ s_id s = id.
Proof. intros Hf. apply find_some in Hf as [? ?%Nat.eqb_eq]. done. Qed.
End Save_outcomes.

Section Status_update_more.
Import Model Mongoose Controller Inv.

Ltac solve_later :=
  unfold later; cbn; split_and!; try done;
  try (by repeat apply prefix_app_r).

(** X1: A missing or soft-deleted submission cannot be updated: the answer is
    404 and nothing is written. *)
Theorem status_update_of_missing_is_404 (now : Date) (req : StatusRequest)
    (st : Store) :
  (forall s, List.find (fun t => Nat.eqb (s_id t) (sr_id req)) (submissions st) = Some s ->
             isDeleted s = true) ->
  updateSubmissionStatus now req st = (not_found, st).
Proof.
  intros Hgone. unfold updateSubmissionStatus, handler, Submission_findById.
  run_M. destruct (List.find _ _) as [s|]; [|done].
  by rewrite (Hgone s eq_refl).
Qed.

(** The changes the controller makes between the two saves keep the
    document a later state of itself. *)
Lemma later_requested (now : Date) (req : StatusRequest) (a : Submission) :
  later a
    (if bool_decide (sb_status (sr_body req) = Some "completed") ||
        bool_decide (sb_status (sr_body req) = Some "approved")
     then set_completedBy (Some (u_id (sr_user req)))
            (set_completedAt (Some (getTime now))
               (if truthy (sb_priority (sr_body req))
                then set_priority (default "" (sb_priority (sr_body req)))
                       (if truthy (sb_currentStage (sr_body req))
                        then set_currentStage (default "" (sb_currentStage (sr_body req))) a
                        else a)
                else if truthy (sb_currentStage (sr_body req))
                     then set_currentStage (default "" (sb_currentStage (sr_body req))) a
                     else a))
     else if truthy (sb_priority (sr_body req))
          then set_priority (default "" (sb_priority (sr_body req)))
                 (if truthy (sb_currentStage (sr_body req))
                  then set_currentStage (default "" (sb_currentStage (sr_body req))) a
                  else a)
          else if truthy (sb_currentStage (sr_body req))
               then set_currentStage (default "" (sb_currentStage (sr_body req))) a
               else a).
Proof.
  destruct (_ || _), (truthy (sb_priority _)), (truthy (sb_currentStage _));
    solve_later.
Qed.

Lemma updateSubmissionStatus_extends (now : Date) (req : StatusRequest)
    (st : Store) :
  NoDup (List.map s_id (submissions st)) ->
  let st' := (updateSubmissionStatus now req st).2 in
  evolves (submissions st) (submissions st') /\
  frame (has_id (sr_id req)) (submissions st) (submissions st') /\
  forms st' = forms st /\ workflows st' = workflows st /\
  next_oid st' = next_oid st /\ bucket st' = bucket st.
Proof.
  intros Hnd.
  assert (Hsame : evolves (submissions st) (submissions st) /\
                  frame (has_id (sr_id req)) (submissions st) (submissions st))
    by (split; [apply evolves_refl|apply frame_refl]).
  unfold updateSubmissionStatus, handler, Submission_findById.
  run_M. destruct (List.find _ _) as [s|] eqn:Hfind;
    [|cbn; destruct Hsame; by split_and!].
  destruct (isDeleted s) eqn:Hlive; run_M; [cbn; destruct Hsame; by split_and!|].
  destruct (find_In _ _ _ Hfind) as [Hin Hid]. rewrite <- Hid. rewrite <- Hid in Hsame.
  set (s0 := set_workflowHistory (workflowHistory s ++ [historyEntry now req s]) s).
  assert (Hs0 : later s s0) by (subst s0; solve_later).
  (* first stage: [updateStatus] or nothing *)
  assert (Hfirst : exists (o : outcome Submission) (st1 : Store),
    (if truthy (sb_status (sr_body req))
     then updateStatus now s0 (u_id (sr_user req)) (default "" (sb_status (sr_body req)))
            (sb_comment (sr_body req))
     else fun st0 => (Val s0, st0)) st = (o, st1) /\
    evolves (submissions st) (submissions st1) /\
    frame (has_id (s_id s)) (submissions st) (submissions st1) /\
    forms st1 = forms st /\ workflows st1 = workflows st /\
    next_oid st1 = next_oid st /\ bucket st1 = bucket st /\
    match o with
    | Val a => exists b, In b (submissions st1) /\ later s b /\ later b a
    | Throw _ => True
    | Reply _ => False
    end).
  { destruct (truthy (sb_status (sr_body req))).
    - unfold updateStatus.
      match goal with |- context [save _ false ?d st] => set (d1 := d) end.
      assert (Hd1 : later s d1) by (subst d1 s0; solve_later).
      pose proof (resave now d1 s st Hnd Hin Hd1) as Hr. cbn zeta in Hr.
      destruct (save now false d1 st) as [o st1]. cbn in Hr.
      exists o, st1. destruct_and!. split_and!; try done.
      destruct o as [a| |]; [|done|done].
      exists a. destruct_and!. split_and!; try done; apply later_refl.
    - exists (Val s0), st. destruct Hsame. split_and!; try done.
      exists s. split_and!; try done; apply later_refl. }
  destruct Hfirst as (o & st1 & -> & He1 & Hf1 & Hfs1 & Hws1 & Hn1 & Hb1 & Ho).
  destruct o as [a|msg|r]; [|cbn; by split_and!|done].
  destruct Ho as (b & Hinb & Hlb & Hba).
  match goal with |- context [save _ false ?d st1] => set (d2 := d) end.
  assert (Hd2 : later b d2)
    by (eapply later_trans; [exact Hba|apply later_requested]).
  assert (Hnd1 : NoDup (List.map s_id (submissions st1)))
    by (by rewrite (evolves_ids _ _ He1)).
  pose proof (resave now d2 b st1 Hnd1 Hinb Hd2) as Hr. cbn zeta in Hr.
  destruct (save now false d2 st1) as [o2 st2]. cbn in Hr.
  destruct Hr as (He2 & Hf2 & Hfs2 & Hws2 & Hn2 & Hb2 & Ho2).
  assert (Hidb : s_id b = s_id s) by apply Hlb. rewrite Hidb in Hf2.
  assert (evolves (submissions st) (submissions st2)) by (by eapply evolves_trans).
  assert (frame (has_id (s_id s)) (submissions st) (submissions st2))
    by (by eapply frame_id_trans).
  destruct o2; cbn; split_and!; try done; congruence.
Qed.

(** X2: Whatever the request and whatever the answer, a status update keeps
    every document in place with its identity, owner, payload and number;
    histories and audit logs only grow at the end; documents with another
    id are untouched, and so are forms, workflows and the id generator. *)
Theorem status_update_only_extends (now : Date) (req : StatusRequest)
    (st : Store) :
  NoDup (List.map s_id (submissions st)) ->
  let st' := (updateSubmissionStatus now req st).2 in
  evolves (submissions st) (submissions st') /\
  frame (has_id (sr_id req)) (submissions st) (submissions st') /\
  forms st' = forms st /\ workflows st' = workflows st /\
  next_oid st' = next_oid st /\ bucket st' = bucket st.
Proof. apply updateSubmissionStatus_extends. Qed.

(** X3: A status outside the schema's enumeration is refused by the first
    save: the answer is 500 and nothing is written. *)
Theorem status_update_bad_status_writes_nothing (now : Date) (req : StatusRequest)
    (st : Store) (s : Submission) :
  List.find (fun t => Nat.eqb (s_id t) (sr_id req)) (submissions st) = Some s ->
  isDeleted s = false ->
  truthy (sb_status (sr_body req)) = true ->
  in_enum (default "" (sb_status (sr_body req))) status_enum = false ->
  exists msg : string,
    updateSubmissionStatus now req st = (json 500 false (Some msg) None, st).
Proof.
  intros Hfind Hlive Ht Hbad.
  unfold updateSubmissionStatus, handler, Submission_findById.
  run_M. rewrite Hfind, Hlive, Ht. run_M.
  unfold updateStatus, save, validate. cbn [status set_status set_workflowHistory
    set_auditLog set_lastModifiedBy]. rewrite Hbad. cbn [negb]. run_M.
  by eexists.
Qed.

(** X4: The update is not atomic.  With a valid status and a priority outside
    the enumeration, the answer is 500, yet the first save has already
    stored the new status and two history entries. *)
Theorem status_update_bad_priority_keeps_status (now : Date) (req : StatusRequest)
    (st : Store) (s : Submission) :
  List.find (fun t => Nat.eqb (s_id t) (sr_id req)) (submissions st) = Some s ->
  isDeleted s = false ->
  truthy (sb_status (sr_body req)) = true ->
  in_enum (default "" (sb_status (sr_body req))) status_enum = true ->
  in_enum (priority s) priority_enum = true ->
  unique_ok s (submissions st) = true ->
  truthy (sb_priority (sr_body req)) = true ->
  in_enum (default "" (sb_priority (sr_body req))) priority_enum = false ->
  exists (msg : string) (st' : Store) (s' : Submission),
    updateSubmissionStatus now req st = (json 500 false (Some msg) None, st') /\
    List.find (fun t => Nat.eqb (s_id t) (sr_id req)) (submissions st') = Some s' /\
    status s' = default "" (sb_status (sr_body req)) /\
    priority s' = priority s /\
    List.length (workflowHistory s') = 2 + List.length (workflowHistory s).
Proof.
  intros Hfind Hlive Ht Hst Hp0 Huniq Htp Hbad.
  destruct (find_existsb _ _ _ Hfind) as [Hid Hex].
  unfold updateSubmissionStatus, handler, Submission_findById.
  run_M. rewrite Hfind, Hlive, Ht. run_M.
  unfold updateStatus.
  rewrite save_stored;
    [ run_M
    | by apply validate_None
    | by cbn; rewrite <- Huniq; apply unique_ok_same
    | by cbn; rewrite Hid ].
  rewrite Htp.
  match goal with |- context [save _ false ?d ?sx] => set (d2 := d); set (st1 := sx) end.
  assert (Hv : exists msg, validate d2 = Some msg).
  { unfold validate.
    assert (Hs2 : status d2 = default "" (sb_status (sr_body req)))
      by (subst d2; by repeat case_match).
    assert (Hp2 : priority d2 = default "" (sb_priority (sr_body req)))
      by (subst d2; by repeat case_match).
    rewrite Hs2, Hst, Hp2, Hbad. cbn. by eexists. }
  destruct Hv as [msg Hv]. unfold save. rewrite Hv. run_M.
  eexists _, _, _. split; [reflexivity|]. subst st1. cbn [submissions set_submissions].
  split; [eapply find_replace; [by cbn|exact Hfind]|].
  cbn. rewrite !length_app. cbn. split_and!; try done. lia.
Qed.
End Status_update_more.

Section Delete_more.
Import Model Mongoose Controller Inv.

Lemma replace_frame (d : Submission) (subs : list Submission) :
  frame (has_id (s_id d)) subs (replace_doc d subs).
Proof.
  unfold frame, has_id, replace_doc. induction subs as [|t subs IH]; cbn; constructor.
  - by intros ->.
  - exact IH.
Qed.

Lemma find_map_id (id : oid) (g : Submission -> Submission) (l : list Submission) :
  (forall t, s_id (g t) = s_id t) ->
  List.find (fun t => Nat.eqb (s_id t) id) (List.map g l)
  = g <$> List.find (fun t => Nat.eqb (s_id t) id) l.
Proof.
  intros Hg. induction l as [|t l IH]; [done|]. cbn. rewrite Hg.
  by destruct (Nat.eqb (s_id t) id).
Qed.

Lemma deleteSubmission_success (now : Date) (req : DeleteRequest)
    (st : Store) (s : Submission) (f : Form) :
  List.find (fun t => Nat.eqb (s_id t) (dr_id req)) (submissions st) = Some s ->
  isDeleted s = false ->
  List.find (fun g => Nat.eqb (f_id g) (form s)) (forms st) = Some f ->
  is_admin (dr_user req) || owner_or_listed (dr_user req) s f = true ->
  validate s = None ->
  unique_ok s (submissions st) = true ->
  let s1 := set_updatedAt (getTime now) (soft_delete now (u_id (dr_user req)) s) in
  exists st2 : Store,
    delete_files s1 (set_submissions (replace_doc s1 (submissions st)) st) = (Val tt, st2) /\
    submissions st2 = replace_doc s1 (submissions st) /\
    deleteSubmission now req st
    = (json 200 true (Some "Submission deleted successfully") None,
       deleted_store now (dr_user req) s f st st2).
Proof.
  intros Hfind Hlive Hform Hallow Hvalid Huniq s1.
  destruct (find_existsb _ _ _ Hfind) as [Hid Hex].
  unfold deleteSubmission, handler, Submission_findById.
  run_M. rewrite Hfind, Hlive. run_M.
  rewrite (find_form _ _ _ Hform).
  assert (Hcan : canDelete (dr_user req) s (Some f) st = (Val true, st)).
  { unfold canDelete. destruct (is_admin (dr_user req)); [done|].
    cbn in Hallow. by rewrite Hallow. }
  rewrite Hcan. cbn [negb].
  rewrite save_stored;
    [ | exact Hvalid | by rewrite (unique_ok_same _ s) | by cbn; rewrite Hid ].
  fold s1.
  destruct (delete_files_keeps_submissions s1
              (set_submissions (replace_doc s1 (submissions st)) st))
    as (st2 & Hdel & Hsubs2).
  exists st2. split; [exact Hdel|]. split; [exact Hsubs2|].
  rewrite Hdel. unfold deleted_store, Submission_updateMany.
  destruct (cascades f); run_M; done.
Qed.

(** X5: A submission deleted once is gone for the controller: the same delete
    asked again, by anyone and at any time, answers 404 and writes
    nothing. *)
Theorem delete_twice_is_404 (now : Date) (req : DeleteRequest)
    (st : Store) (s : Submission) (f : Form) :
  List.find (fun t => Nat.eqb (s_id t) (dr_id req)) (submissions st) = Some s ->
  isDeleted s = false ->
  List.find (fun g => Nat.eqb (f_id g) (form s)) (forms st) = Some f ->
  is_admin (dr_user req) || owner_or_listed (dr_user req) s f = true ->
  validate s = None ->
  unique_ok s (submissions st) = true ->
  exists st' : Store,
    deleteSubmission now req st
    = (json 200 true (Some "Submission deleted successfully") None, st') /\
    forall (later_on : Date) (again : DeleteRequest),
      dr_id again = dr_id req ->
      deleteSubmission later_on again st' = (not_found, st').
Proof.
  intros Hfind Hlive Hform Hallow Hvalid Huniq.
  destruct (deleteSubmission_success now req st s f Hfind Hlive Hform Hallow Hvalid Huniq)
    as (st2 & _ & Hsubs2 & Hrun).
  eexists. split; [exact Hrun|]. intros later_on again Hsame.
  set (s1 := set_updatedAt (getTime now) (soft_delete now (u_id (dr_user req)) s)) in *.
  assert (Hf2 : List.find (fun t => Nat.eqb (s_id t) (dr_id req)) (submissions st2) = Some s1).
  { rewrite Hsubs2. eapply find_replace; [|exact Hfind].
    by destruct (find_existsb _ _ _ Hfind). }
  assert (Hgone : exists s', List.find (fun t => Nat.eqb (s_id t) (dr_id again))
                               (submissions (deleted_store now (dr_user req) s f st st2)) = Some s' /\
                             isDeleted s' = true).
  { rewrite Hsame. unfold deleted_store. destruct (cascades f).
    - cbn [submissions set_submissions]. rewrite find_map_id, Hf2.
      + eexists. split; [reflexivity|]. by case_bool_decide.
      + intros t. by case_bool_decide.
    - by exists s1. }
  destruct Hgone as (s' & Hfs' & Hdel).
  unfold deleteSubmission, handler, Submission_findById. run_M.
  by rewrite Hfs', Hdel.
Qed.

(** X6: An actor who is neither admin, nor the owner under
    [ownSubmissionsOnly], nor listed by role or id is refused with 403 and
    nothing is written. *)
Theorem delete_unauthorized_is_403 (now : Date) (req : DeleteRequest)
    (st : Store) (s : Submission) (f : Form) :
  List.find (fun t => Nat.eqb (s_id t) (dr_id req)) (submissions st) = Some s ->
  isDeleted s = false ->
  List.find (fun g => Nat.eqb (f_id g) (form s)) (forms st) = Some f ->
  is_admin (dr_user req) = false ->
  owner_or_listed (dr_user req) s f = false ->
  deleteSubmission now req st
  = (json 403 false (Some "Not authorized to delete this submission") None, st).
Proof.
  intros Hfind Hlive Hform Hadm Hno.
  unfold deleteSubmission, handler, Submission_findById.
  run_M. rewrite Hfind, Hlive. run_M.
  rewrite (find_form _ _ _ Hform). unfold canDelete. rewrite Hadm. run_M.
  by rewrite Hno.
Qed.

(** X7: Without cascade (the form is not a master form, or [cascadeDelete] is
    off) a delete touches the target only: every document with another id,
    details included, is what it was. *)
Theorem delete_without_cascade_frame (now : Date) (req : DeleteRequest)
    (st : Store) (s : Submission) (f : Form) :
  List.find (fun t => Nat.eqb (s_id t) (dr_id req)) (submissions st) = Some s ->
  isDeleted s = false ->
  List.find (fun g => Nat.eqb (f_id g) (form s)) (forms st) = Some f ->
  is_admin (dr_user req) || owner_or_listed (dr_user req) s f = true ->
  cascades f = false ->
  validate s = None ->
  unique_ok s (submissions st) = true ->
  exists (st' : Store) (s' : Submission),
    deleteSubmission now req st
    = (json 200 true (Some "Submission deleted successfully") None, st') /\
    frame (has_id (dr_id req)) (submissions st) (submissions st') /\
    List.find (fun t => Nat.eqb (s_id t) (dr_id req)) (submissions st') = Some s' /\
    isDeleted s' = true /\ deletedBy s' = Some (u_id (dr_user req)).
Proof.
  intros Hfind Hlive Hform Hallow Hcasc Hvalid Huniq.
  destruct (deleteSubmission_success now req st s f Hfind Hlive Hform Hallow Hvalid Huniq)
    as (st2 & _ & Hsubs2 & Hrun).
  destruct (find_existsb _ _ _ Hfind) as [Hid _].
  unfold deleted_store in Hrun. rewrite Hcasc in Hrun.
  eexists st2, _. split; [exact Hrun|]. rewrite Hsubs2. split_and!.
  - rewrite <- Hid. apply (replace_frame (set_updatedAt _ (soft_delete _ _ s))).
  - eapply find_replace; [|exact Hfind]. by cbn.
  - done.
  - done.
Qed.

(** X8: The handler is not atomic either.  When the form of the submission no
    longer exists, an admin's delete answers 500 although the submission
    has been soft-deleted. *)
Theorem delete_with_missing_form (now : Date) (req : DeleteRequest)
    (st : Store) (s : Submission) :
  List.find (fun t => Nat.eqb (s_id t) (dr_id req)) (submissions st) = Some s ->
  isDeleted s = false ->
  List.find (fun g => Nat.eqb (f_id g) (form s)) (forms st) = None ->
  validate s = None ->
  unique_ok s (submissions st) = true ->
  (is_admin (dr_user req) = false ->
   exists msg, deleteSubmission now req st = (json 500 false (Some msg) None, st)) /\
  (is_admin (dr_user req) = true ->
   exists (msg : string) (st' : Store) (s' : Submission),
     deleteSubmission now req st = (json 500 false (Some msg) None, st') /\
     List.find (fun t => Nat.eqb (s_id t) (dr_id req)) (submissions st') = Some s' /\
     isDeleted s' = true).
Proof.
  intros Hfind Hlive Hform Hvalid Huniq.
  destruct (find_existsb _ _ _ Hfind) as [Hid Hex].
  assert (Hnoform : Form_findById (form s) st = (Val None, st))
    by (unfold Form_findById; run_M; by rewrite Hform).
  split; intros Hadm.
  - unfold deleteSubmission, handler, Submission_findById.
    run_M. rewrite Hfind, Hlive. run_M. rewrite Hnoform.
    unfold canDelete. rewrite Hadm. run_M. by eexists.
  - unfold deleteSubmission, handler, Submission_findById.
    run_M. rewrite Hfind, Hlive. run_M. rewrite Hnoform.
    unfold canDelete. rewrite Hadm. run_M.
    rewrite save_stored;
      [ | exact Hvalid | by rewrite (unique_ok_same _ s) | by cbn; rewrite Hid ].
    set (s1 := set_updatedAt (getTime now) (soft_delete now (u_id (dr_user req)) s)).
    destruct (delete_files_keeps_submissions s1
                (set_submissions (replace_doc s1 (submissions st)) st))
      as (st2 & -> & Hsubs2).
    run_M. eexists _, st2, s1. split; [reflexivity|]. rewrite Hsubs2.
    split; [|done]. eapply find_replace; [|exact Hfind]. by cbn.
Qed.

Lemma replace_Forall2 (R : Submission -> Submission -> Prop) (d s : Submission)
    (subs : list Submission) :
  (forall t, R t t) ->
  NoDup (List.map s_id subs) -> In s subs -> s_id d = s_id s -> R s d ->
  Forall2 R subs (replace_doc d subs).
Proof.
  intros Hrefl Hnd Hin Hid Hsd. unfold replace_doc.
  apply Forall2_same_length_lookup_2; [by rewrite length_map|].
  intros i t t' Ht Ht'. rewrite lookup_map, Ht in Ht'. cbn in Ht'.
  injection Ht' as <-. destruct (Nat.eqb_spec (s_id t) (s_id d)) as [He|]; [|done].
  assert (t = s) as ->; [|done].
  apply list_elem_of_In, list_elem_of_lookup in Hin as [j Hj].
  assert (i = j) as ->; [|congruence].
  eapply NoDup_lookup; [exact Hnd| |].
  - rewrite lookup_map, Ht. reflexivity.
  - rewrite lookup_map, Hj. cbn. congruence.
Qed.

Lemma Forall2_map_self {A : Type} (R : A -> A -> Prop) (g : A -> A) (l : list A) :
  (forall t, R t (g t)) -> Forall2 R l (List.map g l).
Proof. intros Hg. induction l; cbn; by constructor. Qed.

Lemma marked_refl (t : Submission) : marked t t.
Proof. by split. Qed.

Lemma marked_trans (a b c : Submission) : marked a b -> marked b c -> marked a c.
Proof. intros [H1 H2] [H3 H4]. split; [congruence|auto]. Qed.

Lemma Forall2_marked_trans (l1 l2 l3 : list Submission) :
  Forall2 marked l1 l2 -> Forall2 marked l2 l3 -> Forall2 marked l1 l3.
Proof.
  intros H1 H2. revert l3 H2.
  induction H1 as [|a b l1 l2 Hab _ IH]; intros l3 H2; inversion H2; subst;
    constructor; eauto using marked_trans.
Qed.

Lemma Forall2_marked_refl (l : list Submission) : Forall2 marked l l.
Proof.
  apply Forall2_same_length_lookup_2; [done|]. intros; simplify_eq. apply marked_refl.
Qed.

Lemma marked_soft_delete (now : Date) (u : oid) (t : Submission) :
  marked t (soft_delete now u t).
Proof. by split. Qed.

Lemma deleteSubmission_marks (now : Date) (req : DeleteRequest) (st : Store) :
  NoDup (List.map s_id (submissions st)) ->
  let st' := (deleteSubmission now req st).2 in
  Forall2 marked (submissions st) (submissions st') /\
  forms st' = forms st /\ workflows st' = workflows st /\
  next_oid st' = next_oid st.
Proof.
  intros Hnd.
  pose proof (Forall2_marked_refl (submissions st)) as Hsame.
  unfold deleteSubmission, handler, Submission_findById.
  run_M. destruct (List.find _ _) as [s|] eqn:Hfind; [|by cbn].
  destruct (isDeleted s) eqn:Hlive; run_M; [by cbn|].
  destruct (find_In _ _ _ Hfind) as [Hin Hid].
  assert (Hform : exists fo, Form_findById (form s) st = (Val fo, st))
    by (unfold Form_findById; run_M; by eexists).
  destruct Hform as [fo ->].
  assert (Hcan : (exists msg, canDelete (dr_user req) s fo st = (Throw msg, st)) \/
                 (exists b, canDelete (dr_user req) s fo st = (Val b, st))).
  { unfold canDelete. destruct (is_admin _); [right; by eexists|].
    destruct fo; [right|left]; by eexists. }
  destruct Hcan as [[msg ->]|[b ->]]; [by cbn|].
  destruct b; cbn [negb]; [|by cbn].
  set (d := soft_delete now (u_id (dr_user req)) s).
  destruct (save_existing_cases now d st) as [[msg ->]| ->]; [by cbn|].
  set (s1 := set_updatedAt (getTime now) d).
  assert (H1 : Forall2 marked (submissions st) (replace_doc s1 (submissions st))).
  { apply (replace_Forall2 marked s1 s);
      [apply marked_refl|done|done|by cbn|by split]. }
  destruct (delete_files_keeps_submissions s1
              (set_submissions (replace_doc s1 (submissions st)) st))
    as (st2 & Hdel & Hsubs2).
  assert (Hst2 : forms st2 = forms st /\ workflows st2 = workflows st /\
                 next_oid st2 = next_oid st).
  { revert Hdel. unfold delete_files. run_M. destruct (bucket st); [|by intros [= <-]].
    destruct (bool_decide _); by intros [= <-]. }
  rewrite Hdel. destruct Hst2 as (? & ? & ?).
  destruct fo as [f|]; [|cbn; rewrite Hsubs2; by split_and!].
  unfold Submission_updateMany. destruct (cascades f); run_M.
  - rewrite Hsubs2. split_and!; try done.
    eapply Forall2_marked_trans; [exact H1|].
    apply Forall2_map_self. intros t.
    case_bool_decide; [apply marked_soft_delete|apply marked_refl].
  - rewrite Hsubs2. by split_and!.
Qed.

(** X9: A delete never removes a document and never rewrites one: whatever
    the request and the answer, every document stays in place, equal to
    what it was up to its deletion mark and modification time, and a
    deleted document stays deleted.  Forms, workflows and the id generator
    are untouched. *)
Theorem delete_only_marks (now : Date) (req : DeleteRequest) (st : Store) :
  NoDup (List.map s_id (submissions st)) ->
  let st' := (deleteSubmission now req st).2 in
  Forall2 marked (submissions st) (submissions st') /\
  forms st' = forms st /\ workflows st' = workflows st /\
  next_oid st' = next_oid st.
Proof. apply deleteSubmission_marks. Qed.
End Delete_more.

Section Create_more.
Import Model Mongoose Controller Inv.

Lemma save_new_cases (now : Date) (doc : Submission) (st : Store) :
  (exists msg, save now true doc st = (Throw msg, st)) \/
  (validate doc = None /\
   unique_ok (pre_save now (submissions st) true doc) (submissions st) = true /\
   save now true doc st
   = (Val (pre_save now (submissions st) true doc),
      set_submissions (submissions st ++ [pre_save now (submissions st) true doc]) st)).
Proof.
  unfold save. destruct (validate doc); [left; by eexists|].
  unfold write. unfold mbind, M_bind, get, put, mret, M_ret, throw. cbn.
  destruct (unique_ok _ _); cbn; [by right|left; by eexists].
Qed.

Lemma check_existing_gate (f : Form) (req : CreateRequest) (status : string) :
  is_gate (check_existing f req status).
Proof.
  intros st. unfold check_existing, Submission_findOne, bad_request.
  destruct (_ && _); [|by left]. run_M.
  destruct (List.find _ _); [right; by eexists|by left].
Qed.

Lemma check_scheduling_gate (now : Date) (f : Form) : is_gate (check_scheduling now f).
Proof.
  intros st. unfold check_scheduling, bad_request.
  destruct (scheduling _) as [sch|]; [|by left].
  destruct (sch_enabled sch); [|by left].
  destruct (_ || _); [right; by eexists|by left].
Qed.

Lemma check_quotas_gate (f : Form) (req : CreateRequest) : is_gate (check_quotas f req).
Proof.
  intros st. unfold check_quotas, Submission_countDocuments, bad_request.
  destruct (quotas _) as [q|]; [|by left].
  destruct (q_enabled q); [|by left]. run_M.
  destruct (maxSubmissions q) as [m|]; [|by left].
  destruct (m <=? _)%nat; [right; by eexists|by left].
Qed.

(** X10: For a body without [nestedSubmissions], a creation either answers
    201 and appends exactly one document, with the next id of the
    generator, to the collection, or answers something else and leaves
    submissions and forms as they were. *)
Theorem create_all_or_nothing (now : Date) (req : CreateRequest) (st : Store) :
  let r := createSubmission now req st in
  (code r.1 = 201 /\
   exists d : Submission,
     payload r.1 = Some d /\
     submissions r.2 = (submissions st ++ [d])%list /\
     s_id d = next_oid st /\ next_oid r.2 = S (next_oid st) /\
     submittedBy d = u_id (cr_user req) /\
     form d = b_form (cr_body req) /\
     status d = default "submitted" (b_status (cr_body req)) /\
     isDeleted d = false /\
     truthy (submissionNumber d) = true) \/
  (code r.1 <> 201 /\ submissions r.2 = submissions st /\ forms r.2 = forms st).
Proof.
  cbn zeta. unfold createSubmission, handler, Form_findById. run_M.
  destruct (List.find _ (forms st)) as [f|]; [|right; by cbn].
  destruct (_ && _); [right; by cbn|].
  destruct (negb (canSubmit _ _)); [right; by cbn|].
  set (wanted := default "submitted" (b_status (cr_body req))).
  destruct (check_existing_gate f req wanted st) as [->|[msg ->]]; [|right; by cbn].
  run_M.
  destruct (check_scheduling_gate now f st) as [->|[msg ->]]; [|right; by cbn].
  run_M.
  destruct (check_quotas_gate f req st) as [->|[msg ->]]; [|right; by cbn].
  run_M.
  destruct (cr_userAgent req) as [ua|]; [|right; by cbn].
  unfold Submission_create. run_M.
  set (doc := new_submission now (next_oid st) f req wanted ua).
  set (stn := set_next_oid (S (next_oid st)) st).
  destruct (save_new_cases now doc stn) as [[msg ->]|(Hv & Hu & ->)]; [right; by cbn|].
  left. unfold Form_count_submission.
  assert (Hd : s_id (pre_save now (submissions stn) true doc) = next_oid st /\
               submittedBy (pre_save now (submissions stn) true doc) = u_id (cr_user req) /\
               form (pre_save now (submissions stn) true doc) = b_form (cr_body req) /\
               status (pre_save now (submissions stn) true doc) = wanted /\
               isDeleted (pre_save now (submissions stn) true doc) = false /\
               truthy (submissionNumber (pre_save now (submissions stn) true doc)) = true).
  { unfold pre_save, needs_number. by cbn. }
  destruct (negb (is_draft wanted)); run_M;
    (split; [done|]); eexists; split_and!; try reflexivity; apply Hd.
Qed.

Ltac refuse := cbn; split; [auto|reflexivity].

(** X11: The first gates: an unknown form is 404; an inactive form refuses
    everything but drafts with 400; an actor [canSubmit] rejects gets 403.
    Nothing is written. *)
Theorem create_first_gates (now : Date) (req : CreateRequest) (st : Store) :
  let found := List.find (fun f => Nat.eqb (f_id f) (b_form (cr_body req))) (forms st) in
  let wanted := default "submitted" (b_status (cr_body req)) in
  (found = None ->
   createSubmission now req st = (json 404 false (Some "Form not found") None, st)) /\
  (forall f, found = Some f -> f_isActive f = false -> is_draft wanted = false ->
   createSubmission now req st = (json 400 false (Some "Form is not active") None, st)) /\
  (forall f, found = Some f -> f_isActive f || is_draft wanted = true ->
   canSubmit f (Some (cr_user req)) = false ->
   createSubmission now req st
   = (json 403 false (Some "Not authorized to submit this form") None, st)).
Proof.
  cbn zeta. unfold createSubmission, handler, Form_findById. run_M. split_and!.
  - by intros ->.
  - intros f -> Hact Hnd. by rewrite Hact, Hnd.
  - intros f -> Hok Hno. rewrite Hno.
    destruct (f_isActive f), (is_draft _); try done.
Qed.

(** X12: One submission per user: when the form does not allow several and
    the actor already has a submission of it that is not a draft, even a
    soft-deleted one, a new non-draft creation is refused (400, or 403 if
    an earlier gate objects) and nothing is written. *)
Theorem create_single_submission_rule (now : Date) (req : CreateRequest)
    (st : Store) (f : Form) (earlier : Submission) :
  List.find (fun f => Nat.eqb (f_id f) (b_form (cr_body req))) (forms st) = Some f ->
  allowMultipleSubmissions (f_settings f) = false ->
  is_draft (default "submitted" (b_status (cr_body req))) = false ->
  In earlier (submissions st) ->
  form earlier = b_form (cr_body req) ->
  submittedBy earlier = u_id (cr_user req) ->
  is_draft (status earlier) = false ->
  let r := createSubmission now req st in
  (code r.1 = 400 \/ code r.1 = 403) /\ r.2 = st.
Proof.
  intros Hf Hmulti Hnd Hin Hform Hby Hst. cbn zeta.
  unfold createSubmission, handler, Form_findById. run_M. rewrite Hf.
  destruct (_ && _); [refuse|].
  destruct (negb (canSubmit _ _)); [refuse|].
  unfold check_existing, Submission_findOne, bad_request. rewrite Hmulti, Hnd.
  cbn [negb andb]. run_M.
  destruct (List.find _ (submissions st)) eqn:Hnone; [refuse|].
  exfalso. apply (find_none _ _ Hnone) in Hin.
  by rewrite Hform, Hby, !Nat.eqb_refl, Hst in Hin.
Qed.

(** X13: Outside the scheduling window nothing is accepted, drafts included. *)
Theorem create_outside_window (now : Date) (req : CreateRequest)
    (st : Store) (f : Form) (sch : Scheduling) :
  List.find (fun f => Nat.eqb (f_id f) (b_form (cr_body req))) (forms st) = Some f ->
  scheduling (f_settings f) = Some sch ->
  sch_enabled sch = true ->
  (exists d, startDate sch = Some d /\ getTime now < d) \/
  (exists d, endDate sch = Some d /\ d < getTime now) ->
  let r := createSubmission now req st in
  (code r.1 = 400 \/ code r.1 = 403) /\ r.2 = st.
Proof.
  intros Hf Hsch Hen Hout. cbn zeta.
  unfold createSubmission, handler, Form_findById. run_M. rewrite Hf.
  destruct (_ && _); [refuse|].
  destruct (negb (canSubmit _ _)); [refuse|].
  destruct (check_existing_gate f req (default "submitted" (b_status (cr_body req))) st)
    as [->|[msg ->]]; [|refuse].
  run_M. unfold check_scheduling, bad_request. rewrite Hsch, Hen.
  replace (_ || _) with true; [refuse|].
  symmetry. destruct Hout as [(d & -> & Hlt)|(d & -> & Hlt)].
  - apply Nat.ltb_lt in Hlt. by rewrite Hlt.
  - apply Nat.ltb_lt in Hlt. rewrite Hlt. apply orb_true_r.
Qed.

(** X14: Once the number of non-draft submissions of the form has reached the
    quota nothing more is accepted, drafts included. *)
Theorem create_over_quota (now : Date) (req : CreateRequest)
    (st : Store) (f : Form) (q : Quotas) (limit : nat) :
  List.find (fun f => Nat.eqb (f_id f) (b_form (cr_body req))) (forms st) = Some f ->
  quotas (f_settings f) = Some q ->
  q_enabled q = true ->
  maxSubmissions q = Some limit ->
  limit <= List.length
             (List.filter (fun s => Nat.eqb (form s) (b_form (cr_body req)) &&
                                    negb (is_draft (status s))) (submissions st)) ->
  let r := createSubmission now req st in
  (code r.1 = 400 \/ code r.1 = 403) /\ r.2 = st.
Proof.
  intros Hf Hq Hen Hmax Hfull. cbn zeta.
  unfold createSubmission, handler, Form_findById. run_M. rewrite Hf.
  destruct (_ && _); [refuse|].
  destruct (negb (canSubmit _ _)); [refuse|].
  destruct (check_existing_gate f req (default "submitted" (b_status (cr_body req))) st)
    as [->|[msg ->]]; [|refuse].
  run_M.
  destruct (check_scheduling_gate now f st) as [->|[msg ->]]; [|refuse].
  run_M. unfold check_quotas, Submission_countDocuments, bad_request.
  rewrite Hq, Hen, Hmax. run_M.
  apply Nat.leb_le in Hfull. rewrite Hfull. refuse.
Qed.

(** X15: A request without a [User-Agent] header is never accepted: when every
    gate lets it through, building the metadata throws and the answer is
    500.  Nothing is written. *)
Theorem create_without_user_agent (now : Date) (req : CreateRequest) (st : Store) :
  cr_userAgent req = None ->
  let r := createSubmission now req st in
  code r.1 <> 201 /\ r.2 = st.
Proof.
  intros Hua. cbn zeta.
  unfold createSubmission, handler, Form_findById. run_M.
  destruct (List.find _ (forms st)) as [f|]; [|by cbn].
  destruct (_ && _); [by cbn|].
  destruct (negb (canSubmit _ _)); [by cbn|].
  destruct (check_existing_gate f req (default "submitted" (b_status (cr_body req))) st)
    as [->|[msg ->]]; [|by cbn].
  run_M.
  destruct (check_scheduling_gate now f st) as [->|[msg ->]]; [|by cbn].
  run_M.
  destruct (check_quotas_gate f req st) as [->|[msg ->]]; [|by cbn].
  run_M. rewrite Hua. by cbn.
Qed.
End Create_more.

Section Number_format.
Import Model Mongoose Decimal.

Lemma append_cons (x : ascii) (a b : string) : String x a ++ b = String x (a ++ b).
Proof. reflexivity. Qed.

Lemma append_assoc (a b c : string) : (a ++ b) ++ c = a ++ (b ++ c).
Proof. induction a as [|x a IH]; [done|]. by rewrite !append_cons, IH. Qed.

Lemma append_nil_r (a : string) : a ++ "" = a.
Proof. induction a as [|x a IH]; [done|]. by rewrite append_cons, IH. Qed.

Lemma all_digits_app (a b : string) :
  all_digits (a ++ b) = all_digits a && all_digits b.
Proof.
  induction a as [|x a IH]; [done|]. rewrite append_cons. cbn [all_digits].
  by rewrite IH, andb_assoc.
Qed.

Lemma pretty_N_char_digit (d : N) : is_digit (pretty_N_char d) = true.
Proof. unfold pretty_N_char. by repeat case_match. Qed.

Lemma pretty_N_go_digits (x : N) (s : string) :
  all_digits s = true -> all_digits (pretty_N_go x s) = true.
Proof.
  revert s. induction (N.lt_wf_0 x) as [x _ IH]; intros s Hs.
  assert (x = 0 \/ 0 < x)%N as [->|Hx] by lia; [by rewrite pretty_N_go_0|].
  rewrite pretty_N_go_step by done. apply IH; [by apply N.div_lt|].
  cbn. by rewrite pretty_N_char_digit.
Qed.

Lemma pretty_N_digits (x : N) : all_digits (pretty x) = true.
Proof.
  unfold pretty, pretty_N. case_decide; [done|]. by apply pretty_N_go_digits.
Qed.

Lemma pretty_nat_digits (n : nat) : all_digits (pretty n) = true.
Proof. apply pretty_N_digits. Qed.

Lemma pretty_Z_digits (z : Z) : (0 <= z)%Z -> all_digits (pretty z) = true.
Proof. destruct z; [done| |lia]. intros _. apply pretty_N_digits. Qed.

Lemma repeat_zero_digits (k : nat) : all_digits (Str.repeat_str k "0") = true.
Proof. induction k; cbn; [done|exact IHk]. Qed.

Lemma padStart_digits (k : nat) (s : string) :
  all_digits s = true -> all_digits (Str.padStart k "0" s) = true.
Proof.
  intros Hs. unfold Str.padStart. by rewrite all_digits_app, repeat_zero_digits, Hs.
Qed.

(** [split] walks over a run of digits without cutting. *)
Lemma split_go_digits (a rest cur : string) :
  all_digits a = true ->
  Str.split_go "-" (a ++ rest) cur = Str.split_go "-" rest (cur ++ a).
Proof.
  revert cur. induction a as [|c a IH]; intros cur Ha.
  - by rewrite append_nil_r.
  - rewrite append_cons. cbn [Str.split_go]. cbn [all_digits] in Ha. apply andb_true_iff in Ha as [Hc Ha].
    assert (Hne : Ascii.eqb c "-" = false).
    { destruct (Ascii.eqb_spec c "-") as [->|]; [done|done]. }
    rewrite Hne, IH by done. by rewrite append_assoc, append_cons.
Qed.

Lemma split_go_end (a cur : string) :
  all_digits a = true -> Str.split_go "-" a cur = [cur ++ a].
Proof.
  intros Ha. rewrite <- (append_nil_r a) at 1. by rewrite split_go_digits.
Qed.

Lemma split_go_SUB (rest : string) :
  Str.split_go "-" ("SUB-" ++ rest) "" = "SUB" :: Str.split_go "-" rest "".
Proof. reflexivity. Qed.

Lemma split_go_dash (rest cur : string) :
  Str.split_go "-" ("-" ++ rest) cur = cur :: Str.split_go "-" rest "".
Proof. reflexivity. Qed.

(** The third dash-separated part of a number the hook formatted is its
    padded sequence. *)
Lemma split_format_number (now : Date) (n : Z) :
  (0 <= n)%Z ->
  Str.split "-" (format_number now (Some n)) !! 2%nat
  = Some (Str.padStart 5 "0" (pretty n)).
Proof.
  intros Hn. unfold format_number, month_prefix, Str.split, Str.of_number.
  rewrite !append_assoc, split_go_SUB.
  rewrite split_go_digits by apply pretty_nat_digits.
  rewrite split_go_digits by (apply padStart_digits, pretty_nat_digits).
  rewrite split_go_dash.
  rewrite split_go_end by (apply padStart_digits, pretty_Z_digits, Hn).
  done.
Qed.
Lemma parseInt_digits (s : string) :
  all_digits s = true -> Str.parseInt s = Str.digits 10 s None.
Proof.
  destruct s as [|c s]; [done|]. cbn [all_digits]. intros [Hc Hs]%andb_true_iff.
  destruct c as [[] [] [] [] [] [] [] []]; vm_compute in Hc; try discriminate Hc;
    try reflexivity.
  destruct s as [|c2 s2]; [reflexivity|].
  cbn [all_digits] in Hs. apply andb_true_iff in Hs as [Hc2 _].
  destruct c2 as [[] [] [] [] [] [] [] []]; vm_compute in Hc2; try discriminate Hc2;
    reflexivity.
Qed.

Lemma digit_val_pretty (d : N) :
  (d < 10)%N -> Str.digit_val (pretty_N_char d) = Some (Z.of_N d).
Proof.
  intros Hd.
  assert (d = 0 \/ d = 1 \/ d = 2 \/ d = 3 \/ d = 4 \/ d = 5 \/ d = 6 \/
          d = 7 \/ d = 8 \/ d = 9)%N as Hcases by lia.
  destruct_or!; subst d; reflexivity.
Qed.

Lemma digits_cons (c : ascii) (s : string) (d : Z) (a : option Z) :
  Str.digit_val c = Some d -> (d < 10)%Z ->
  Str.digits 10 (String c s) a = Str.digits 10 s (Some (default 0 a * 10 + d))%Z.
Proof.
  intros Hc Hd. cbn [Str.digits]. rewrite Hc.
  by destruct (Z.ltb_spec d 10); [|lia].
Qed.

Lemma digits_pretty_N_go (x : N) (s : string) (a : option Z) :
  (0 < x)%N -> default 0%Z a = 0%Z ->
  Str.digits 10 (pretty_N_go x s) a = Str.digits 10 s (Some (Z.of_N x)).
Proof.
  revert s. induction (N.lt_wf_0 x) as [x _ IH]; intros s Hx Ha.
  rewrite pretty_N_go_step by done.
  assert (Hm : (x `mod` 10 < 10)%N) by (by apply N.mod_lt).
  assert (Hdm : x = (10 * (x `div` 10) + x `mod` 10)%N) by (by apply N.div_mod).
  assert (x `div` 10 = 0 \/ 0 < x `div` 10)%N as [Hz|Hpos] by lia.
  - rewrite Hz, pretty_N_go_0.
    rewrite (digits_cons _ _ (Z.of_N (x `mod` 10))) by (by apply digit_val_pretty || lia).
    rewrite Ha.
    assert (Hval : (0 * 10 + Z.of_N (x `mod` 10))%Z = Z.of_N x) by lia.
    by rewrite Hval.
  - rewrite IH; [|by apply N.div_lt|done|done].
    rewrite (digits_cons _ _ (Z.of_N (x `mod` 10))) by (by apply digit_val_pretty || lia).
    assert (Hval : (default 0 (Some (Z.of_N (x `div` 10))) * 10
                    + Z.of_N (x `mod` 10))%Z = Z.of_N x) by (cbn; lia).
    by rewrite Hval.
Qed.

Lemma digits_pretty_Z (n : Z) (a : option Z) :
  (0 <= n)%Z -> default 0%Z a = 0%Z -> Str.digits 10 (pretty n) a = Some n.
Proof.
  intros Hn Ha. destruct n as [|p|p]; [|  |lia].
  - change (pretty 0%Z) with "0". rewrite (digits_cons _ _ 0%Z) by done.
    by rewrite Ha.
  - change (pretty (Z.pos p)) with (pretty_N_go (N.pos p) "").
    by rewrite digits_pretty_N_go.
Qed.

Lemma digits_zeros (k : nat) (t : string) (a : option Z) :
  default 0%Z a = 0%Z ->
  exists a', default 0%Z a' = 0%Z /\
    Str.digits 10 (Str.repeat_str k "0" ++ t) a = Str.digits 10 t a'.
Proof.
  revert a. induction k as [|k IH]; intros a Ha; [by exists a|].
  cbn [Str.repeat_str]. rewrite append_assoc.
  change ("0" ++ ?x) with (String "0" x).
  rewrite (digits_cons _ _ 0%Z) by done. rewrite Ha. by apply IH.
Qed.

(** [parseInt] reads back what [String(sequence).padStart(5, '0')] wrote. *)
Lemma parseInt_padStart (k : nat) (n : Z) :
  (0 <= n)%Z -> Str.parseInt (Str.padStart k "0" (pretty n)) = Some n.
Proof.
  intros Hn. rewrite parseInt_digits by (apply padStart_digits, pretty_Z_digits, Hn).
  unfold Str.padStart.
  destruct (digits_zeros (k - String.length (pretty n)) (pretty n) None eq_refl)
    as (a' & Ha' & ->).
  by apply digits_pretty_Z.
Qed.

Lemma default_Some {A : Type} (d x : A) : default d (Some x) = x.
Proof. reflexivity. Qed.

Lemma next_sequence_after (now : Date) (l : Submission) (n : Z) :
  (0 <= n)%Z ->
  submissionNumber l = Some (format_number now (Some n)) ->
  next_sequence (Some l) = Some (n + 1)%Z.
Proof.
  intros Hn Hl. unfold next_sequence, number_or_empty.
  rewrite Hl, default_Some, split_format_number, default_Some by done.
  by rewrite parseInt_padStart.
Qed.
End Number_format.

Section Create_cases.
Import Model Mongoose Controller Inv.

(** What a creation leaves behind: either no submission and no change to
    the forms, or the document the hook completed, appended under the
    next id. *)
Lemma create_cases (now : Date) (req : CreateRequest) (st : Store) :
  let r := createSubmission now req st in
  let wanted := default "submitted" (b_status (cr_body req)) in
  (code r.1 <> 201 /\ submissions r.2 = submissions st /\ forms r.2 = forms st /\
   workflows r.2 = workflows st /\ bucket r.2 = bucket st /\
   next_oid st <= next_oid r.2) \/
  (exists (f : Form) (ua : string),
     let d := pre_save now (submissions st) true
                (new_submission now (next_oid st) f req wanted ua) in
     r.1 = json 201 true None (Some d) /\
     submissions r.2 = (submissions st ++ [d])%list /\
     next_oid r.2 = S (next_oid st) /\
     workflows r.2 = workflows st /\ bucket r.2 = bucket st /\
     unique_ok d (submissions st) = true /\
     List.find (fun f => Nat.eqb (f_id f) (b_form (cr_body req))) (forms st) = Some f /\
     cr_userAgent req = Some ua).
Proof.
  cbn zeta. unfold createSubmission, handler, Form_findById. run_M.
  destruct (List.find _ (forms st)) as [f|] eqn:Hf; [|left; by cbn].
  destruct (_ && _); [left; by cbn|].
  destruct (negb (canSubmit _ _)); [left; by cbn|].
  set (wanted := default "submitted" (b_status (cr_body req))).
  destruct (check_existing_gate f req wanted st) as [->|[msg ->]]; [|left; by cbn].
  run_M.
  destruct (check_scheduling_gate now f st) as [->|[msg ->]]; [|left; by cbn].
  run_M.
  destruct (check_quotas_gate f req st) as [->|[msg ->]]; [|left; by cbn].
  run_M.
  destruct (cr_userAgent req) as [ua|]; [|left; by cbn].
  unfold Submission_create. run_M.
  set (doc := new_submission now (next_oid st) f req wanted ua).
  set (stn := set_next_oid (S (next_oid st)) st).
  destruct (save_new_cases now doc stn) as [[msg ->]|(Hv & Hu & ->)].
  { left. cbn. split_and!; try done. lia. }
  right. exists f, ua. unfold Form_count_submission.
  destruct (negb (is_draft wanted)); run_M; by split_and!.
Qed.
End Create_cases.

Section Numbering.
Import Model Mongoose Controller Inv.

Lemma ltb_leb (a b : string) : String.ltb a b = true -> String.leb a b = true.
Proof. unfold String.ltb, String.leb. by destruct (String.compare a b). Qed.

Lemma not_ltb_leb (a b : string) : String.ltb a b = false -> String.leb b a = true.
Proof.
  unfold String.ltb, String.leb. rewrite (String.compare_antisym a b).
  by destruct (String.compare b a).
Qed.

Lemma leb_trans (a b c : string) :
  String.leb a b = true -> String.leb b c = true -> String.leb a c = true.
Proof.
  intros H1 H2. apply Is_true_true.
  apply (@transitivity _ String.le _ a b c); by apply Is_true_true.
Qed.

Lemma leb_refl (a : string) : String.leb a a = true.
Proof. apply Is_true_true. apply (@reflexivity _ String.le _ a). Qed.

(** The query of the hook answers with a document of the collection whose
    number starts with the prefix and is greatest, in string order, among
    those that do. *)
Lemma findLast_greatest (p : string) (subs : list Submission) (b : Submission) :
  findLast p subs = Some b ->
  In b subs /\
  exists nb, submissionNumber b = Some nb /\ String.prefix p nb = true /\
    forall t n, In t subs -> submissionNumber t = Some n ->
                String.prefix p n = true -> String.leb n nb = true.
Proof.
  revert b. induction subs as [|s subs IH]; intros b; [done|].
  cbn [findLast foldr]. fold (findLast p subs).
  destruct (submissionNumber s) as [n|] eqn:Hn.
  - destruct (String.prefix p n) eqn:Hp.
    + destruct (findLast p subs) as [b0|] eqn:Hb0.
      * destruct (IH b0 eq_refl) as (Hin & nb & Hnb & Hpb & Hmax).
        unfold number_or_empty. rewrite Hnb. cbn [default from_option id].
        destruct (String.ltb nb n) eqn:Hlt; intros [= <-].
        -- split; [by left|]. exists n. split_and!; try done.
           intros t m [<-|Ht] Hm Hpm.
           ++ rewrite Hn in Hm. injection Hm as <-. apply leb_refl.
           ++ eapply leb_trans; [by eapply Hmax|by apply ltb_leb].
        -- split; [by right|]. exists nb. split_and!; try done.
           intros t m [<-|Ht] Hm Hpm.
           ++ rewrite Hn in Hm. injection Hm as <-. by apply not_ltb_leb.
           ++ by eapply Hmax.
      * intros [= <-]. split; [by left|]. exists n. split_and!; try done.
        intros t m [<-|Ht] Hm Hpm.
        -- rewrite Hn in Hm. injection Hm as <-. apply leb_refl.
        -- exfalso. clear IH. induction subs as [|u subs IHs]; [done|].
           cbn [findLast foldr] in Hb0. fold (findLast p subs) in Hb0.
           destruct Ht as [<-|Ht].
           ++ rewrite Hm, Hpm in Hb0. by destruct (findLast p subs); [case_match|].
           ++ apply IHs; [|done]. destruct (submissionNumber u) as [nu|]; [|done].
              destruct (String.prefix p nu); [|done].
              by destruct (findLast p subs); [case_match|].
    + intros Hb. destruct (IH b Hb) as (Hin & nb & Hnb & Hpb & Hmax).
      split; [by right|]. exists nb. split_and!; try done.
      intros t m [<-|Ht] Hm Hpm; [congruence|by eapply Hmax].
  - intros Hb. destruct (IH b Hb) as (Hin & nb & Hnb & Hpb & Hmax).
    split; [by right|]. exists nb. split_and!; try done.
    intros t m [<-|Ht] Hm Hpm; [congruence|by eapply Hmax].
Qed.

Lemma findLast_None (p : string) (subs : list Submission) (t : Submission) (n : string) :
  findLast p subs = None -> In t subs -> submissionNumber t = Some n ->
  String.prefix p n = false.
Proof.
  induction subs as [|u subs IH]; [done|].
  cbn [findLast foldr]. fold (findLast p subs). intros Hnone [<-|Ht] Hn.
  - rewrite Hn in Hnone. destruct (String.prefix p n); [|done].
    by destruct (findLast p subs); [case_match|].
  - apply IH; [|done|done]. destruct (submissionNumber u) as [nu|]; [|done].
    destruct (String.prefix p nu); [|done].
    by destruct (findLast p subs); [case_match|].
Qed.

Lemma pre_save_number (now : Date) (subs : list Submission) (doc : Submission) :
  truthy (submissionNumber doc) = false ->
  submissionNumber (pre_save now subs true doc)
  = Some (format_number now (next_sequence (findLast (month_prefix now) subs))).
Proof.
  intros Hno. unfold pre_save, needs_number. cbn [submissionNumber set_updatedAt].
  by rewrite Hno.
Qed.

(** X16: The number a successful creation gets: the first of the month when
    no number of the month is stored, and otherwise the successor of the
    greatest stored one, as long as that one's sequence is below 2^53,
    where the hook's arithmetic on doubles is exact. *)
Theorem create_numbers_in_sequence (now : Date) (req : CreateRequest) (st : Store) :
  code (createSubmission now req st).1 = 201 ->
  exists d : Submission,
    payload (createSubmission now req st).1 = Some d /\
    In d (submissions (createSubmission now req st).2) /\
    match findLast (month_prefix now) (submissions st) with
    | None => submissionNumber d = Some (month_prefix now ++ "00001")
    | Some l =>
        forall n : Z, (0 <= n < 2 ^ 53)%Z ->
          submissionNumber l = Some (format_number now (Some n)) ->
          submissionNumber d = Some (format_number now (Some (n + 1)%Z))
    end.
Proof.
  intros Hok. destruct (create_cases now req st) as [(Hno & _)|(f & ua & Hcase)]; [done|].
  cbn zeta in Hcase. destruct Hcase as (Hr & Hsubs & _).
  eexists. rewrite Hr, Hsubs. split; [reflexivity|].
  split; [apply in_app_iff; right; by left|].
  rewrite pre_save_number by done.
  destruct (findLast _ _) as [l|]; [|done].
  intros n [Hn _] Hl. by rewrite (next_sequence_after now l n).
Qed.
End Numbering.

Section Overflow_and_invariant.
Import Model Mongoose Controller Inv.

(** X17: When the month already holds the numbers 99999 and 100000 and no
    number of the month sorts after 99999, the hook computes 100000 once
    more and the unique index refuses it: every creation fails. *)
Theorem create_after_month_overflow (now : Date) (req : CreateRequest)
    (st : Store) (l9 l10 : Submission) :
  In l9 (submissions st) ->
  submissionNumber l9 = Some (format_number now (Some 99999%Z)) ->
  In l10 (submissions st) ->
  submissionNumber l10 = Some (format_number now (Some 100000%Z)) ->
  s_id l10 < next_oid st ->
  (forall t n, In t (submissions st) -> submissionNumber t = Some n ->
               String.prefix (month_prefix now) n = true ->
               String.leb n (format_number now (Some 99999%Z)) = true) ->
  code (createSubmission now req st).1 <> 201 /\
  submissions (createSubmission now req st).2 = submissions st.
Proof.
  intros Hin9 Hn9 Hin10 Hn10 Hid Hmax.
  destruct (create_cases now req st) as [(Hno & Hsubs & _)|(f & ua & Hcase)]; [done|].
  exfalso. cbn zeta in Hcase. destruct Hcase as (_ & _ & _ & _ & _ & Huniq & _).
  set (d := pre_save now (submissions st) true
              (new_submission now (next_oid st) f req
                 (default "submitted" (b_status (cr_body req))) ua)) in *.
  assert (Hp9 : String.prefix (month_prefix now) (format_number now (Some 99999%Z)) = true)
    by apply prefix_app.
  assert (Hnum : submissionNumber d = Some (format_number now (Some 100000%Z))).
  { subst d. rewrite pre_save_number by done.
    destruct (findLast (month_prefix now) (submissions st)) as [b|] eqn:Hb.
    - destruct (findLast_greatest _ _ _ Hb) as (Hinb & nb & Hnb & Hpb & Hgreatest).
      assert (nb = format_number now (Some 99999%Z)) as ->.
      { apply String.leb_antisym;
          [exact (Hmax b nb Hinb Hnb Hpb)|exact (Hgreatest l9 _ Hin9 Hn9 Hp9)]. }
      by rewrite (next_sequence_after now b 99999%Z).
    - pose proof (findLast_None _ _ _ _ Hb Hin9 Hn9) as Habs.
      rewrite Hp9 in Habs. discriminate Habs. }
  assert (Hidd : s_id d = next_oid st) by (subst d; unfold pre_save; by case_match).
  unfold unique_ok in Huniq. rewrite forallb_forall in Huniq.
  specialize (Huniq l10 Hin10). rewrite Hidd, Hn10, Hnum in Huniq.
  rewrite bool_decide_eq_true_2 in Huniq by done.
  apply orb_true_iff in Huniq as [Heq%Nat.eqb_eq|]; [lia|done].
Qed.

Lemma well_formed_same (st st' : Store) :
  List.map s_id (submissions st') = List.map s_id (submissions st) ->
  List.map submissionNumber (submissions st') = List.map submissionNumber (submissions st) ->
  next_oid st <= next_oid st' ->
  well_formed st -> well_formed st'.
Proof.
  unfold well_formed. intros Hids Hnums Hnext (Hnd & Hnn & Hlt).
  rewrite Hids, Hnums. split_and!; try done.
  apply List.Forall_forall. intros t Ht.
  assert (In (s_id t) (List.map s_id (submissions st'))) as Hi by (by apply in_map).
  rewrite Hids in Hi. apply in_map_iff in Hi as (u & Hu & Hinu).
  rewrite List.Forall_forall in Hlt. specialize (Hlt u Hinu). lia.
Qed.

Lemma marked_ids (l l' : list Submission) :
  Forall2 marked l l' ->
  List.map s_id l' = List.map s_id l /\
  List.map submissionNumber l' = List.map submissionNumber l.
Proof.
  induction 1 as [|a b l l' [Hab _] _ [IH1 IH2]]; [done|]. cbn. rewrite IH1, IH2.
  split; f_equal.
  - by apply (f_equal s_id) in Hab.
  - by apply (f_equal submissionNumber) in Hab.
Qed.

(** X18: The three handlers keep the collection well formed: ids stay unique
    and below the generator, numbers stay unique. *)
Theorem handlers_keep_store_well_formed (now : Date) (st : Store) :
  well_formed st ->
  (forall req, well_formed (createSubmission now req st).2) /\
  (forall req, well_formed (updateSubmissionStatus now req st).2) /\
  (forall req, well_formed (deleteSubmission now req st).2).
Proof.
  intros Hwf. split_and!; intros req.
  - destruct (create_cases now req st) as [(_ & Hsubs & _ & _ & _ & Hn)|(f & ua & Hcase)].
    + apply (well_formed_same st); [by rewrite Hsubs..|done|done].
    + cbn zeta in Hcase. destruct Hcase as (_ & Hsubs & Hn & _ & _ & Huniq & _).
      set (d := pre_save now (submissions st) true
                  (new_submission now (next_oid st) f req
                     (default "submitted" (b_status (cr_body req))) ua)) in *.
      assert (Hidd : s_id d = next_oid st) by (subst d; unfold pre_save; by case_match).
      destruct Hwf as (Hnd & Hnn & Hlt). unfold well_formed.
      rewrite Hsubs, Hn, !map_app. cbn [List.map]. rewrite List.Forall_forall in Hlt.
      split_and!.
      * apply NoDup_app. split_and!; [done| |apply NoDup_singleton].
        intros i Hi ->%list_elem_of_singleton.
        apply list_elem_of_In, in_map_iff in Hi as (u & Hu & Hinu).
        specialize (Hlt u Hinu). lia.
      * apply NoDup_app. split_and!; [done| |apply NoDup_singleton].
        intros n Hi ->%list_elem_of_singleton.
        apply list_elem_of_In, in_map_iff in Hi as (u & Hu & Hinu).
        unfold unique_ok in Huniq. rewrite forallb_forall in Huniq.
        specialize (Huniq u Hinu). specialize (Hlt u Hinu).
        rewrite Hu, bool_decide_eq_true_2 in Huniq by done.
        apply orb_true_iff in Huniq as [Heq%Nat.eqb_eq|]; [lia|done].
      * apply Forall_app. split.
        -- apply List.Forall_forall. intros u Hu. specialize (Hlt u Hu). lia.
        -- apply Forall_singleton. lia.
  - destruct (updateSubmissionStatus_extends now req st (proj1 Hwf))
      as (He & _ & _ & _ & Hn & _).
    apply (well_formed_same st);
      [by apply evolves_ids|by apply evolves_numbers|by rewrite Hn|done].
  - destruct (deleteSubmission_marks now req st (proj1 Hwf)) as (Hm & _ & _ & Hn).
    destruct (marked_ids _ _ Hm). apply (well_formed_same st); [done|done|by rewrite Hn|done].
Qed.
End Overflow_and_invariant.

Section Page_properties.
Import Js FormView FormEdit.
Context {H : Host}.

(** What a field's callback leaves under a key was there before or is one
    of the field's own messages. *)
Lemma validate_field_entry (st : @State H) (e0 e1 : gmap string string)
    (f : @Field H) (k msg : string) :
  validate_field st e0 f = Normal e1 ->
  e1 !! k = Some msg ->
  e0 !! k = Some msg \/
  (id f = k /\ hidden f = false /\
   evaluateCondition (formData st) f = Normal true /\
   exists msgs, field_writes st f = Normal msgs /\ In msg msgs).
Proof.
  unfold validate_field. intros Hv Hk.
  destruct (hidden f) eqn:Hh; [injection Hv as <-; by left|].
  destruct (evaluateCondition (formData st) f) as [[|]|] eqn:Hc; try done.
  - destruct (field_writes st f) as [msgs|] eqn:Hw; [|done]. injection Hv as <-.
    destruct (decide (id f = k)) as [<-|Hne].
    + destruct (String.eqb (id f) "__proto__") eqn:Hkey;
        [unfold assign in Hk; rewrite Hkey in Hk; by left|].
      rewrite assign_lookup in Hk by done.
      destruct (last msgs) as [m|] eqn:Hl; [|by left].
      right. split_and!; try done. exists msgs. split; [done|].
      injection Hk as <-. apply list_elem_of_In. apply last_Some in Hl as [l' ->].
      set_solver.
    + rewrite assign_lookup_ne in Hk by done. by left.
  - injection Hv as <-. by left.
Qed.

Lemma validate_fields_entry (st : @State H) (fs : list (@Field H))
    (e0 e1 : gmap string string) (k msg : string) :
  validate_fields st e0 fs = Normal e1 ->
  e1 !! k = Some msg ->
  e0 !! k = Some msg \/
  exists f, In f fs /\ id f = k /\ hidden f = false /\
    evaluateCondition (formData st) f = Normal true /\
    exists msgs, field_writes st f = Normal msgs /\ In msg msgs.
Proof.
  revert e0. induction fs as [|g fs IH]; intros e0; cbn [validate_fields].
  - intros [= <-] Hk. by left.
  - destruct (validate_field st e0 g) as [eg|] eqn:Hg; [|done].
    intros Hrest Hk. destruct (IH eg Hrest Hk) as [Hin|(f & Hf & Hrestf)].
    + destruct (validate_field_entry _ _ _ _ _ _ Hg Hin) as [?|Hown]; [by left|].
      right. exists g. split; [by left|done].
    + right. exists f. split; [by right|done].
Qed.

(** X19: Every error [validateForm] reports belongs to a field of the current
    page that is neither hidden nor switched off by its condition, and is
    one of the messages that field's checks wrote. *)
Theorem errors_belong_to_shown_fields (st : @State H) (fs : list (@Field H))
    (errs : gmap string string) (ok : bool) (k msg : string) :
  currentFields st = Normal fs ->
  validateForm st = Normal (errs, ok) ->
  errs !! k = Some msg ->
  exists f, In f fs /\ id f = k /\ hidden f = false /\
    evaluateCondition (formData st) f = Normal true /\
    exists msgs, field_writes st f = Normal msgs /\ In msg msgs.
Proof.
  intros Hfs. unfold validateForm. rewrite Hfs.
  destruct (validate_fields st ∅ fs) as [e|] eqn:Hv; [|done].
  intros [= <- <-] Hk.
  by destruct (validate_fields_entry _ _ _ _ _ _ Hv Hk) as [Hempty|Hf].
Qed.

(** *** A rule that throws *)
Lemma eval_rules_abrupt (data : gmap string (value H)) (rs : list (@Rule H))
    (r : @Rule H) (e : string) :
  In r rs -> eval_rule data r = Abrupt e ->
  exists e', eval_rules data rs = Abrupt e'.
Proof.
  induction rs as [|r0 rs IH]; [done|]. intros [->|Hin] Hr; cbn [eval_rules].
  - rewrite Hr. by eexists.
  - destruct (eval_rule data r0); [|by eexists].
    destruct (IH Hin Hr) as [e' ->]. by eexists.
Qed.

Lemma validate_fields_abrupt (st : @State H) (fs : list (@Field H)) (f : @Field H)
    (e0 : gmap string string) :
  In f fs -> (forall e1, exists e, validate_field st e1 f = Abrupt e) ->
  exists e, validate_fields st e0 fs = Abrupt e.
Proof.
  revert e0. induction fs as [|g fs IH]; intros e0; [done|].
  intros [->|Hin] Hf; cbn [validate_fields].
  - destruct (Hf e0) as [e ->]. by eexists.
  - destruct (validate_field st e0 g); [by apply IH|by eexists].
Qed.

(** X20: An [in] or [not_in] rule whose value is neither an array nor a string
    throws, and with it the whole validation: no error map is set and
    nothing is returned.  The field must be one [validateForm] looks at:
    on the current page, not hidden, its condition enabled. *)
Theorem membership_rule_without_list_throws (st : @State H) (fs : list (@Field H))
    (f : @Field H) (c : @Conditional H) (rs : list (@Rule H)) (r : @Rule H) :
  currentFields st = Normal fs ->
  In f fs -> hidden f = false ->
  conditional f = Some c -> enabled c = true -> rules c = Some rs ->
  In r rs ->
  r_operator r = Some "in" \/ r_operator r = Some "not_in" ->
  isArray (r_value r) = false ->
  (forall s, r_value r <> VStr s) ->
  exists e, validateForm st = Abrupt e.
Proof.
  intros Hfs Hin Hvis Hc Hen Hrs Hr Hop Harr Hstr.
  assert (Hthrow : exists e, eval_rule (formData st) r = Abrupt e).
  { unfold eval_rule.
    destruct Hop as [Hop|Hop]; rewrite Hop; cbn;
      destruct (r_value r) as [| | | |s| |] eqn:Hv; try done; try (by eexists);
      by destruct (Hstr s). }
  destruct Hthrow as [e He].
  destruct (eval_rules_abrupt _ _ _ _ Hr He) as [e' He'].
  assert (Hcond : evaluateCondition (formData st) f = Abrupt e').
  { rewrite (evaluateCondition_enabled _ _ c rs) by (try done; by destruct rs).
    by rewrite He'. }
  unfold validateForm. rewrite Hfs.
  destruct (validate_fields_abrupt st fs f ∅ Hin) as [e'' ->]; [|by eexists].
  intros e1. unfold validate_field. rewrite Hvis, Hcond. by eexists.
Qed.

(** *** Complementary operators *)

Ltac pick_case :=
  cbn [r_operator r_field r_value with_operator];
  repeat match goal with
         | |- context [@bool_decide (Some ?a = Some ?b) ?d] =>
             let v := eval vm_compute in (@bool_decide (Some a = Some b) d) in
             change (@bool_decide (Some a = Some b) d) with v
         end;
  cbn.

(** X21: [not_equals], [not_contains], [is_not_empty] and [not_in] are the
    exact complements of [equals], [contains], [is_empty] and [in]: on the
    same data one is truthy exactly when the other is not, and one throws
    exactly when the other does. *)
Theorem negated_operator_is_complement (data : gmap string (value H))
    (r : @Rule H) (op nop : string) :
  negated op = Some nop ->
  match eval_rule data (with_operator op r),
        eval_rule data (with_operator nop r) with
  | Normal v, Normal w => truthy w = negb (truthy v)
  | Abrupt e, Abrupt e' => e = e'
  | _, _ => False
  end.
Proof.
  unfold negated. intros Hn.
  destruct (String.eqb_spec op "equals") as [->|_].
  { injection Hn as <-. by unfold eval_rule; pick_case. }
  destruct (String.eqb_spec op "contains") as [->|_].
  { injection Hn as <-. by unfold eval_rule; pick_case. }
  destruct (String.eqb_spec op "is_empty") as [->|_].
  { injection Hn as <-. unfold eval_rule; pick_case.
    by destruct (truthy _), (isArray _), (bool_decide _). }
  destruct (String.eqb_spec op "in") as [->|_]; [|done].
  injection Hn as <-. unfold eval_rule; pick_case. by destruct (includes _ _).
Qed.

(** *** Visibility reads the referenced fields only *)
Lemma eval_rules_agree (data data' : gmap string (value H)) (rs : list (@Rule H)) :
  (forall r, In r rs -> data !! r_field r = data' !! r_field r) ->
  eval_rules data rs = eval_rules data' rs.
Proof.
  induction rs as [|r rs IH]; [done|]. intros Hag. cbn [eval_rules].
  assert (Hr : eval_rule data r = eval_rule data' r).
  { unfold eval_rule, read. by rewrite (Hag r (or_introl eq_refl)). }
  rewrite Hr, IH; [done|]. intros r' Hr'. apply Hag. by right.
Qed.

(** X22: Whether a field is shown depends on the form data only through the
    fields its rules name: two data maps that agree there give the same
    answer, throws included. *)
Theorem visibility_reads_named_fields_only (data data' : gmap string (value H))
    (f : @Field H) :
  (forall c rs r, conditional f = Some c -> rules c = Some rs -> In r rs ->
                  data !! r_field r = data' !! r_field r) ->
  evaluateCondition data f = evaluateCondition data' f.
Proof.
  intros Hag. unfold evaluateCondition.
  destruct (conditional f) as [c|] eqn:Hc; [|done].
  destruct (rules c) as [[|r rs]|] eqn:Hrs; [done| |done].
  destruct (negb (enabled c)); [done|].
  rewrite (eval_rules_agree data data' (r :: rs)); [done|].
  intros r' Hr'. exact (Hag c (r :: rs) r' eq_refl Hrs Hr').
Qed.
(** *** Nested items and uploaded files *)

(** [validateForm] looks at the nested lists only through their lengths. *)
Lemma validate_fields_agree (st st' : @State H) (fs : list (@Field H))
    (e0 : gmap string string) :
  formData st' = formData st -> uploadedFiles st' = uploadedFiles st ->
  (forall k, List.length (default [] (nestedSubmissions st' !! k))
             = List.length (default [] (nestedSubmissions st !! k))) ->
  validate_fields st' e0 fs = validate_fields st e0 fs.
Proof.
  intros Hd Hu Hn. revert e0. induction fs as [|g fs IH]; intros e0; [done|].
  cbn [validate_fields].
  assert (Hg : validate_field st' e0 g = validate_field st e0 g).
  { unfold validate_field, field_writes, value_writes, required_writes, nested_writes.
    by rewrite Hd, Hu, Hn. }
  rewrite Hg. destruct (validate_field st e0 g); [apply IH|done].
Qed.

Lemma validateForm_agree (st st' : @State H) :
  form st' = form st -> currentPage st' = currentPage st ->
  formData st' = formData st -> uploadedFiles st' = uploadedFiles st ->
  (forall k, List.length (default [] (nestedSubmissions st' !! k))
             = List.length (default [] (nestedSubmissions st !! k))) ->
  validateForm st' = validateForm st.
Proof.
  intros Hf Hp Hd Hu Hn. unfold validateForm, currentFields. rewrite Hf, Hp.
  destruct (match form st with Some _ => _ | None => _ end); [|done].
  by rewrite (validate_fields_agree st st').
Qed.

(** X23: Editing a nested item never changes what validation says: the item
    count is all [validateForm] reads of the nested lists. *)
Theorem update_item_keeps_validation (st st' : @State H) (fieldId : string)
    (index : number H) (data : gmap string (value H)) :
  updateNestedItem fieldId index data st = Normal st' ->
  validateForm st' = validateForm st.
Proof.
  unfold updateNestedItem.
  destruct (nestedSubmissions st !! fieldId) as [items|] eqn:Hitems; [|done].
  intros [= <-]. apply validateForm_agree; try done.
  intros k. cbn [nestedSubmissions set_nestedSubmissions].
  destruct (decide (fieldId = k)) as [<-|Hne].
  - rewrite lookup_insert_eq, Hitems. cbn. by rewrite length_imap.
  - by rewrite lookup_insert_ne.
Qed.



(** X25: After the file of a required file field is removed, validation does
    not pass: unless it throws, [validateForm] returns [false] with an
    entry for the field.  The field is on the current page, not hidden and
    shown by its condition; on that page neither an id nor a field named
    by a rule is the name of a member of [Object.prototype]. *)
Theorem removed_required_file_fails_validation (st : @State H)
    (fs : list (@Field H)) (f : @Field H) (errs : gmap string string) (ok : bool) :
  currentFields st = Normal fs ->
  NoDup (List.map id fs) ->
  own_keys fs = true ->
  In f fs ->
  hidden f = false ->
  required f = true ->
  is_type f "file" || is_type f "image" = true ->
  evaluateCondition (formData st) f = Normal true ->
  validateForm (handleFileRemove (id f) st) = Normal (errs, ok) ->
  ok = false /\ exists msg, errs !! id f = Some msg.
Proof.
  intros Hfs Hnd Hown Hin Hvis Hreq Hfile Hshown.
  pose proof (own_keys_id fs f Hown Hin) as Hid.
  set (st' := handleFileRemove (id f) st).
  assert (Hfs' : currentFields st' = Normal fs) by exact Hfs.
  unfold validateForm. rewrite Hfs'.
  destruct (validate_fields st' ∅ fs) as [e|] eqn:Hv; [|done].
  intros [= <- <-].
  destruct (validate_fields_at _ _ _ _ _ Hnd Hin Hv) as (e0 & e1 & Hf & He0 & He1).
  unfold validate_field in Hf. rewrite Hvis in Hf.
  change (formData st') with (formData st) in Hf. rewrite Hshown in Hf.
  destruct (field_writes st' f) as [msgs|] eqn:Hw; [|done]. injection Hf as <-.
  assert (Hmsgs : exists m, last msgs = Some m).
  { unfold field_writes in Hw. destruct (value_writes st' f) as [ws|]; [|done].
    injection Hw as <-. unfold required_writes. rewrite Hreq, Hfile.
    subst st'. cbn [uploadedFiles handleFileRemove set_uploadedFiles].
    rewrite lookup_delete_eq, bool_decide_eq_true_2, Hid by done.
    cbn [write_if List.concat app negb andb].
    destruct (ws ++ nested_writes _ f ++ [])%list as [|w l] eqn:Hrest using rev_ind.
    - by eexists.
    - rewrite app_comm_cons, last_snoc. by eexists. }
  destruct Hmsgs as [m Hm].
  assert (Hentry : e !! id f = Some m)
    by (by rewrite He1, assign_lookup, Hm by (by apply not_inherited_setter)).
  split; [|by eexists].
  apply bool_decide_eq_false_2. intros ->. by rewrite lookup_empty in Hentry.
Qed.
End Page_properties.

Section Server_witnesses.
Import Model Mongoose Controller Inv Scenario Cases.

Lemma NoDup_family_ids : NoDup (List.map s_id family).
Proof. apply (bool_decide_unpack _). by vm_compute. Qed.

Lemma status_update_of_missing_is_404_witness :
  updateSubmissionStatus may2024 (update (status_body (Some "approved") None))
    (store_of [orders] [])
  = (not_found, store_of [orders] []).
Proof.
  apply status_update_of_missing_is_404. intros s Hs. vm_compute in Hs. discriminate Hs.
Defined.

Lemma status_update_only_extends_witness :
  evolves family
    (submissions (updateSubmissionStatus may2024
                    (update (status_body (Some "approved") None))
                    (store_of [orders] family)).2) /\
  frame (has_id 20) family
    (submissions (updateSubmissionStatus may2024
                    (update (status_body (Some "approved") None))
                    (store_of [orders] family)).2) /\
  forms (updateSubmissionStatus may2024 (update (status_body (Some "approved") None))
           (store_of [orders] family)).2 = [orders] /\
  workflows (updateSubmissionStatus may2024 (update (status_body (Some "approved") None))
               (store_of [orders] family)).2 = [approval] /\
  next_oid (updateSubmissionStatus may2024 (update (status_body (Some "approved") None))
              (store_of [orders] family)).2 = 30 /\
  bucket (updateSubmissionStatus may2024 (update (status_body (Some "approved") None))
            (store_of [orders] family)).2 = None.
Proof.
  apply (status_update_only_extends may2024
           (update (status_body (Some "approved") None)) (store_of [orders] family)).
  apply (bool_decide_unpack _). by vm_compute.
Defined.

Lemma status_update_bad_status_writes_nothing_witness :
  exists msg : string,
    updateSubmissionStatus may2024 (update (status_body (Some "lost") None))
      (store_of [orders] [first])
    = (json 500 false (Some msg) None, store_of [orders] [first]).
Proof.
  apply (status_update_bad_status_writes_nothing may2024
           (update (status_body (Some "lost") None)) (store_of [orders] [first]) first);
    reflexivity.
Defined.

Lemma status_update_bad_priority_keeps_status_witness :
  exists (msg : string) (st' : Store) (s' : Submission),
    updateSubmissionStatus may2024
      (update (status_body (Some "approved") (Some "asap"))) (store_of [orders] [first])
    = (json 500 false (Some msg) None, st') /\
    List.find (fun t => Nat.eqb (s_id t) 20) (submissions st') = Some s' /\
    status s' = "approved" /\ priority s' = "medium" /\
    List.length (workflowHistory s') = 3.
Proof.
  apply (status_update_bad_priority_keeps_status may2024
           (update (status_body (Some "approved") (Some "asap")))
           (store_of [orders] [first]) first); reflexivity.
Defined.

Lemma delete_twice_is_404_witness :
  exists st' : Store,
    deleteSubmission may2024 (delete_by root) (store_of [orders] family)
    = (json 200 true (Some "Submission deleted successfully") None, st') /\
    forall (later_on : Date) (again : DeleteRequest),
      dr_id again = 20 -> deleteSubmission later_on again st' = (not_found, st').
Proof.
  apply (delete_twice_is_404 may2024 (delete_by root) (store_of [orders] family)
           (stored 20 "SUB-202404-00001" "submitted" "submitted" None None) orders);
    reflexivity.
Defined.

Lemma delete_unauthorized_is_403_witness :
  deleteSubmission may2024 (delete_by carol) (store_of [orders] family)
  = (json 403 false (Some "Not authorized to delete this submission") None,
     store_of [orders] family).
Proof.
  apply (delete_unauthorized_is_403 may2024 (delete_by carol) (store_of [orders] family)
           (stored 20 "SUB-202404-00001" "submitted" "submitted" None None) orders);
    reflexivity.
Defined.

Lemma delete_without_cascade_frame_witness :
  exists (st' : Store) (s' : Submission),
    deleteSubmission may2024 (delete_by alice) (store_of [plain] family)
    = (json 200 true (Some "Submission deleted successfully") None, st') /\
    frame (has_id 20) family (submissions st') /\
    List.find (fun t => Nat.eqb (s_id t) 20) (submissions st') = Some s' /\
    isDeleted s' = true /\ deletedBy s' = Some 7.
Proof.
  apply (delete_without_cascade_frame may2024 (delete_by alice) (store_of [plain] family)
           (stored 20 "SUB-202404-00001" "submitted" "submitted" None None) plain);
    reflexivity.
Defined.

Lemma delete_with_missing_form_witness :
  exists (msg : string) (st' : Store) (s' : Submission),
    deleteSubmission may2024 (delete_by root) (store_of [] family)
    = (json 500 false (Some msg) None, st') /\
    List.find (fun t => Nat.eqb (s_id t) 20) (submissions st') = Some s' /\
    isDeleted s' = true.
Proof.
  apply (delete_with_missing_form may2024 (delete_by root) (store_of [] family)
           (stored 20 "SUB-202404-00001" "submitted" "submitted" None None));
    reflexivity.
Defined.

Lemma delete_only_marks_witness :
  Forall2 marked family
    (submissions (deleteSubmission may2024 (delete_by root) (store_of [orders] family)).2) /\
  forms (deleteSubmission may2024 (delete_by root) (store_of [orders] family)).2
  = [orders] /\
  workflows (deleteSubmission may2024 (delete_by root) (store_of [orders] family)).2
  = [approval] /\
  next_oid (deleteSubmission may2024 (delete_by root) (store_of [orders] family)).2 = 30.
Proof.
  apply (delete_only_marks may2024 (delete_by root) (store_of [orders] family)).
  apply (bool_decide_unpack _). by vm_compute.
Defined.

Lemma create_first_gates_witness :
  createSubmission may2024 (create_request alice None) (store_of [] family)
  = (json 404 false (Some "Form not found") None, store_of [] family).
Proof.
  apply (create_first_gates may2024 (create_request alice None) (store_of [] family)).
  reflexivity.
Defined.

Lemma create_single_submission_rule_witness :
  (code (createSubmission may2024 (create_request alice None)
           (store_of [once] [first])).1 = 400 \/
   code (createSubmission may2024 (create_request alice None)
           (store_of [once] [first])).1 = 403) /\
  (createSubmission may2024 (create_request alice None) (store_of [once] [first])).2
  = store_of [once] [first].
Proof.
  apply (create_single_submission_rule may2024 (create_request alice None)
           (store_of [once] [first]) once first); try reflexivity.
  by left.
Defined.

Lemma create_outside_window_witness :
  (code (createSubmission may2024 (create_request alice (Some "draft"))
           (store_of [scheduled] [])).1 = 400 \/
   code (createSubmission may2024 (create_request alice (Some "draft"))
           (store_of [scheduled] [])).1 = 403) /\
  (createSubmission may2024 (create_request alice (Some "draft"))
     (store_of [scheduled] [])).2 = store_of [scheduled] [].
Proof.
  apply (create_outside_window may2024 (create_request alice (Some "draft"))
           (store_of [scheduled] []) scheduled
           {| sch_enabled := true; startDate := Some 2000; endDate := None;
              closedMessage := None |}); try reflexivity.
  left. exists 2000. split; [reflexivity|]. cbn. lia.
Defined.

Lemma create_over_quota_witness :
  (code (createSubmission may2024 (create_request carol (Some "draft"))
           (store_of [limited] [first])).1 = 400 \/
   code (createSubmission may2024 (create_request carol (Some "draft"))
           (store_of [limited] [first])).1 = 403) /\
  (createSubmission may2024 (create_request carol (Some "draft"))
     (store_of [limited] [first])).2 = store_of [limited] [first].
Proof.
  apply (create_over_quota may2024 (create_request carol (Some "draft"))
           (store_of [limited] [first]) limited
           {| q_enabled := true; maxSubmissions := Some 1;
              quotaReachedMessage := None |} 1); reflexivity.
Defined.

Lemma create_without_user_agent_witness :
  code (createSubmission may2024 headless (store_of [orders] [])).1 <> 201 /\
  (createSubmission may2024 headless (store_of [orders] [])).2 = store_of [orders] [].
Proof.
  apply (create_without_user_agent may2024 headless (store_of [orders] [])).
  reflexivity.
Defined.

Lemma create_numbers_in_sequence_witness :
  exists d : Submission,
    payload (createSubmission april2024 (create_request alice None)
               (store_of [orders] [first])).1 = Some d /\
    submissionNumber d = Some "SUB-202404-00002".
Proof.
  destruct (create_numbers_in_sequence april2024 (create_request alice None)
              (store_of [orders] [first])) as (d & Hd & _ & Hnum);
    [reflexivity|].
  exists d. split; [exact Hd|].
  assert (Hl : findLast (month_prefix april2024) (submissions (store_of [orders] [first]))
               = Some first) by reflexivity.
  rewrite Hl in Hnum. apply (Hnum 1%Z); [lia|reflexivity].
Defined.

Lemma create_after_month_overflow_witness :
  code (createSubmission april2024 (create_request alice None)
          (store_of [orders] full_month)).1 <> 201 /\
  submissions (createSubmission april2024 (create_request alice None)
                 (store_of [orders] full_month)).2 = full_month.
Proof.
  apply (create_after_month_overflow april2024 (create_request alice None)
           (store_of [orders] full_month)
           (stored 20 "SUB-202404-99999" "submitted" "submitted" None None)
           (stored 21 "SUB-202404-100000" "submitted" "submitted" None None)).
  - by left.
  - reflexivity.
  - right. by left.
  - reflexivity.
  - cbn. lia.
  - intros t n [<-|[<-|[]]] [= <-] _; reflexivity.
Defined.

Lemma handlers_keep_store_well_formed_witness :
  (forall req, well_formed (createSubmission may2024 req (store_of [orders] family)).2) /\
  (forall req, well_formed (updateSubmissionStatus may2024 req (store_of [orders] family)).2) /\
  (forall req, well_formed (deleteSubmission may2024 req (store_of [orders] family)).2).
Proof.
  apply (handlers_keep_store_well_formed may2024 (store_of [orders] family)).
  split_and!.
  - apply (bool_decide_unpack _). by vm_compute.
  - apply (bool_decide_unpack _). by vm_compute.
  - cbn. repeat constructor; lia.
Defined.
End Server_witnesses.

Section Page_witnesses.
Import Js FormView FormEdit PageScenario PageCases.

Lemma errors_belong_to_shown_fields_witness :
  exists f : @Field IntHost.host,
    In f [code] /\ id f = "code" /\ hidden f = false /\
    evaluateCondition (formData short_code) f = Normal true /\
    exists msgs, field_writes short_code f = Normal msgs /\ In "Digits only" msgs.
Proof.
  apply (errors_belong_to_shown_fields short_code [code]
           {[ "code" := "Digits only" ]} false "code" "Digits only").
  - reflexivity.
  - vm_compute. reflexivity.
  - reflexivity.
Defined.

Lemma membership_rule_without_list_throws_witness :
  exists e : string, validateForm (page [gated] ∅) = Abrupt e.
Proof.
  apply (membership_rule_without_list_throws (page [gated] ∅) [gated] gated
           {| enabled := true; rules := Some [member_rule]; logicalOperator := None |}
           [member_rule] member_rule); try reflexivity.
  - by left.
  - by left.
  - by left.
  - intros s. discriminate.
Defined.

Lemma negated_operator_is_complement_witness :
  match eval_rule {[ "other" := VStr "a" ]} (with_operator "equals" odd_rule),
        eval_rule {[ "other" := VStr "a" ]} (with_operator "not_equals" odd_rule) with
  | Normal v, Normal w => truthy w = negb (truthy v)
  | Abrupt e, Abrupt e' => e = e'
  | _, _ => False
  end.
Proof.
  apply (negated_operator_is_complement {[ "other" := VStr "a" ]} odd_rule
           "equals" "not_equals").
  reflexivity.
Defined.

Lemma visibility_reads_named_fields_only_witness :
  evaluateCondition {[ "other" := VStr "x" ]} details
  = evaluateCondition {[ "other" := VStr "x"; "details" := VStr "y" ]} details.
Proof.
  apply (visibility_reads_named_fields_only {[ "other" := VStr "x" ]}
           {[ "other" := VStr "x"; "details" := VStr "y" ]} details).
  intros c rs r [= <-] [= <-] [<-|[]]. reflexivity.
Defined.

Lemma update_item_keeps_validation_witness :
  exists st' : @State IntHost.host,
    updateNestedItem "items" (of_nat IntHost.host 0) {[ "qty" := VStr "2" ]} with_items
    = Normal st' /\
    validateForm st' = validateForm with_items.
Proof.
  eexists. split; [reflexivity|].
  apply (update_item_keeps_validation with_items _ "items" (of_nat IntHost.host 0)
           {[ "qty" := VStr "2" ]}).
  reflexivity.
Defined.



Lemma removed_required_file_fails_validation_witness :
  exists (errs : gmap string string) (ok : bool),
    validateForm (handleFileRemove "photo" with_photo) = Normal (errs, ok) /\
    ok = false /\ exists msg, errs !! "photo" = Some msg.
Proof.
  destruct (validateForm (handleFileRemove "photo" with_photo)) as [[errs ok]|] eqn:Hv;
    [|vm_compute in Hv; discriminate].
  exists errs, ok. split; [reflexivity|].
  apply (removed_required_file_fails_validation with_photo [photo] photo errs ok);
    try reflexivity; try done.
  - apply (bool_decide_unpack _). by vm_compute.
  - by left.
Defined.
End Page_witnesses.
